(** * VecDB: an IVF vector store (vec_db.py), embedded and verified

    The development follows [src/vec_db.py].  The database file and the
    index directory are modelled as values held in one record together
    with the attribute [no_centroids] of the Python object; methods that
    only read are functions of that record, methods that write are
    programs of a small state-and-exception monad.

    Conventions of the model.
    - An [np.float32] is its four-byte little-endian memory image; its
      numerical value is decoded into [spec_float] (binary32: precision
      24, emax 128) when arithmetic is needed.
    - [self.db_path] and [self.index_path] name different, non-nested
      paths, and [self.index_path], when it exists, is a directory.
    - The posting file [<index_path>/<label>.bin] is keyed by [label].
    - [np.memmap] follows numpy 1.x - 2.1: mapping zero bytes of an empty
      file raises [ValueError].
    - sklearn's [MiniBatchKMeans], numpy's random generator and numpy's
      reductions ([np.dot], [np.linalg.norm], whose accumulation order is
      implementation-defined) are parameters of the section [Engine];
      reference instances are given for evaluation.
    - The functions of module [utils] (posting and centroid files) are
      not part of the sources; they are modelled from the interface the
      engine requires of them.  A write to an index file can fail: the
      record carries the number of index writes the disk still accepts.
    - [heapq.nlargest] is modelled by the prefix of a stable descending
      sort.  Python's result is that list whenever no key is NaN; with
      a NaN key only its length and its elements are the model's, and
      statements about order are made for keys without NaN.
    - [int(np.sqrt(n))] is modelled by the integer square root, which
      it equals for every record count below 2^52.
    - Row ids are unbounded integers; the [int64] arithmetic of a numpy
      id array wraps only for ids beyond any file size.
    - Output written by [print] is not modelled. *)

From Stdlib Require Import ZArith Lia Bool String.
From Stdlib Require Import Floats.SpecFloat.
From Stdlib Require Import Strings.Byte.
From Stdlib Require Import Sorting.Sorted.
From stdpp Require Import gmap list strings.

Local Open Scope Z_scope.

(** ** Exceptions and outcomes *)

Inductive exn :=
| FileNotFoundError (msg : string)
| ValueError (msg : string)
| OverflowError (msg : string)
| OSError (msg : string)
| IndexError (msg : string)
| TypeError (msg : string).

(** [str(e)] *)
Definition exn_str (e : exn) : string :=
  match e with
  | FileNotFoundError m | ValueError m | OverflowError m
  | OSError m | IndexError m | TypeError m => m
  end.

Inductive outcome (A : Type) :=
| Return (a : A)
| Raise (e : exn).
Arguments Return {A} a.
Arguments Raise {A} e.

Definition bindO {A B} (m : outcome A) (k : A -> outcome B) : outcome B :=
  match m with
  | Return a => k a
  | Raise e => Raise e
  end.

Notation "'let?' x ':=' m 'in' k" := (bindO m (fun x => k))
  (at level 10, x name, m at level 100, k at level 200).

(** ** Constants of the module *)

Definition DB_SEED_NUMBER : Z := 42.
Definition ELEMENT_SIZE : nat := 4.
Definition DIMENSION : nat := 70.

(** ** float32 values and their byte images *)

Record float32 := F32 { byte0 : byte; byte1 : byte; byte2 : byte; byte3 : byte }.

Definition Vector := list float32.

Definition f32_bytes (x : float32) : list byte :=
  [byte0 x; byte1 x; byte2 x; byte3 x].

(** [ndarray.tobytes] of a float32 vector, and of a 2-D array of rows *)
Fixpoint tobytes (v : Vector) : list byte :=
  match v with
  | [] => []
  | x :: v' => f32_bytes x ++ tobytes v'
  end.

Fixpoint rows_tobytes (rows : list Vector) : list byte :=
  match rows with
  | [] => []
  | r :: rows' => tobytes r ++ rows_tobytes rows'
  end.

(** [np.frombuffer(bs, dtype=np.float32)] on a buffer whose length is a
    multiple of four (callers check the length first) *)
Fixpoint frombuffer (bs : list byte) : Vector :=
  match bs with
  | a :: b :: c :: d :: rest => F32 a b c d :: frombuffer rest
  | _ => []
  end.

(** [a.reshape(-1, cols)] on a list whose length is a multiple of [cols] *)
Definition reshape_rows {A} (cols : nat) (l : list A) : list (list A) :=
  map (fun i => take cols (drop (i * cols) l)) (seq 0 (length l / cols)%nat).

Definition f32_bits (x : float32) : Z :=
  Z.of_N (Byte.to_N (byte0 x))
  + Z.shiftl (Z.of_N (Byte.to_N (byte1 x))) 8
  + Z.shiftl (Z.of_N (Byte.to_N (byte2 x))) 16
  + Z.shiftl (Z.of_N (Byte.to_N (byte3 x))) 24.

Definition byte_of_Z (z : Z) : byte :=
  match Byte.of_N (Z.to_N (Z.land z 255)) with
  | Some b => b
  | None => x00
  end.

Definition f32_of_bits (w : Z) : float32 :=
  F32 (byte_of_Z w) (byte_of_Z (Z.shiftr w 8))
      (byte_of_Z (Z.shiftr w 16)) (byte_of_Z (Z.shiftr w 24)).

(** IEEE-754 binary32 decoding: sign bit 31, exponent bits 30-23,
    fraction bits 22-0. *)
Definition f32_value (x : float32) : spec_float :=
  let w := f32_bits x in
  let s := Z.testbit w 31 in
  let e := Z.land (Z.shiftr w 23) 255 in
  let m := Z.land w (2 ^ 23 - 1) in
  if e =? 0 then
    (if m =? 0 then S754_zero s else S754_finite s (Z.to_pos m) (-149))
  else if e =? 255 then
    (if m =? 0 then S754_infinity s else S754_nan)
  else S754_finite s (Z.to_pos (m + 2 ^ 23)) (e - 150).

Definition values (v : Vector) : list spec_float := map f32_value v.

(** binary32 arithmetic (correctly rounded, round-to-nearest-even) *)
Definition fmul : spec_float -> spec_float -> spec_float := SFmul 24 128.
Definition fadd : spec_float -> spec_float -> spec_float := SFadd 24 128.
Definition fdiv : spec_float -> spec_float -> spec_float := SFdiv 24 128.
Definition fsqrt : spec_float -> spec_float := SFsqrt 24 128.

(** Python's [<] and [==] on floats *)
Definition flt : spec_float -> spec_float -> bool := SFltb.
Definition feq : spec_float -> spec_float -> bool := SFeqb.

Definition is_nan (x : spec_float) : bool :=
  match x with S754_nan => true | _ => false end.

Definition is_zero (x : spec_float) : bool :=
  match x with S754_zero _ => true | _ => false end.


(** Reference instances of the numpy reductions: left-to-right
    accumulation in binary32. *)
Definition dot_seq (a b : list spec_float) : spec_float :=
  fold_left (fun acc xy => fadd acc (fmul (fst xy) (snd xy)))
            (combine a b) (S754_zero false).

Definition norm_seq (a : list spec_float) : spec_float := fsqrt (dot_seq a a).

(** ** Sorting as Python does it

    [sorted(l, reverse=True)] is stable: elements that do not compare
    [<] either way keep their input order.  On inputs on which [<] is a
    strict weak order every stable sort returns the list computed here;
    on other inputs (float NaN) Python's merge strategy may differ. *)

Fixpoint insert_desc {A} (lt : A -> A -> bool) (x : A) (l : list A) : list A :=
  match l with
  | [] => [x]
  | y :: l' => if lt x y then y :: insert_desc lt x l' else x :: y :: l'
  end.

Definition sorted_reverse {A} (lt : A -> A -> bool) (l : list A) : list A :=
  foldr (insert_desc lt) [] l.

(** [heapq.nlargest(n, l)], documented as [sorted(l, reverse=True)[:n]];
    with [key=f] the comparison is [fun x y => lt (f x) (f y)].  CPython
    takes [max] for [n = 1], a heap of [n] entries for [1 < n < len(l)]
    and [sorted] otherwise; the three agree with the list computed here
    whenever [<] is a strict weak order on the keys, that is, when no
    key is NaN.  With a NaN key the order of the result depends on the
    path taken; its length and its elements, counted with repetitions,
    do not.  Every statement below about the order of a result assumes
    that no key is NaN. *)
Definition nlargest {A} (lt : A -> A -> bool) (n : nat) (l : list A) : list A :=
  take n (sorted_reverse lt l).

(** Python's [<] on pairs [(score, index)]: the first components decide
    unless they are [==]. *)
Definition tuple_lt (x y : spec_float * nat) : bool :=
  if feq (fst x) (fst y) then (snd x <? snd y)%nat else flt (fst x) (fst y).

Definition key_lt (x y : spec_float * nat) : bool := flt (fst x) (fst y).

(** ** numpy helpers on labels *)

(** [np.unique(labels)]: the distinct labels in ascending order *)
Definition np_unique (labels : list nat) : list nat :=
  filter (fun c => c ∈ labels) (seq 0 (S (max_list labels))).

(** [np.where(labels == label)[0]]: the positions holding [label],
    ascending; [i0] is the position of the head of [labels] *)
Fixpoint where_from (i0 : nat) (label : nat) (labels : list nat) : list nat :=
  match labels with
  | [] => []
  | c :: labels' =>
      if (c =? label)%nat then i0 :: where_from (S i0) label labels'
      else where_from (S i0) label labels'
  end.

Definition np_where (label : nat) (labels : list nat) : list nat :=
  where_from 0 label labels.

(** ** The database object and the files it owns *)

Record index_dir := IndexDir {
  postings : gmap nat (list nat);          (* <label>.bin *)
  centroids_bin : option (list Vector)     (* centroids.bin *)
}.

Record VecDB := MkVecDB {
  db_file : option (list byte);            (* the file at self.db_path *)
  index_path : option index_dir;           (* the directory at self.index_path *)
  no_centroids : Z;                        (* self.no_centroids *)
  writes_left : option nat                 (* index-file writes the disk still
                                              accepts; None: no failure *)
}.

Definition set_db_file (f : option (list byte)) (db : VecDB) : VecDB :=
  MkVecDB f (index_path db) (no_centroids db) (writes_left db).
Definition set_index_path (d : option index_dir) (db : VecDB) : VecDB :=
  MkVecDB (db_file db) d (no_centroids db) (writes_left db).
Definition set_no_centroids (c : Z) (db : VecDB) : VecDB :=
  MkVecDB (db_file db) (index_path db) c (writes_left db).
Definition set_writes_left (b : option nat) (db : VecDB) : VecDB :=
  MkVecDB (db_file db) (index_path db) (no_centroids db) b.

(** Programs that write: state passing with exceptions.  The state
    reached when an exception is raised is kept. *)
Definition M (A : Type) : Type := VecDB -> VecDB * outcome A.

Definition ret {A} (a : A) : M A := fun db => (db, Return a).
Definition raise {A} (e : exn) : M A := fun db => (db, Raise e).
Definition bindM {A B} (m : M A) (k : A -> M B) : M B :=
  fun db => match m db with
            | (db', Return a) => k a db'
            | (db', Raise e) => (db', Raise e)
            end.
Definition reading {A} (r : VecDB -> outcome A) : M A := fun db => (db, r db).
Definition modify (f : VecDB -> VecDB) : M unit := fun db => (f db, Return tt).

Notation "x <- m ;; k" := (bindM m (fun x => k))
  (at level 100, m at next level, right associativity).
Notation "m ;;; k" := (bindM m (fun _ => k))
  (at level 100, right associativity).

Fixpoint for_each {A} (l : list A) (body : A -> M unit) : M unit :=
  match l with
  | [] => ret tt
  | x :: l' => body x ;;; for_each l' body
  end.

(** ** The vector store: methods that read *)

Definition ROW_BYTES : nat := (DIMENSION * ELEMENT_SIZE)%nat.

(** [os.path.getsize(self.db_path) // (DIMENSION * ELEMENT_SIZE)] *)
Definition _get_num_records (db : VecDB) : outcome Z :=
  match db_file db with
  | None => Raise (FileNotFoundError "No such file or directory")
  | Some content => Return (Z.of_nat (length content) / Z.of_nat ROW_BYTES)
  end.

(** [np.memmap(self.db_path, dtype=np.float32, mode='r',
    shape=(rows, DIMENSION), offset=offset)], copied out as an array.
    The map reaches from [offset] to [offset + rows * ROW_BYTES]. *)
Definition memmap_r (db : VecDB) (rows : nat) (offset : Z) : outcome (list Vector) :=
  match db_file db with
  | None => Raise (FileNotFoundError "No such file or directory")
  | Some content =>
      let flen := Z.of_nat (length content) in
      let nbytes := Z.of_nat (rows * ROW_BYTES) in
      if offset <? 0 then
        Raise (OverflowError "memory mapped offset must be positive")
      else if flen <? offset + nbytes then
        Raise (ValueError "mmap length is greater than file size")
      else if (nbytes =? 0) && (flen <=? offset) then
        Raise (ValueError "cannot mmap an empty file")
      else
        Return (reshape_rows DIMENSION
                  (frombuffer (take (rows * ROW_BYTES)
                                    (drop (Z.to_nat offset) content))))
  end.

(** The value [get_one_row] returns: an array, or the text built in its
    [except] branch. *)
Inductive row_or_text :=
| Row (v : Vector)
| Text (s : string).

Definition get_one_row_body (db : VecDB) (row_num : Z) : outcome Vector :=
  let offset := row_num * Z.of_nat DIMENSION * Z.of_nat ELEMENT_SIZE in
  let? mmap_vector := memmap_r db 1 offset in
  match mmap_vector with
  | v :: _ => Return v
  | [] => Raise (IndexError "index 0 is out of bounds")
  end.

Definition get_one_row (db : VecDB) (row_num : Z) : outcome row_or_text :=
  match get_one_row_body db row_num with
  | Return v => Return (Row v)
  | Raise e => Return (Text ("An error occurred: " ++ exn_str e))
  end.

Definition get_all_rows (db : VecDB) : outcome (list Vector) :=
  let? num_records := _get_num_records db in
  memmap_r db (Z.to_nat num_records) 0.

(** Lines 73-83 of [get_rows]: the ids grouped into maximal runs of
    consecutive values, each run as [(start, prev)]. *)
Fixpoint group_ranges (start prev : Z) (ids : list Z) : list (Z * Z) :=
  match ids with
  | [] => [(start, prev)]
  | id :: ids' =>
      if id =? prev + 1 then group_ranges start id ids'
      else (start, prev) :: group_ranges id id ids'
  end.

(** Lines 87-96: one seek and one read for the run, then the copy of
    [range_size] rows out of the block. *)
Definition read_block (content : list byte) (range : Z * Z) : outcome (list Vector) :=
  let '(start, end_) := range in
  let range_size := end_ - start + 1 in
  let offset := start * Z.of_nat DIMENSION * Z.of_nat ELEMENT_SIZE in
  if offset <? 0 then Raise (OSError "Invalid argument")
  else
    let block_data :=
      take (Z.to_nat (range_size * Z.of_nat DIMENSION * Z.of_nat ELEMENT_SIZE))
           (drop (Z.to_nat offset) content) in
    if negb (length block_data mod ELEMENT_SIZE =? 0)%nat then
      Raise (ValueError "buffer size must be a multiple of element size")
    else
      let flat := frombuffer block_data in
      if negb (length flat mod DIMENSION =? 0)%nat then
        Raise (ValueError "cannot reshape array")
      else
        let block_vectors := reshape_rows DIMENSION flat in
        if (Z.of_nat (length block_vectors) <? range_size) then
          Raise (IndexError "index is out of bounds")
        else Return (take (Z.to_nat range_size) block_vectors).

Fixpoint read_blocks (content : list byte) (ranges : list (Z * Z)) : outcome (list Vector) :=
  match ranges with
  | [] => Return []
  | r :: ranges' =>
      let? block := read_block content r in
      let? rest := read_blocks content ranges' in
      Return (block ++ rest)
  end.

Definition get_rows_body (db : VecDB) (ids : list Z) : outcome (list Vector) :=
  match db_file db with
  | None => Raise (FileNotFoundError "No such file or directory")
  | Some content =>
      match ids with
      | [] => Raise (IndexError "index 0 is out of bounds")
      | id0 :: ids' => read_blocks content (group_ranges id0 id0 ids')
      end
  end.

(** On any exception the method returns [np.empty((0, DIMENSION))]. *)
Definition get_rows (db : VecDB) (ids : list Z) : outcome (list Vector) :=
  match get_rows_body db ids with
  | Return vectors => Return vectors
  | Raise _ => Return []
  end.

(** ** The vector store: methods that write *)

(** [np.memmap(self.db_path, dtype=np.float32, mode, shape=(rows,
    DIMENSION))] for [mode='w+'] ([truncate = true]: the file is created
    or emptied) and [mode='r+']; a file shorter than the map is extended
    with zero bytes. *)
Definition memmap_rw (truncate : bool) (rows : nat) : M unit := fun db =>
  match (if truncate then Some [] else db_file db) with
  | None => (db, Raise (FileNotFoundError "No such file or directory"))
  | Some content =>
      let nbytes := (rows * ROW_BYTES)%nat in
      let content' := content ++ replicate (nbytes - length content) x00 in
      let db' := set_db_file (Some content') db in
      if (nbytes =? 0)%nat && (length content' =? 0)%nat then
        (db', Raise (ValueError "cannot mmap an empty file"))
      else (db', Return tt)
  end.

(** The rows of the right-hand side of a slice assignment into a
    [(k, DIMENSION)] slice, [k] being their number: rows of [DIMENSION]
    elements are taken as they are, rows of one element are broadcast. *)
Definition broadcast_rows (rows : list Vector) : outcome (list Vector) :=
  if forallb (fun r => (length r =? DIMENSION)%nat) rows then Return rows
  else if forallb (fun r => (length r =? 1)%nat) rows then
    Return (map (fun r => match r with
                          | x :: _ => replicate DIMENSION x
                          | [] => []
                          end) rows)
  else Raise (ValueError "could not broadcast input array").

Definition pwrite (off : nat) (data content : list byte) : list byte :=
  take off content ++ data ++ drop (off + length data) content.

(** [mmap_vectors[start:] = rows; mmap_vectors.flush()] *)
Definition assign_rows (start : nat) (rows : list Vector) : M unit := fun db =>
  match broadcast_rows rows with
  | Raise e => (db, Raise e)
  | Return rows' =>
      match db_file db with
      | None => (db, Raise (FileNotFoundError "No such file or directory"))
      | Some content =>
          (set_db_file (Some (pwrite (start * ROW_BYTES) (rows_tobytes rows') content)) db,
           Return tt)
      end
  end.

Definition _write_vectors_to_file (vectors : list Vector) : M unit :=
  memmap_rw true (length vectors) ;;;
  assign_rows 0 vectors.

(** ** The index files (module [utils], not part of the sources) *)

Definition disk_accepts (db : VecDB) : bool :=
  match writes_left db with
  | Some O => false
  | _ => true
  end.

Definition spend_write (db : VecDB) : VecDB :=
  set_writes_left (pred <$> writes_left db) db.

(** Modelled from the spec: [utils.write_file_records], the
    append-one-value operation on a posting list; the file is created
    when absent.  The write raises when the disk accepts no more. *)
Definition write_file_records (label index : nat) : M unit := fun db =>
  if negb (disk_accepts db) then (db, Raise (OSError "No space left on device"))
  else
    match index_path db with
    | None => (db, Raise (FileNotFoundError "No such file or directory"))
    | Some d =>
        let old := default [] (postings d !! label) in
        (spend_write
           (set_index_path
              (Some (IndexDir (<[label := old ++ [index]]> (postings d))
                              (centroids_bin d))) db),
         Return tt)
    end.

(** Modelled from the spec: [utils.read_file_records_mmap], the
    read-all-values operation on a posting list. *)
Definition read_file_records_mmap (db : VecDB) (label : nat) : outcome (list nat) :=
  match index_path db with
  | None => Raise (FileNotFoundError "No such file or directory")
  | Some d =>
      match postings d !! label with
      | None => Raise (FileNotFoundError "No such file or directory")
      | Some ids => Return ids
      end
  end.

(** Modelled from the spec: [utils.write_file_centroids], writing the
    centroids as an ordered sequence of fixed-width vectors. *)
Definition write_file_centroids (centroids : list Vector) : M unit := fun db =>
  if negb (disk_accepts db) then (db, Raise (OSError "No space left on device"))
  else
    match index_path db with
    | None => (db, Raise (FileNotFoundError "No such file or directory"))
    | Some d =>
        (spend_write
           (set_index_path (Some (IndexDir (postings d) (Some centroids))) db),
         Return tt)
    end.

(** Modelled from the spec: [utils.read_file_centroids_with_memap],
    reading the centroid sequence back. *)
Definition read_file_centroids_with_memap (db : VecDB) : outcome (list Vector) :=
  match index_path db with
  | None => Raise (FileNotFoundError "No such file or directory")
  | Some d =>
      match centroids_bin d with
      | None => Raise (FileNotFoundError "No such file or directory")
      | Some cs => Return cs
      end
  end.

(** [if os.path.exists(p): shutil.rmtree(p)] then [os.makedirs(p,
    exist_ok=True)] *)
Definition recreate_index_dir : M unit :=
  modify (set_index_path (Some (IndexDir ∅ None))).

(** ** Size tiers *)

(** Lines 176-180: the number of clusters asked of k-means for a store
    of [n] rows.  [np.sqrt] works in binary64: [int(np.sqrt(n))] is the
    integer square root for every [n] below 2^52 (the first difference is
    at 2^52 + 2^27, where the rounded root reaches the next integer);
    the statements about the tiers are made for such [n]. *)
Definition centroid_count (n : Z) : Z :=
  let c := Z.sqrt n * 2 in
  let c := if n =? 15 * 10 ^ 6 then Z.sqrt n * 5 else c in
  let c := if n =? 20 * 10 ^ 6 then Z.sqrt n * 6 else c in
  c.

(** Lines 132-136 *)
Definition probe_count (n : Z) : nat :=
  if n <=? 10 * 10 ^ 6 then 12%nat
  else if n =? 15 * 10 ^ 6 then 10%nat
  else 5%nat.

(** The expression [dot / (norm1 * norm2)] of lines 118, 156 and 171 *)
Definition cosine_quotient (dot norm1 norm2 : spec_float) : spec_float :=
  fdiv dot (fmul norm1 norm2).

(** ** Vocabulary of the statements *)

(** The row stored at position [i] of a database file *)
Definition row_at (content : list byte) (i : nat) : Vector :=
  frombuffer (take ROW_BYTES (drop (i * ROW_BYTES) content)).

(** The ids [start, start + 1, ..., end_] of a run *)
Definition range_ids (start end_ : Z) : list Z :=
  map (fun k => start + Z.of_nat k) (seq 0 (Z.to_nat (end_ - start + 1))).

(** The order of the floats that are not NaN, as a lexicographic order
    on triples: class, then exponent, then mantissa. *)
Definition float_key (x : spec_float) : Z * Z * Z :=
  match x with
  | S754_nan => (0, 0, 0)
  | S754_zero _ => (0, 0, 0)
  | S754_infinity s => (if s then -2 else 2, 0, 0)
  | S754_finite s m e => if s then (-1, - e, - Zpos m) else (1, e, Zpos m)
  end.

Definition lex_lt (a b : Z * Z * Z) : Prop :=
  a.1.1 < b.1.1 \/
  (a.1.1 = b.1.1 /\ (a.1.2 < b.1.2 \/ (a.1.2 = b.1.2 /\ a.2 < b.2))).

(** ** The engine, over its numerical and clustering libraries *)

(** A fitted [MiniBatchKMeans]: [cluster_centers_], and [predict], which
    labels each row of its argument on its own. *)
Record KMeans := MkKMeans {
  cluster_centers_ : list Vector;
  predict_row : Vector -> nat
}.

Definition predict (kmeans : KMeans) (X : list Vector) : list nat :=
  map (predict_row kmeans) X.

Section Engine.

(** [MiniBatchKMeans(n_clusters=c, random_state=0, n_init=3,
    batch_size=10**4).fit(X)]; sklearn raises on parameters it
    rejects. *)
Variable MiniBatchKMeans_fit : Z -> list Vector -> outcome KMeans.

(** The [k]-th float32 drawn by [np.random.default_rng(DB_SEED_NUMBER)] *)
Variable rng_draw : nat -> float32.

(** [np.dot] on two 1-D arrays of one length, and [np.linalg.norm] *)
Variable np_dot : list spec_float -> list spec_float -> spec_float.
Variable np_norm : list spec_float -> spec_float.

(** [rng.random((size, DIMENSION), dtype=np.float32)], filled row by row *)
Definition rng_random (size : nat) : list Vector :=
  map (fun i => map (fun j => rng_draw (i * DIMENSION + j)%nat) (seq 0 DIMENSION))
      (seq 0 size).

Definition _build_index : M unit :=
  n <- reading _get_num_records ;;
  modify (set_no_centroids (centroid_count n)) ;;;
  training_data <- reading get_all_rows ;;
  kmeans <- (fun db => (db, MiniBatchKMeans_fit (centroid_count n) training_data)) ;;
  data <- reading get_all_rows ;;
  let labels := predict kmeans data in
  let centroids := cluster_centers_ kmeans in
  recreate_index_dir ;;;
  let unique_labels := np_unique labels in
  for_each unique_labels (fun label =>
    let indices := np_where label labels in
    for_each indices (fun index => write_file_records label index)) ;;;
  write_file_centroids centroids.

Definition generate_database (size : nat) : M unit :=
  let vectors := rng_random size in
  _write_vectors_to_file vectors ;;;
  _build_index.

(** [VecDB(database_file_path, index_file_path, new_db, db_size)]; the
    argument record holds the files as the constructor finds them. *)
Definition __init__ (new_db : bool) (db_size : option nat) : M unit :=
  modify (set_no_centroids 0) ;;;
  if new_db then
    match db_size with
    | None => raise (ValueError "You need to provide the size of the database")
    | Some size =>
        (* if os.path.exists(self.db_path): os.remove(self.db_path) *)
        modify (set_db_file None) ;;;
        generate_database size
    end
  else ret tt.

Definition insert_records (rows : list Vector) : M unit :=
  num_old_records <- reading _get_num_records ;;
  let num_new_records := length rows in
  memmap_rw false (Z.to_nat num_old_records + num_new_records) ;;;
  assign_rows (Z.to_nat num_old_records) rows ;;;
  _build_index.


(** [vec1] is a 2-D array given by its rows, [vec2] a 1-D array.  The
    result is the array before [squeeze]; a one-element result becomes
    0-d, which the caller cannot iterate. *)
Definition _vectorized_cal_score (vec1 : list Vector) (vec2 : Vector)
  : outcome (list spec_float) :=
  match vec1 with
  | [] => Raise (ValueError "shapes not aligned")
  | _ =>
      if forallb (fun r => (length r =? length vec2)%nat) vec1 then
        let norm_vec2 := np_norm (values vec2) in
        Return (map (fun r => cosine_quotient (np_dot (values r) (values vec2))
                                              (np_norm (values r)) norm_vec2) vec1)
      else Raise (ValueError "shapes not aligned")
  end.

Definition _get_top_centroids (db : VecDB) (query : Vector) (k : nat)
  : outcome (list (spec_float * nat)) :=
  let? centroids := read_file_centroids_with_memap db in
  let? scores := _vectorized_cal_score centroids query in
  if (length scores =? 1)%nat then Raise (TypeError "iteration over a 0-d array")
  else
    let heap := combine scores (seq 0 (length centroids)) in
    Return (nlargest tuple_lt k heap).

Fixpoint read_postings (db : VecDB) (labels : list nat) : outcome (list (list nat)) :=
  match labels with
  | [] => Return []
  | c :: labels' =>
      let? ids := read_file_records_mmap db c in
      let? rest := read_postings db labels' in
      Return (ids :: rest)
  end.

(** Lines 132-157 of [retrieve]: [list(zip(scores, ids))] *)
Definition scored_candidates (db : VecDB) (query : Vector)
  : outcome (list (spec_float * nat)) :=
  let? n := _get_num_records db in
  let n_probs := probe_count n in
  let? top_centroids := _get_top_centroids db query n_probs in
  let query_norm := np_norm (values query) in
  let? lists := read_postings db (map snd top_centroids) in
  let ids := concat lists in
  let? data := get_rows db (map Z.of_nat ids) in
  if negb (length query =? DIMENSION)%nat then Raise (ValueError "shapes not aligned")
  else
    let dot_products := map (fun r => np_dot (values r) (values query)) data in
    let norms_data := map (fun r => np_norm (values r)) data in
    let scores := zip_with (fun d n => cosine_quotient d n query_norm)
                           dot_products norms_data in
    Return (combine scores ids).

Definition retrieve (db : VecDB) (query : Vector) (top_k : nat) : outcome (list nat) :=
  let? results := scored_candidates db query in
  let results := nlargest key_lt top_k results in
  Return (map snd results).

(** The score that line 156 gives the row at position [i] of the file *)
Definition row_score (content : list byte) (query : Vector) (i : nat) : spec_float :=
  cosine_quotient (np_dot (values (row_at content i)) (values query))
                  (np_norm (values (row_at content i)))
                  (np_norm (values query)).

End Engine.

(** ** Reference instances, for evaluating the engine on concrete stores *)

Definition fsub : spec_float -> spec_float -> spec_float := SFsub 24 128.

Definition sq_dist (a b : list spec_float) : spec_float :=
  fold_left (fun acc xy => let d := fsub (fst xy) (snd xy) in fadd acc (fmul d d))
            (combine a b) (S754_zero false).

Fixpoint argmin_from (i best : nat) (best_d : spec_float) (ds : list spec_float) : nat :=
  match ds with
  | [] => best
  | d :: ds' =>
      if flt d best_d then argmin_from (S i) i d ds'
      else argmin_from (S i) best best_d ds'
  end.

(** The label [predict] gives a row: the nearest centre in Euclidean
    distance, the first one among equally near centres. *)
Definition nearest_centroid (centers : list Vector) (v : Vector) : nat :=
  match map (fun c => sq_dist (values v) (values c)) centers with
  | [] => 0%nat
  | d :: ds => argmin_from 1 0 d ds
  end.

(** A clustering that has converged to the given centres. *)
Definition fitted_to (centers : list Vector) : Z -> list Vector -> outcome KMeans :=
  fun _ _ => Return (MkKMeans centers (nearest_centroid centers)).

(** A clustering that rejects its input, as sklearn does for
    [n_clusters = 0] or more clusters than samples. *)
Definition rejecting : Z -> list Vector -> outcome KMeans :=
  fun _ _ => Raise (ValueError "n_samples should be >= n_clusters").

Definition f32_zero : float32 := f32_of_bits 0.

Definition zero_draws : nat -> float32 := fun _ => f32_zero.

(** The vector [(x, y, 0, ..., 0)], its first two components given by
    their bit patterns *)
Definition vec2 (x y : Z) : Vector :=
  f32_of_bits x :: f32_of_bits y :: replicate (DIMENSION - 2) f32_zero.

(** The vector with bit pattern [x] at position [i] and zeros elsewhere *)
Definition axis_vec (i : nat) (x : Z) : Vector :=
  replicate i f32_zero ++ f32_of_bits x :: replicate (DIMENSION - 1 - i) f32_zero.

Definition empty_store : VecDB := MkVecDB (Some []) None 0 None.

(** Three rows (3,-3), (3,2.5), (3,3) and the two centres (3,2.75),
    (3,-3) of their clustering; the query (1,0). *)
Definition rows3 : list Vector :=
  [vec2 0x40400000 0xC0400000; vec2 0x40400000 0x40200000; vec2 0x40400000 0x40400000].
Definition centers3 : list Vector :=
  [vec2 0x40400000 0x40300000; vec2 0x40400000 0xC0400000].
Definition query3 : Vector := vec2 0x3F800000 0.
Definition store3 : VecDB := fst (insert_records (fitted_to centers3) rows3 empty_store).

(** One hundred rows in twenty clusters of five: row [i] is
    [(1 + i mod 5)] on axis [i / 5]; the centre of cluster [c] is 3.0 on
    axis [c], so that the centre nearest to a row is the one on the
    row's axis.  The query is 1.0 on every axis. *)
Definition small_float (k : nat) : Z :=
  match k with
  | 0%nat => 0x3F800000
  | 1%nat => 0x40000000
  | 2%nat => 0x40400000
  | 3%nat => 0x40800000
  | _ => 0x40A00000
  end.
Definition rows100 : list Vector :=
  map (fun i => axis_vec (i / 5) (small_float (i mod 5))) (seq 0 100).
Definition centers20 : list Vector :=
  map (fun c => axis_vec c 0x40400000) (seq 0 20).
Definition query_ones : Vector := replicate DIMENSION (f32_of_bits 0x3F800000).

(** The axis of a vector that lies on one: the position of its first
    component that is not +0.0 *)
Fixpoint axis_from (i : nat) (v : Vector) : nat :=
  match v with
  | [] => 0%nat
  | x :: v' => if f32_bits x =? 0 then axis_from (S i) v' else i
  end.

(** A clustering of rows that lie on axes, converged to centres on
    those axes. *)
Definition fitted_on_axes (centers : list Vector) : Z -> list Vector -> outcome KMeans :=
  fun _ _ => Return (MkKMeans centers (axis_from 0)).

(** The hundred rows in a database file, before and after the index
    is built *)
Definition loaded100 : VecDB := MkVecDB (Some (rows_tobytes rows100)) None 0 None.
Definition store100 : VecDB := (_build_index (fitted_on_axes centers20) loaded100).1.

(** The three-row store after its database file has been cut back to
    two rows, the index still listing row 2 *)
Definition stale3 : VecDB := set_db_file (Some (rows_tobytes (take 2 rows3))) store3.

(** * Properties *)

(** ** The engine on small inputs *)

Example centroid_count_100 : centroid_count 100 = 20.
Proof. reflexivity. Qed.

Example probe_count_100 : probe_count 100 = 12%nat.
Proof. reflexivity. Qed.

Example group_ranges_unsorted : group_ranges 5 5 [6; 7; 3; 4] = [(5, 7); (3, 4)].
Proof. reflexivity. Qed.

Example nlargest_keeps_ties_in_order :
  nlargest key_lt 3 [(S754_zero false, 7%nat); (S754_finite false 1 0, 3%nat);
                     (S754_zero true, 1%nat); (S754_infinity true, 0%nat)]
  = [(S754_finite false 1 0, 3%nat); (S754_zero false, 7%nat); (S754_zero true, 1%nat)].
Proof. reflexivity. Qed.

Example get_one_row_of_empty_store :
  get_one_row empty_store 0
  = Return (Text "An error occurred: mmap length is greater than file size").
Proof. reflexivity. Qed.

Example get_rows_of_unsorted_ids :
  get_rows store3 [2; 0; 1]
  = Return [vec2 0x40400000 0x40400000; vec2 0x40400000 0xC0400000;
            vec2 0x40400000 0x40200000].
Proof. vm_compute. reflexivity. Qed.

Example retrieve_on_three_rows :
  retrieve dot_seq norm_seq store3 query3 5 = Return [1; 2; 0]%nat.
Proof. vm_compute. reflexivity. Qed.

Example insert_into_missing_file :
  insert_records rejecting rows3 (MkVecDB None None 0 None)
  = (MkVecDB None None 0 None, Raise (FileNotFoundError "No such file or directory")).
Proof. reflexivity. Qed.

(** ** The centroid-count tiers *)

Lemma centroid_count_base (n : Z) :
  n <> 15000000 -> n <> 20000000 -> centroid_count n = Z.sqrt n * 2.
Proof.
  intros H15 H20. unfold centroid_count.
  destruct (Z.eqb_spec n (15 * 10 ^ 6)) as [E|_]; [exfalso; apply H15; rewrite E; reflexivity|].
  destruct (Z.eqb_spec n (20 * 10 ^ 6)) as [E|_]; [exfalso; apply H20; rewrite E; reflexivity|].
  reflexivity.
Qed.

(** C6, as the claim states it: the count never decreases when the
    store grows.  It fails between 15,000,000 rows (19360 centroids)
    and 15,000,001 rows (7744 centroids). *)
Lemma centroid_count_not_monotone :
  ~ (forall n m : Z, 0 <= n <= m -> centroid_count n <= centroid_count m).
Proof.
  intros Hmono.
  specialize (Hmono 15000000 15000001 ltac:(lia)).
  vm_compute in Hmono. apply Hmono. reflexivity.
Qed.

(** C6, amended: for every size below 2^52 other than exactly
    15,000,000 and 20,000,000 the count is twice the integer square
    root of the size; the multipliers 5 and 6 apply at those two sizes
    only (19360 and 26832 centroids); over the other sizes the count is
    monotone. *)
Theorem centroid_count_exact_tiers (n m : Z) :
  0 <= n <= m ->
  m < 2 ^ 52 ->
  (exists s, 0 <= s /\ s * s <= n < (s + 1) * (s + 1) /\
     centroid_count n =
       s * (if decide (n = 20000000) then 6
            else if decide (n = 15000000) then 5 else 2)) /\
  centroid_count 15000000 = 19360 /\
  centroid_count 20000000 = 26832 /\
  centroid_count 15000001 = 7744 /\
  (n <> 15000000 -> n <> 20000000 -> m <> 15000000 -> m <> 20000000 ->
   centroid_count n <= centroid_count m).
Proof.
  intros [Hn Hnm] _. split; [|repeat split; try reflexivity].
  - exists (Z.sqrt n). split; [apply Z.sqrt_nonneg|]. split.
    + pose proof (Z.sqrt_spec n Hn) as Hs. unfold Z.succ in Hs. lia.
    + destruct (decide (n = 20000000)) as [->|H20]; [reflexivity|].
      destruct (decide (n = 15000000)) as [->|H15]; [reflexivity|].
      rewrite centroid_count_base by assumption. reflexivity.
  - intros ? ? ? ?. rewrite !centroid_count_base by assumption.
    pose proof (Z.sqrt_le_mono n m Hnm). lia.
Qed.

Lemma centroid_count_exact_tiers_witness :
  0 <= 100 <= 101 /\ 101 < 2 ^ 52 /\
  (exists s, 0 <= s /\ s * s <= 100 < (s + 1) * (s + 1) /\
     centroid_count 100 =
       s * (if decide (100 = 20000000) then 6
            else if decide (100 = 15000000) then 5 else 2)) /\
  centroid_count 100 <= centroid_count 101.
Proof.
  pose proof (centroid_count_exact_tiers 100 101 ltac:(lia) ltac:(lia))
    as (H1 & _ & _ & _ & H5).
  split; [lia|]. split; [lia|]. split; [exact H1|]. apply H5; lia.
Defined.

(** ** Byte images *)

Lemma ROW_BYTES_eq : ROW_BYTES = 280%nat.
Proof. reflexivity. Qed.

Lemma tobytes_length (v : Vector) : length (tobytes v) = (4 * length v)%nat.
Proof. induction v as [|x v IH]; simpl; lia. Qed.

Lemma frombuffer_tobytes (v : Vector) (rest : list byte) :
  frombuffer (tobytes v ++ rest) = v ++ frombuffer rest.
Proof.
  induction v as [|[a b c d] v IH]; [reflexivity|].
  simpl. f_equal. exact IH.
Qed.

Lemma frombuffer_tobytes_exact (v : Vector) : frombuffer (tobytes v) = v.
Proof.
  rewrite <- (app_nil_r (tobytes v)), frombuffer_tobytes. simpl. apply app_nil_r.
Qed.

Lemma rows_tobytes_length (rows : list Vector) :
  Forall (fun r => length r = DIMENSION) rows ->
  length (rows_tobytes rows) = (length rows * ROW_BYTES)%nat.
Proof.
  induction 1 as [|r rows Hr _ IH]; [reflexivity|].
  cbn [rows_tobytes length]. rewrite length_app, tobytes_length, Hr, IH.
  rewrite ROW_BYTES_eq. change DIMENSION with 70%nat. lia.
Qed.

Lemma rows_tobytes_row (rows : list Vector) (j : nat) (v : Vector) (tail : list byte) :
  Forall (fun r => length r = DIMENSION) rows ->
  rows !! j = Some v ->
  take ROW_BYTES (drop (j * ROW_BYTES) (rows_tobytes rows ++ tail)) = tobytes v.
Proof.
  intros Hall. revert j. induction Hall as [|r rows Hr Hall IH]; intros j Hj; [done|].
  assert (Hlen : length (tobytes r) = ROW_BYTES).
  { rewrite tobytes_length, Hr. reflexivity. }
  destruct j as [|j]; cbn [rows_tobytes].
  - injection Hj as ->. rewrite Nat.mul_0_l, drop_0, <- app_assoc.
    rewrite take_app_length'; [reflexivity|symmetry; exact Hlen].
  - rewrite <- app_assoc.
    replace (S j * ROW_BYTES)%nat with (length (tobytes r) + j * ROW_BYTES)%nat by lia.
    rewrite drop_app_add. apply IH. exact Hj.
Qed.

Lemma frombuffer_length (n : nat) (bs : list byte) :
  length bs = (4 * n)%nat -> length (frombuffer bs) = n.
Proof.
  revert bs. induction n as [|n IH]; intros bs Hlen.
  - destruct bs; [reflexivity|simpl in Hlen; lia].
  - destruct bs as [|a [|b [|c [|d bs]]]]; simpl in Hlen; try lia.
    simpl. f_equal. apply IH. lia.
Qed.

Lemma reshape_rows_single {A} (cols : nat) (l : list A) :
  (0 < cols)%nat -> length l = cols -> reshape_rows cols l = [l].
Proof.
  intros Hpos Hlen. unfold reshape_rows.
  rewrite Hlen, Nat.div_same by lia. simpl.
  rewrite drop_0, take_ge by lia. reflexivity.
Qed.

(** The row stored at position [i] of a file *)
Lemma get_one_row_in_range (db : VecDB) (content : list byte) (i : nat) :
  db_file db = Some content ->
  ((i + 1) * ROW_BYTES <= length content)%nat ->
  get_one_row db (Z.of_nat i) =
    Return (Row (frombuffer (take ROW_BYTES (drop (i * ROW_BYTES) content)))).
Proof.
  intros Hdb Hin. unfold get_one_row, get_one_row_body, memmap_r. rewrite Hdb.
  rewrite ROW_BYTES_eq in *.
  change (Z.of_nat DIMENSION) with 70. change (Z.of_nat ELEMENT_SIZE) with 4.
  change (Z.of_nat (1 * 280)) with 280.
  destruct (Z.ltb_spec (Z.of_nat i * 70 * 4) 0) as [?|_]; [lia|].
  destruct (Z.ltb_spec (Z.of_nat (length content)) (Z.of_nat i * 70 * 4 + 280)) as [?|_]; [lia|].
  change (280 =? 0) with false. cbn [andb bindO].
  replace (Z.to_nat (Z.of_nat i * 70 * 4)) with (i * 280)%nat by lia.
  change (1 * 280)%nat with 280%nat.
  rewrite reshape_rows_single; [reflexivity| unfold DIMENSION; lia |].
  apply frombuffer_length. rewrite length_take, length_drop.
  change DIMENSION with 70%nat. lia.
Qed.

Lemma get_one_row_outside (db : VecDB) (content : list byte) (i : Z) :
  db_file db = Some content ->
  ~ (0 <= i < Z.of_nat (length content) / Z.of_nat ROW_BYTES) ->
  exists e, get_one_row_body db i = Raise e.
Proof.
  intros Hdb Hout. unfold get_one_row_body, memmap_r. rewrite Hdb.
  rewrite ROW_BYTES_eq in *.
  change (Z.of_nat DIMENSION) with 70. change (Z.of_nat ELEMENT_SIZE) with 4.
  change (Z.of_nat (1 * 280)) with 280. change (Z.of_nat 280) with 280 in Hout.
  destruct (Z.ltb_spec (i * 70 * 4) 0) as [?|Hpos]; [eexists; reflexivity|].
  destruct (Z.ltb_spec (Z.of_nat (length content)) (i * 70 * 4 + 280)) as [?|Hfit];
    [eexists; reflexivity|].
  exfalso. apply Hout. split; [lia|].
  assert (i + 1 <= Z.of_nat (length content) / 280)
    by (apply Z.div_le_lower_bound; lia).
  lia.
Qed.

(** ** What the index build leaves alone *)

Lemma bindM_db_file {A B} (m : M A) (k : A -> M B) :
  (forall db, db_file (m db).1 = db_file db) ->
  (forall a db, db_file (k a db).1 = db_file db) ->
  forall db, db_file (bindM m k db).1 = db_file db.
Proof.
  intros Hm Hk db. unfold bindM. specialize (Hm db).
  destruct (m db) as [db' [a|e]]; simpl in *; [rewrite Hk|]; exact Hm.
Qed.

Lemma for_each_db_file {A} (l : list A) (body : A -> M unit) :
  (forall x db, db_file (body x db).1 = db_file db) ->
  forall db, db_file (for_each l body db).1 = db_file db.
Proof.
  intros Hbody. induction l as [|x l IH]; intros db; [reflexivity|].
  cbn [for_each]. apply bindM_db_file; auto.
Qed.

Lemma write_file_records_db_file (label index : nat) (db : VecDB) :
  db_file (write_file_records label index db).1 = db_file db.
Proof.
  unfold write_file_records.
  destruct (negb (disk_accepts db)); [reflexivity|].
  destruct (index_path db); reflexivity.
Qed.

Lemma write_file_centroids_db_file (cs : list Vector) (db : VecDB) :
  db_file (write_file_centroids cs db).1 = db_file db.
Proof.
  unfold write_file_centroids.
  destruct (negb (disk_accepts db)); [reflexivity|].
  destruct (index_path db); reflexivity.
Qed.

Section StoreFrame.

Variable MiniBatchKMeans_fit : Z -> list Vector -> outcome KMeans.

Lemma _build_index_db_file (db : VecDB) :
  db_file (_build_index MiniBatchKMeans_fit db).1 = db_file db.
Proof.
  revert db. unfold _build_index.
  apply bindM_db_file; [reflexivity|]. intros n.
  apply bindM_db_file; [reflexivity|]. intros _.
  apply bindM_db_file; [reflexivity|]. intros training.
  apply bindM_db_file; [reflexivity|]. intros km.
  apply bindM_db_file; [reflexivity|]. intros data.
  apply bindM_db_file; [reflexivity|]. intros _.
  apply bindM_db_file; [|intros _; apply write_file_centroids_db_file].
  apply for_each_db_file. intros label. apply for_each_db_file.
  intros index. apply write_file_records_db_file.
Qed.

(** The database file after [insert_records]: the old rows, the batch,
    and, for an empty batch only, the old bytes past the last full row. *)
Lemma insert_records_db_file (rows : list Vector) (db : VecDB) (content : list byte) :
  db_file db = Some content ->
  Forall (fun r => length r = DIMENSION) rows ->
  exists tail,
    db_file (insert_records MiniBatchKMeans_fit rows db).1 =
      Some (take (length content / ROW_BYTES * ROW_BYTES) content
            ++ rows_tobytes rows ++ tail) /\
    (length tail < ROW_BYTES)%nat.
Proof.
  intros Hdb Hrows.
  pose proof (rows_tobytes_length rows Hrows) as Hlen.
  set (n := (length content / ROW_BYTES)%nat).
  assert (Hn : (n * ROW_BYTES <= length content < (n + 1) * ROW_BYTES)%nat).
  { subst n. rewrite ROW_BYTES_eq.
    pose proof (Nat.div_mod (length content) 280 ltac:(lia)).
    pose proof (Nat.mod_upper_bound (length content) 280 ltac:(lia)). lia. }
  assert (Hnum : _get_num_records db = Return (Z.of_nat n)).
  { unfold _get_num_records. rewrite Hdb. subst n. rewrite Nat2Z.inj_div. reflexivity. }
  assert (Hbc : broadcast_rows rows = Return rows).
  { unfold broadcast_rows.
    replace (forallb _ rows) with true; [reflexivity|].
    symmetry. apply forallb_forall. intros r Hr.
    rewrite Forall_forall in Hrows. apply Nat.eqb_eq, Hrows, list_elem_of_In, Hr. }
  unfold insert_records, bindM at 1, reading. rewrite Hnum.
  rewrite Nat2Z.id.
  unfold bindM at 1, memmap_rw. rewrite Hdb.
  set (content' := content ++ replicate _ x00).
  assert (Hc' : length content' = Nat.max (length content) ((n + length rows) * ROW_BYTES)).
  { subst content'. rewrite length_app, length_replicate. lia. }
  destruct ((_ =? 0)%nat && (length content' =? 0)%nat) eqn:Hempty.
  - (* the map of an empty file raises: nothing is written *)
    apply andb_true_iff in Hempty as [H1 H2].
    apply Nat.eqb_eq in H1, H2.
    assert (length content = 0%nat) by lia.
    assert (rows = []) as -> by (destruct rows; [done|rewrite ROW_BYTES_eq in *; simpl in H1; lia]).
    destruct content; [|done]. exists []. simpl. split; [reflexivity|rewrite ROW_BYTES_eq; lia].
  - unfold bindM at 1, assign_rows. rewrite Hbc. cbn [db_file set_db_file].
    rewrite _build_index_db_file. cbn [fst db_file set_db_file].
    unfold pwrite.
    exists (drop (n * ROW_BYTES + length (rows_tobytes rows)) content').
    split.
    + f_equal. f_equal. subst content'. apply take_app_le. lia.
    + rewrite length_drop, Hc', Hlen. lia.
Qed.

End StoreFrame.

(** ** Round trip and monotonic append *)

Section StoreTheorems.

Variable MiniBatchKMeans_fit : Z -> list Vector -> outcome KMeans.

Lemma num_records_nat (db : VecDB) (N : Z) :
  _get_num_records db = Return N ->
  exists content, db_file db = Some content /\
    N = Z.of_nat (length content / ROW_BYTES) /\
    (length content / ROW_BYTES * ROW_BYTES <= length content)%nat.
Proof.
  unfold _get_num_records. destruct (db_file db) as [content|]; [|done].
  intros [= <-]. exists content. split; [reflexivity|].
  split; [symmetry; apply Nat2Z.inj_div|].
  rewrite ROW_BYTES_eq.
  pose proof (Nat.div_mod (length content) 280 ltac:(lia)). lia.
Qed.

(** C1: a vector appended by [insert_records] as the [j]-th row of the
    batch lands at row id [N + j], [N] being the record count before,
    and [get_one_row] at that id returns the same float32 values, byte
    for byte.  This holds whether or not the index rebuild that follows
    the write succeeds. *)
Theorem insert_then_get_one_row
  (db : VecDB) (N : Z) (rows : list Vector) (j : nat) (v : Vector) :
  _get_num_records db = Return N ->
  Forall (fun r => length r = DIMENSION) rows ->
  rows !! j = Some v ->
  get_one_row (insert_records MiniBatchKMeans_fit rows db).1 (N + Z.of_nat j)
    = Return (Row v).
Proof.
  intros HN Hrows Hj.
  destruct (num_records_nat db N HN) as (content & Hdb & -> & Hn).
  destruct (insert_records_db_file MiniBatchKMeans_fit rows db content Hdb Hrows)
    as (tail & Hnew & Htail).
  pose proof (rows_tobytes_length rows Hrows) as Hlen.
  pose proof (lookup_lt_Some _ _ _ Hj) as Hjlt.
  set (n := (length content / ROW_BYTES)%nat) in *.
  rewrite <- Nat2Z.inj_add.
  rewrite (get_one_row_in_range _ _ (n + j) Hnew).
  - do 2 f_equal.
    replace ((n + j) * ROW_BYTES)%nat
      with (length (take (n * ROW_BYTES) content) + j * ROW_BYTES)%nat
      by (rewrite length_take; lia).
    rewrite drop_app_add, (rows_tobytes_row rows j v tail Hrows Hj).
    apply frombuffer_tobytes_exact.
  - rewrite !length_app, length_take, Hlen. rewrite ROW_BYTES_eq in *. lia.
Qed.

(** C5: [insert_records] raises the record count by exactly the length
    of the batch, and every row id that existed before still reads the
    vector it held. *)
Theorem insert_records_appends
  (db : VecDB) (N : Z) (rows : list Vector) :
  _get_num_records db = Return N ->
  Forall (fun r => length r = DIMENSION) rows ->
  _get_num_records (insert_records MiniBatchKMeans_fit rows db).1
    = Return (N + Z.of_nat (length rows)) /\
  forall i : Z, 0 <= i < N ->
    exists v, get_one_row db i = Return (Row v) /\
      get_one_row (insert_records MiniBatchKMeans_fit rows db).1 i = Return (Row v).
Proof.
  intros HN Hrows.
  destruct (num_records_nat db N HN) as (content & Hdb & -> & Hn).
  destruct (insert_records_db_file MiniBatchKMeans_fit rows db content Hdb Hrows)
    as (tail & Hnew & Htail).
  pose proof (rows_tobytes_length rows Hrows) as Hlen.
  set (n := (length content / ROW_BYTES)%nat) in *.
  split.
  - unfold _get_num_records. rewrite Hnew. f_equal.
    rewrite !length_app, length_take, Hlen.
    rewrite ROW_BYTES_eq in *. change (Z.of_nat 280) with 280.
    rewrite Nat.min_l by lia.
    replace (Z.of_nat (n * 280 + (length rows * 280 + length tail)))
      with (Z.of_nat (length tail) + (Z.of_nat n + Z.of_nat (length rows)) * 280) by lia.
    rewrite Z.div_add by lia. rewrite Z.div_small by lia. lia.
  - intros i Hi.
    exists (frombuffer (take ROW_BYTES (drop (Z.to_nat i * ROW_BYTES) content))).
    rewrite <- (Z2Nat.id i) at 1 3 by lia.
    assert (Hfit : ((Z.to_nat i + 1) * ROW_BYTES <= n * ROW_BYTES)%nat).
    { apply Nat.mul_le_mono_r. lia. }
    split.
    + apply get_one_row_in_range; [exact Hdb|lia].
    + rewrite (get_one_row_in_range _ _ (Z.to_nat i) Hnew).
      * do 2 f_equal.
        rewrite drop_app_le by (rewrite length_take; lia).
        rewrite take_app_le by (rewrite length_drop, length_take; lia).
        rewrite !take_drop_commute, take_take, Nat.min_l by lia. reflexivity.
      * rewrite length_app, length_take. lia.
Qed.

End StoreTheorems.

Lemma insert_then_get_one_row_witness :
  _get_num_records empty_store = Return 0 /\
  Forall (fun r => length r = DIMENSION) rows3 /\
  rows3 !! 1%nat = Some (vec2 0x40400000 0x40200000) /\
  get_one_row (insert_records (fitted_to centers3) rows3 empty_store).1 (0 + Z.of_nat 1)
    = Return (Row (vec2 0x40400000 0x40200000)).
Proof.
  assert (H1 : _get_num_records empty_store = Return 0) by reflexivity.
  assert (H2 : Forall (fun r => length r = DIMENSION) rows3)
    by (repeat constructor).
  assert (H3 : rows3 !! 1%nat = Some (vec2 0x40400000 0x40200000)) by reflexivity.
  split; [exact H1|]. split; [exact H2|]. split; [exact H3|].
  exact (insert_then_get_one_row (fitted_to centers3) empty_store 0 rows3 1
           (vec2 0x40400000 0x40200000) H1 H2 H3).
Defined.

Lemma insert_records_appends_witness :
  _get_num_records store3 = Return 3 /\
  Forall (fun r => length r = DIMENSION) rows3 /\
  _get_num_records (insert_records (fitted_to centers3) rows3 store3).1
    = Return (3 + Z.of_nat (length rows3)).
Proof.
  assert (H1 : _get_num_records store3 = Return 3) by (vm_compute; reflexivity).
  assert (H2 : Forall (fun r => length r = DIMENSION) rows3)
    by (repeat constructor).
  split; [exact H1|]. split; [exact H2|].
  exact (proj1 (insert_records_appends (fitted_to centers3) store3 3 rows3 H1 H2)).
Defined.

(** ** Errors of the row accessors *)

(** C4, as the claim states it: an id outside [[0, N)] makes
    [get_one_row] fail with an error, and a read error makes [get_rows]
    fail.  On the empty store, [get_one_row 0] instead returns a text in
    the place of the vector; where the database file is missing,
    [get_rows] returns an empty array. *)
Lemma row_accessors_fail_counterexample :
  ~ (forall (db : VecDB) (N id : Z), _get_num_records db = Return N ->
       ~ (0 <= id < N) -> exists e, get_one_row db id = Raise e) /\
  ~ (forall (db : VecDB) (ids : list Z) (e : exn),
       get_rows_body db ids = Raise e -> exists e', get_rows db ids = Raise e').
Proof.
  split.
  - intros H. destruct (H empty_store 0 0 eq_refl ltac:(lia)) as [e He].
    vm_compute in He. discriminate He.
  - intros H.
    destruct (H (MkVecDB None None 0 None) [0]
                (FileNotFoundError "No such file or directory") eq_refl) as [e He].
    vm_compute in He. discriminate He.
Qed.

(** C4, amended: for every id outside [[0, N)], [get_one_row] returns
    normally, with the text "An error occurred: ..." in the place of the
    vector; [get_rows] never raises, and whenever reading fails inside
    it (the file cannot be opened, the id list is empty, or a read falls
    short) it returns the empty array. *)
Theorem row_accessors_return_substitutes
  (db : VecDB) (N id : Z) (db2 : VecDB) (ids : list Z) :
  _get_num_records db = Return N ->
  ~ (0 <= id < N) ->
  (exists e, get_one_row db id = Return (Text ("An error occurred: " ++ exn_str e))) /\
  (exists vectors, get_rows db2 ids = Return vectors /\
     forall e, get_rows_body db2 ids = Raise e -> vectors = []) /\
  (db_file db2 = None -> get_rows db2 ids = Return []) /\
  get_rows db2 [] = Return [].
Proof.
  intros HN Hout. split; [|split; [|split]].
  - unfold _get_num_records in HN.
    destruct (db_file db) as [content|] eqn:Hdb; [|done].
    injection HN as <-.
    destruct (get_one_row_outside db content id Hdb Hout) as [e He].
    exists e. unfold get_one_row. rewrite He. reflexivity.
  - unfold get_rows. destruct (get_rows_body db2 ids) as [vectors|e0].
    + exists vectors. split; [reflexivity|]. intros e He. discriminate He.
    + exists []. split; [reflexivity|]. reflexivity.
  - intros Hnone. unfold get_rows, get_rows_body. rewrite Hnone. reflexivity.
  - unfold get_rows, get_rows_body. destruct (db_file db2); reflexivity.
Qed.

Lemma row_accessors_return_substitutes_witness :
  _get_num_records store3 = Return 3 /\
  ~ (0 <= 3 < 3) /\
  (exists e, get_one_row store3 3 = Return (Text ("An error occurred: " ++ exn_str e))) /\
  (exists vectors, get_rows store3 [0; 5] = Return vectors /\
     forall e, get_rows_body store3 [0; 5] = Raise e -> vectors = []).
Proof.
  assert (H1 : _get_num_records store3 = Return 3) by (vm_compute; reflexivity).
  assert (H2 : ~ (0 <= 3 < 3)) by lia.
  destruct (row_accessors_return_substitutes store3 3 3 store3 [0; 5] H1 H2)
    as (Ha & Hb & _).
  split; [exact H1|]. split; [exact H2|]. split; [exact Ha|exact Hb].
Defined.

(** ** Re-initialisation *)

Section Init.

Variable MiniBatchKMeans_fit : Z -> list Vector -> outcome KMeans.
Variable rng_draw : nat -> float32.

Lemma rng_random_length (size : nat) : length (rng_random rng_draw size) = size.
Proof. unfold rng_random. rewrite length_map, length_seq. reflexivity. Qed.

Lemma rng_random_shape (size : nat) :
  Forall (fun r => length r = DIMENSION) (rng_random rng_draw size).
Proof.
  unfold rng_random. apply Forall_forall. intros r Hr.
  apply list_elem_of_fmap in Hr as (i & -> & _).
  rewrite length_map, length_seq. reflexivity.
Qed.

Lemma generate_database_db_file (size : nat) (db : VecDB) :
  db_file (generate_database MiniBatchKMeans_fit rng_draw size db).1
    = Some (rows_tobytes (rng_random rng_draw size)).
Proof.
  pose proof (rng_random_shape size) as Hshape.
  pose proof (rows_tobytes_length _ Hshape) as Hlen.
  rewrite rng_random_length in Hlen.
  unfold generate_database, bindM at 1, _write_vectors_to_file, bindM at 1, memmap_rw.
  rewrite rng_random_length. cbn [length app]. rewrite Nat.sub_0_r.
  rewrite length_replicate.
  destruct (size * ROW_BYTES =? 0)%nat eqn:Hz; cbn [andb].
  - apply Nat.eqb_eq in Hz. rewrite Hz. cbn [replicate fst db_file set_db_file].
    assert (size = 0%nat) as -> by (rewrite ROW_BYTES_eq in Hz; lia).
    reflexivity.
  - unfold assign_rows.
    assert (Hbc : broadcast_rows (rng_random rng_draw size) = Return (rng_random rng_draw size)).
    { unfold broadcast_rows.
      replace (forallb _ _) with true; [reflexivity|].
      symmetry. apply forallb_forall. intros r Hr.
      rewrite Forall_forall in Hshape. apply Nat.eqb_eq, Hshape, list_elem_of_In, Hr. }
    rewrite Hbc. cbn [db_file set_db_file].
    rewrite _build_index_db_file. cbn [fst db_file set_db_file].
    unfold pwrite. rewrite take_0, app_nil_l, Nat.mul_0_l, Nat.add_0_l.
    rewrite drop_ge by (rewrite length_replicate; lia).
    rewrite app_nil_r. reflexivity.
Qed.

(** C10: constructing with [new_db=True] on a path that holds a
    database file discards it: what the file holds afterwards is exactly
    the [db_size] freshly generated vectors, whatever it held before;
    nothing of the old content is consulted. *)
Theorem init_new_db_replaces_store (db : VecDB) (old : list byte) (size : nat) :
  db_file db = Some old ->
  db_file (__init__ MiniBatchKMeans_fit rng_draw true (Some size) db).1
    = Some (rows_tobytes (rng_random rng_draw size)) /\
  _get_num_records (__init__ MiniBatchKMeans_fit rng_draw true (Some size) db).1
    = Return (Z.of_nat size) /\
  (forall (i : nat) (v : Vector), rng_random rng_draw size !! i = Some v ->
     get_one_row (__init__ MiniBatchKMeans_fit rng_draw true (Some size) db).1
                 (Z.of_nat i) = Return (Row v)) /\
  __init__ MiniBatchKMeans_fit rng_draw true (Some size) db
    = __init__ MiniBatchKMeans_fit rng_draw true (Some size) (set_db_file None db).
Proof.
  intros _.
  pose proof (rng_random_shape size) as Hshape.
  pose proof (rows_tobytes_length _ Hshape) as Hlen.
  rewrite rng_random_length in Hlen.
  assert (Hfile : db_file (__init__ MiniBatchKMeans_fit rng_draw true (Some size) db).1
                  = Some (rows_tobytes (rng_random rng_draw size))).
  { unfold __init__, bindM at 1, modify. cbn [fst snd].
    unfold bindM at 1. apply generate_database_db_file. }
  split; [exact Hfile|]. split; [|split].
  - unfold _get_num_records. rewrite Hfile, Hlen. f_equal.
    rewrite Nat2Z.inj_mul. apply Z.div_mul. rewrite ROW_BYTES_eq. lia.
  - intros i v Hi.
    pose proof (lookup_lt_Some _ _ _ Hi) as Hlt. rewrite rng_random_length in Hlt.
    rewrite (get_one_row_in_range _ _ i Hfile).
    + do 2 f_equal.
      rewrite <- (app_nil_r (rows_tobytes _)).
      rewrite (rows_tobytes_row _ i v [] Hshape Hi).
      apply frombuffer_tobytes_exact.
    + rewrite Hlen. apply Nat.mul_le_mono_r. lia.
  - reflexivity.
Qed.

End Init.

Lemma init_new_db_replaces_store_witness :
  db_file store3 = Some (rows_tobytes rows3) /\
  _get_num_records (__init__ rejecting zero_draws true (Some 2%nat) store3).1
    = Return (Z.of_nat 2).
Proof.
  assert (H1 : db_file store3 = Some (rows_tobytes rows3)) by (vm_compute; reflexivity).
  split; [exact H1|].
  exact (proj1 (proj2 (init_new_db_replaces_store rejecting zero_draws store3
                         (rows_tobytes rows3) 2 H1))).
Defined.

(** ** The labels and their positions *)

Lemma where_from_spec (i0 label : nat) (labels : list nat) (i : nat) :
  i ∈ where_from i0 label labels <->
  (i0 <= i)%nat /\ labels !! (i - i0)%nat = Some label.
Proof.
  revert i0. induction labels as [|c labels IH]; intros i0; simpl.
  - split; [intros H; inversion H|intros [_ H]; discriminate H].
  - destruct (Nat.eqb_spec c label) as [->|Hne].
    + rewrite elem_of_cons, IH. split.
      * intros [->|[Hle Hl]].
        -- split; [lia|]. rewrite Nat.sub_diag. reflexivity.
        -- split; [lia|]. replace (i - i0)%nat with (S (i - S i0)) by lia. exact Hl.
      * intros [Hle Hl]. destruct (decide (i = i0)) as [->|Hi]; [left; reflexivity|].
        right. split; [lia|].
        replace (i - i0)%nat with (S (i - S i0)) in Hl by lia. exact Hl.
    + rewrite IH. split.
      * intros [Hle Hl]. split; [lia|].
        replace (i - i0)%nat with (S (i - S i0)) by lia. exact Hl.
      * intros [Hle Hl]. destruct (decide (i = i0)) as [->|Hi].
        -- rewrite Nat.sub_diag in Hl. simpl in Hl. congruence.
        -- split; [lia|].
           replace (i - i0)%nat with (S (i - S i0)) in Hl by lia. exact Hl.
Qed.

Lemma where_from_NoDup (i0 label : nat) (labels : list nat) :
  NoDup (where_from i0 label labels).
Proof.
  revert i0. induction labels as [|c labels IH]; intros i0; simpl; [constructor|].
  destruct (c =? label)%nat; [|apply IH].
  constructor; [|apply IH].
  rewrite where_from_spec. lia.
Qed.

Lemma np_where_spec (label : nat) (labels : list nat) (i : nat) :
  i ∈ np_where label labels <-> labels !! i = Some label.
Proof.
  unfold np_where. rewrite where_from_spec, Nat.sub_0_r.
  split; [intros [_ H]; exact H|intros H; split; [lia|exact H]].
Qed.

Lemma np_where_nonempty (label : nat) (labels : list nat) :
  label ∈ labels -> np_where label labels <> [].
Proof.
  intros Hin Hnil. apply list_elem_of_lookup in Hin as [i Hi].
  apply np_where_spec in Hi. rewrite Hnil in Hi. inversion Hi.
Qed.

Lemma np_unique_spec (labels : list nat) (c : nat) :
  c ∈ np_unique labels <-> c ∈ labels.
Proof.
  unfold np_unique. rewrite list_elem_of_filter, elem_of_seq. split.
  - intros [H _]. exact H.
  - intros H. split; [exact H|].
    pose proof (max_list_elem_of_le c labels H). lia.
Qed.

Lemma np_unique_NoDup (labels : list nat) : NoDup (np_unique labels).
Proof. unfold np_unique. apply NoDup_filter, NoDup_seq. Qed.

(** ** The two write loops of the build *)

Lemma write_file_records_returns (label index : nat) (db db' : VecDB) :
  write_file_records label index db = (db', Return tt) ->
  exists d, index_path db = Some d /\
    index_path db' =
      Some (IndexDir (<[label := default [] (postings d !! label) ++ [index]]> (postings d))
                     (centroids_bin d)).
Proof.
  unfold write_file_records.
  destruct (negb (disk_accepts db)); [intros [= ]|].
  destruct (index_path db) as [d|]; [|intros [= ]].
  intros [= <-]. exists d. split; reflexivity.
Qed.

Lemma inner_loop_returns (label : nat) (indices : list nat) (db db' : VecDB) (d : index_dir) :
  for_each indices (fun index => write_file_records label index) db = (db', Return tt) ->
  index_path db = Some d ->
  exists d', index_path db' = Some d' /\
    centroids_bin d' = centroids_bin d /\
    (forall c, c <> label -> postings d' !! c = postings d !! c) /\
    (indices <> [] ->
     postings d' !! label = Some (default [] (postings d !! label) ++ indices)) /\
    (indices = [] -> postings d' !! label = postings d !! label).
Proof.
  revert db d. induction indices as [|i indices IH]; intros db d Hrun Hd.
  - injection Hrun as <-. exists d. repeat split; try done.
  - cbn [for_each] in Hrun. unfold bindM in Hrun.
    destruct (write_file_records label i db) as [db1 [[]|e]] eqn:Hw; [|discriminate Hrun].
    apply write_file_records_returns in Hw as (d0 & Hd0 & Hd1).
    rewrite Hd in Hd0. injection Hd0 as <-.
    destruct (IH db1 _ Hrun Hd1) as (d' & Hd' & Hc & Hother & Hne & Hnil).
    exists d'. split; [exact Hd'|]. split; [exact Hc|]. cbn [postings centroids_bin] in *.
    split; [|split].
    + intros c Hcl. rewrite Hother by exact Hcl. apply lookup_insert_ne. congruence.
    + intros _. destruct indices as [|i' indices'].
      * rewrite Hnil by reflexivity. apply lookup_insert_eq.
      * rewrite Hne by discriminate. rewrite lookup_insert_eq. cbn [default from_option]. cbv [id].
        rewrite <- app_assoc. reflexivity.
    + discriminate.
Qed.

Lemma outer_loop_returns (labels todo : list nat) (db db' : VecDB) (d : index_dir) :
  for_each todo (fun label =>
    for_each (np_where label labels) (fun index => write_file_records label index)) db
    = (db', Return tt) ->
  index_path db = Some d ->
  NoDup todo ->
  (forall c, c ∈ todo -> c ∈ labels /\ postings d !! c = None) ->
  exists d', index_path db' = Some d' /\
    centroids_bin d' = centroids_bin d /\
    forall c, postings d' !! c =
      if decide (c ∈ todo) then Some (np_where c labels) else postings d !! c.
Proof.
  revert db d. induction todo as [|label todo IH]; intros db d Hrun Hd Hnd Hfresh.
  - injection Hrun as <-. exists d. repeat split; try done.
  - cbn [for_each] in Hrun. unfold bindM in Hrun.
    destruct (for_each (np_where label labels) _ db) as [db1 [[]|e]] eqn:Hin;
      [|discriminate Hrun].
    destruct (inner_loop_returns _ _ _ _ _ Hin Hd) as (d1 & Hd1 & Hc1 & Hother & Hne & _).
    apply NoDup_cons in Hnd as [Hnotin Hnd].
    destruct (Hfresh label ltac:(left)) as [Hlab Hnone].
    specialize (Hne (np_where_nonempty _ _ Hlab)). rewrite Hnone in Hne. cbn in Hne.
    destruct (IH db1 d1 Hrun Hd1 Hnd) as (d' & Hd' & Hc' & Hlook).
    { intros c Hc. destruct (Hfresh c ltac:(right; exact Hc)) as [? ?].
      split; [assumption|]. rewrite Hother by (intros ->; contradiction). assumption. }
    exists d'. split; [exact Hd'|]. split; [congruence|].
    intros c. rewrite Hlook.
    destruct (decide (c ∈ todo)) as [Hc|Hc].
    + rewrite decide_True by (right; exact Hc). reflexivity.
    + destruct (decide (c = label)) as [->|Hcl].
      * rewrite decide_True by left. exact Hne.
      * rewrite decide_False by (rewrite elem_of_cons; tauto). apply Hother, Hcl.
Qed.

(** ** Rows of a mapped region *)

Lemma frombuffer_drop (k : nat) (bs : list byte) :
  frombuffer (drop (4 * k) bs) = drop k (frombuffer bs).
Proof.
  revert bs. induction k as [|k IH]; intros bs; [reflexivity|].
  replace (4 * S k)%nat with (S (S (S (S (4 * k))))) by lia.
  destruct bs as [|a [|b [|c [|d bs]]]]; try (cbn; rewrite ?drop_nil; reflexivity).
  cbn [drop frombuffer]. apply IH.
Qed.

Lemma frombuffer_take (k : nat) (bs : list byte) :
  (4 * k <= length bs)%nat ->
  frombuffer (take (4 * k) bs) = take k (frombuffer bs).
Proof.
  revert bs. induction k as [|k IH]; intros bs Hlen; [reflexivity|].
  replace (4 * S k)%nat with (S (S (S (S (4 * k))))) by lia.
  destruct bs as [|a [|b [|c [|d bs]]]]; simpl in Hlen; try lia.
  cbn [take frombuffer]. f_equal. apply IH. lia.
Qed.

Lemma block_rows (content : list byte) (s n : nat) :
  ((s + n) * ROW_BYTES <= length content)%nat ->
  reshape_rows DIMENSION (frombuffer (take (n * ROW_BYTES) (drop (s * ROW_BYTES) content)))
    = map (fun i => row_at content (s + i)) (seq 0 n).
Proof.
  intros Hfit. unfold reshape_rows.
  set (block := take (n * ROW_BYTES) (drop (s * ROW_BYTES) content)).
  assert (Hblock : length block = (n * ROW_BYTES)%nat).
  { subst block. rewrite length_take, length_drop. lia. }
  rewrite (frombuffer_length (n * DIMENSION) block)
    by (rewrite Hblock, ROW_BYTES_eq; unfold DIMENSION; lia).
  rewrite Nat.div_mul by (unfold DIMENSION; lia).
  apply map_ext_in. intros i Hi. apply in_seq in Hi.
  unfold row_at.
  transitivity (frombuffer (take ROW_BYTES (drop (i * ROW_BYTES) block))).
  - symmetry. change ROW_BYTES with (4 * DIMENSION)%nat.
    replace (i * (4 * DIMENSION))%nat with (4 * (i * DIMENSION))%nat by lia.
    rewrite frombuffer_take.
    + rewrite frombuffer_drop. reflexivity.
    + rewrite length_drop, Hblock. rewrite ROW_BYTES_eq. unfold DIMENSION. lia.
  - f_equal. subst block.
    rewrite (take_drop_commute _ ROW_BYTES (i * ROW_BYTES)), take_take.
    rewrite Nat.min_l by (rewrite ROW_BYTES_eq in *; lia).
    rewrite <- take_drop_commute, drop_drop. f_equal. f_equal. lia.
Qed.

Lemma row_at_length (content : list byte) (i : nat) :
  ((i + 1) * ROW_BYTES <= length content)%nat ->
  length (row_at content i) = DIMENSION.
Proof.
  intros Hfit. unfold row_at. apply frombuffer_length.
  rewrite length_take, length_drop. rewrite ROW_BYTES_eq in *.
  unfold DIMENSION. lia.
Qed.

Lemma get_all_rows_returns (db : VecDB) (data : list Vector) :
  get_all_rows db = Return data ->
  exists content, db_file db = Some content /\
    data = map (row_at content) (seq 0 (length content / ROW_BYTES)).
Proof.
  unfold get_all_rows, _get_num_records, memmap_r.
  destruct (db_file db) as [content|]; [|intros [= ]]. cbn [bindO].
  rewrite <- Nat2Z.inj_div, Nat2Z.id.
  set (n := (length content / ROW_BYTES)%nat).
  assert (Hn : (n * ROW_BYTES <= length content)%nat).
  { subst n. rewrite ROW_BYTES_eq.
    pose proof (Nat.div_mod (length content) 280 ltac:(lia)). lia. }
  change (0 <? 0) with false. cbn match.
  destruct (Z.ltb_spec (Z.of_nat (length content)) (0 + Z.of_nat (n * ROW_BYTES)));
    [lia|].
  destruct ((_ =? 0) && _); [intros [= ]|].
  intros [= <-]. exists content. split; [reflexivity|].
  change (Z.to_nat 0) with 0%nat.
  replace 0%nat with (0 * ROW_BYTES)%nat at 1 by reflexivity.
  rewrite block_rows by (simpl; exact Hn). reflexivity.
Qed.

Lemma get_all_rows_set_no_centroids (c : Z) (db : VecDB) :
  get_all_rows (set_no_centroids c db) = get_all_rows db.
Proof. reflexivity. Qed.

(** ** The index build *)

Section Build.

Variable MiniBatchKMeans_fit : Z -> list Vector -> outcome KMeans.

Lemma write_file_centroids_returns (cs : list Vector) (db db' : VecDB) :
  write_file_centroids cs db = (db', Return tt) ->
  exists d, index_path db = Some d /\
    index_path db' = Some (IndexDir (postings d) (Some cs)).
Proof.
  unfold write_file_centroids.
  destruct (negb (disk_accepts db)); [intros [= ]|].
  destruct (index_path db) as [d|]; [|intros [= ]].
  intros [= <-]. exists d. split; reflexivity.
Qed.

(** A build that returns has clustered the rows of the store and has
    written one posting file per label in use, holding the positions of
    that label, and the centroid file. *)
Lemma _build_index_returns (db db' : VecDB) :
  _build_index MiniBatchKMeans_fit db = (db', Return tt) ->
  exists content kmeans d',
    db_file db = Some content /\
    let data := map (row_at content) (seq 0 (length content / ROW_BYTES)) in
    let labels := predict kmeans data in
    MiniBatchKMeans_fit (centroid_count (Z.of_nat (length content / ROW_BYTES))) data
      = Return kmeans /\
    index_path db' = Some d' /\
    centroids_bin d' = Some (cluster_centers_ kmeans) /\
    forall c, postings d' !! c =
      if decide (c ∈ labels) then Some (np_where c labels) else None.
Proof.
  unfold _build_index. unfold bindM at 1, reading.
  destruct (_get_num_records db) as [n|e] eqn:Hn; [|intros [= ]].
  unfold bindM at 1, modify. unfold bindM at 1.
  rewrite get_all_rows_set_no_centroids.
  destruct (get_all_rows db) as [data|e] eqn:Hdata; [|intros [= ]].
  destruct (get_all_rows_returns db data Hdata) as (content & Hdb & ->).
  assert (n = Z.of_nat (length content / ROW_BYTES)) as ->.
  { unfold _get_num_records in Hn. rewrite Hdb in Hn. injection Hn as <-.
    symmetry. apply Nat2Z.inj_div. }
  unfold bindM at 1.
  set (data := map (row_at content) _).
  destruct (MiniBatchKMeans_fit _ data) as [kmeans|e] eqn:Hfit; [|intros [= ]].
  unfold bindM at 1. rewrite get_all_rows_set_no_centroids, Hdata. fold data.
  unfold bindM at 1, recreate_index_dir, modify.
  unfold bindM at 1.
  set (db1 := set_index_path _ _).
  destruct (for_each (np_unique (predict kmeans data)) _ db1) as [db2 [[]|e]] eqn:Hloop;
    [|intros [= ]].
  intros Hcent.
  destruct (outer_loop_returns (predict kmeans data) _ db1 db2 (IndexDir ∅ None)
              Hloop eq_refl (np_unique_NoDup _)) as (d2 & Hd2 & Hc2 & Hlook).
  { intros c Hc. split; [apply np_unique_spec, Hc|apply lookup_empty]. }
  apply write_file_centroids_returns in Hcent as (d3 & Hd3 & Hd').
  rewrite Hd2 in Hd3. injection Hd3 as <-.
  exists content, kmeans, (IndexDir (postings d2) (Some (cluster_centers_ kmeans))).
  split; [exact Hdb|]. cbn zeta. split; [exact Hfit|]. split; [exact Hd'|].
  split; [reflexivity|].
  intros c. cbn [postings]. rewrite Hlook. cbn [postings].
  destruct (decide (c ∈ np_unique (predict kmeans data))) as [Hc|Hc];
    rewrite np_unique_spec in Hc.
  - rewrite decide_True by exact Hc. reflexivity.
  - rewrite decide_False by exact Hc. apply lookup_empty.
Qed.

(** The posting files of a build that returns: every row id below [N]
    is in a list, every list is non-empty, holds ids below [N] only and
    repeats none, and lists of different labels share no id. *)
Lemma posting_files_of_build (db db' : VecDB) (N : Z) :
  _build_index MiniBatchKMeans_fit db = (db', Return tt) ->
  _get_num_records db = Return N ->
  exists d, index_path db' = Some d /\
    (forall i : nat, Z.of_nat i < N ->
       exists c l, postings d !! c = Some l /\ i ∈ l) /\
    (forall (i c : nat) (l : list nat),
       postings d !! c = Some l -> i ∈ l -> Z.of_nat i < N) /\
    (forall (i c1 c2 : nat) (l1 l2 : list nat),
       postings d !! c1 = Some l1 -> postings d !! c2 = Some l2 ->
       i ∈ l1 -> i ∈ l2 -> c1 = c2) /\
    (forall (c : nat) (l : list nat), postings d !! c = Some l -> NoDup l) /\
    (forall (c : nat) (l : list nat), postings d !! c = Some l -> l <> []).
Proof.
  intros Hrun HN.
  destruct (_build_index_returns db db' Hrun)
    as (content & kmeans & d & Hdb & Hfit & Hd & _ & Hlook).
  cbn zeta in Hlook.
  set (data := map (row_at content) (seq 0 (length content / ROW_BYTES))) in *.
  set (labels := predict kmeans data) in *.
  assert (Hlen : Z.of_nat (length labels) = N).
  { subst labels data. unfold predict. rewrite !length_map, length_seq.
    unfold _get_num_records in HN. rewrite Hdb in HN. injection HN as <-.
    apply Nat2Z.inj_div. }
  assert (Hmem : forall i c l, postings d !! c = Some l -> i ∈ l -> labels !! i = Some c).
  { intros i c l Hl Hi. rewrite Hlook in Hl.
    destruct (decide (c ∈ labels)); [|discriminate Hl].
    injection Hl as <-. apply np_where_spec, Hi. }
  exists d. split; [exact Hd|]. split; [|split; [|split; [|split]]].
  - intros i Hi.
    destruct (lookup_lt_is_Some_2 labels i ltac:(lia)) as [c Hc].
    exists c, (np_where c labels). split.
    + rewrite Hlook. rewrite decide_True; [reflexivity|].
      apply list_elem_of_lookup. exists i. exact Hc.
    + apply np_where_spec, Hc.
  - intros i c l Hl Hi. pose proof (lookup_lt_Some _ _ _ (Hmem i c l Hl Hi)). lia.
  - intros i c1 c2 l1 l2 H1 H2 Hi1 Hi2.
    pose proof (Hmem i c1 l1 H1 Hi1). pose proof (Hmem i c2 l2 H2 Hi2). congruence.
  - intros c l Hl. rewrite Hlook in Hl.
    destruct (decide (c ∈ labels)); [|discriminate Hl].
    injection Hl as <-. apply where_from_NoDup.
  - intros c l Hl. rewrite Hlook in Hl.
    destruct (decide (c ∈ labels)) as [Hc|]; [|discriminate Hl].
    injection Hl as <-. apply np_where_nonempty, Hc.
Qed.

(** C2: after an index build over a store of [N] rows, the posting
    lists partition the row ids below [N]: every row id below [N] is in
    the posting list of some label, a list holds only ids below [N], no
    id is in the lists of two labels, and no list repeats an id. *)
Theorem posting_lists_partition (db db' : VecDB) (N : Z) :
  _build_index MiniBatchKMeans_fit db = (db', Return tt) ->
  _get_num_records db = Return N ->
  exists d, index_path db' = Some d /\
    (forall i : nat, Z.of_nat i < N ->
       exists c l, postings d !! c = Some l /\ i ∈ l) /\
    (forall (i c : nat) (l : list nat),
       postings d !! c = Some l -> i ∈ l -> Z.of_nat i < N) /\
    (forall (i c1 c2 : nat) (l1 l2 : list nat),
       postings d !! c1 = Some l1 -> postings d !! c2 = Some l2 ->
       i ∈ l1 -> i ∈ l2 -> c1 = c2) /\
    (forall (c : nat) (l : list nat), postings d !! c = Some l -> NoDup l).
Proof.
  intros Hrun HN.
  destruct (posting_files_of_build db db' N Hrun HN)
    as (d & Hd & Hcover & Hbound & Hdisj & Hnodup & _).
  exists d. repeat split; assumption.
Qed.

(** *** Failures of a rebuild *)

Lemma write_file_records_keeps_no_centroids (label index : nat) (db : VecDB) :
  (exists d, index_path db = Some d /\ centroids_bin d = None) ->
  exists d, index_path (write_file_records label index db).1 = Some d /\
            centroids_bin d = None.
Proof.
  intros (d & Hd & Hc). unfold write_file_records.
  destruct (negb (disk_accepts db)); [exists d; split; assumption|].
  rewrite Hd. eexists. split; [reflexivity|exact Hc].
Qed.

Lemma for_each_invariant {A} (P : VecDB -> Prop) (l : list A) (body : A -> M unit) :
  (forall x db, P db -> P (body x db).1) ->
  forall db, P db -> P (for_each l body db).1.
Proof.
  intros Hbody. induction l as [|x l IH]; intros db HP; [exact HP|].
  cbn [for_each]. unfold bindM. specialize (Hbody x db HP).
  destruct (body x db) as [db1 [[]|e]]; cbn [fst] in *; [apply IH|]; exact Hbody.
Qed.

Lemma for_each_invariant_in {A} (P : VecDB -> Prop) (l : list A) (body : A -> M unit) :
  (forall x db, x ∈ l -> P db -> P (body x db).1) ->
  forall db, P db -> P (for_each l body db).1.
Proof.
  induction l as [|x l IH]; intros Hbody db HP; [exact HP|].
  cbn [for_each]. unfold bindM.
  pose proof (Hbody x db ltac:(left) HP) as Hx.
  destruct (body x db) as [db1 [[]|e]]; cbn [fst] in *; [|exact Hx].
  apply IH; [|exact Hx]. intros y db2 Hy. apply Hbody. right. exact Hy.
Qed.

(** A posting entry written for a row under the row's own label keeps
    the directory without a centroid file and without an entry under a
    label that is not the row's. *)
Lemma write_file_records_posts_label (labels : list nat) (label index : nat) (db : VecDB) :
  labels !! index = Some label ->
  (exists d, index_path db = Some d /\ centroids_bin d = None /\
     forall c l i, postings d !! c = Some l -> i ∈ l -> labels !! i = Some c) ->
  exists d, index_path (write_file_records label index db).1 = Some d /\
    centroids_bin d = None /\
    forall c l i, postings d !! c = Some l -> i ∈ l -> labels !! i = Some c.
Proof.
  intros Hlab (d & Hd & Hc & Hposted). unfold write_file_records.
  destruct (negb (disk_accepts db)); [exists d; auto|].
  rewrite Hd. cbn [fst]. eexists. split; [reflexivity|]. split; [exact Hc|].
  cbn [postings]. intros c l i Hl Hi.
  destruct (decide (c = label)) as [->|Hne].
  - rewrite lookup_insert_eq in Hl. injection Hl as <-.
    apply elem_of_app in Hi as [Hi|Hi].
    + destruct (postings d !! label) as [old|] eqn:Hold; cbn in Hi.
      * eapply Hposted; eauto.
      * inversion Hi.
    + apply list_elem_of_singleton in Hi. subst i. exact Hlab.
  - rewrite lookup_insert_ne in Hl by congruence. eapply Hposted; eauto.
Qed.

(** Once the rows are read and clustered, the build is its write
    phase, run on a directory that has just been emptied: lines 191-193
    come after line 188 and before the first write of line 200. *)
Lemma _build_index_write_phase (db : VecDB) (n : Z) (data : list Vector) (kmeans : KMeans) :
  _get_num_records db = Return n ->
  get_all_rows db = Return data ->
  MiniBatchKMeans_fit (centroid_count n) data = Return kmeans ->
  _build_index MiniBatchKMeans_fit db
  = (for_each (np_unique (predict kmeans data)) (fun label =>
       for_each (np_where label (predict kmeans data))
                (fun index => write_file_records label index)) ;;;
     write_file_centroids (cluster_centers_ kmeans))
      (set_index_path (Some (IndexDir ∅ None))
                      (set_no_centroids (centroid_count n) db)).
Proof.
  intros Hn Hdata Hfit. unfold _build_index.
  unfold bindM at 1, reading. rewrite Hn.
  unfold bindM at 1, modify. unfold bindM at 1.
  rewrite get_all_rows_set_no_centroids, Hdata.
  unfold bindM at 1. rewrite Hfit.
  unfold bindM at 1. rewrite get_all_rows_set_no_centroids, Hdata.
  unfold bindM at 1, recreate_index_dir, modify. reflexivity.
Qed.

(** A build that cannot read or cluster the rows raises what the read
    or the clustering raised and has touched [self.no_centroids] at
    most. *)
Lemma _build_index_fails_early (db : VecDB) (e0 : exn) :
  _get_num_records db = Raise e0 \/ get_all_rows db = Raise e0 \/
  (exists n data, _get_num_records db = Return n /\ get_all_rows db = Return data /\
     MiniBatchKMeans_fit (centroid_count n) data = Raise e0) ->
  exists db', _build_index MiniBatchKMeans_fit db = (db', Raise e0) /\
              index_path db' = index_path db.
Proof.
  intros Hcase. unfold _build_index. unfold bindM at 1, reading.
  destruct (_get_num_records db) as [n|e1] eqn:Hn.
  - unfold bindM at 1, modify. unfold bindM at 1.
    rewrite get_all_rows_set_no_centroids.
    destruct (get_all_rows db) as [data|e1] eqn:Hdata.
    + destruct Hcase as [Hcase|[Hcase|(n' & data' & Hn' & Hdata' & Hfit)]];
        [discriminate Hcase..|].
      injection Hn' as <-. injection Hdata' as <-.
      unfold bindM at 1. rewrite Hfit. eexists. split; reflexivity.
    + destruct Hcase as [Hcase|[Hcase|(n' & data' & _ & Hdata' & _)]];
        [discriminate Hcase| |discriminate Hdata'].
      injection Hcase as <-. eexists. split; reflexivity.
  - assert (Hall : get_all_rows db = Raise e1)
      by (unfold get_all_rows; rewrite Hn; reflexivity).
    destruct Hcase as [Hcase|[Hcase|(n' & data' & Hn' & _)]];
      [injection Hcase as <-|rewrite Hall in Hcase; injection Hcase as <-|discriminate Hn'];
      eexists; split; reflexivity.
Qed.

(** C7, amended: when a rebuild fails, the database file is as before.
    If the failure came before the write phase (the store could not be
    read, or clustering raised), the previous index is untouched.  If
    the rows were read and clustered, the previous index directory had
    been removed before the first write: the directory left behind has
    no centroid file, every posting entry in it was written by this
    run (it lists a row under the label this clustering gives the row),
    and nothing in it depends on the index that was there before. *)
Theorem rebuild_failure_states (db db' : VecDB) (e : exn) :
  _build_index MiniBatchKMeans_fit db = (db', Raise e) ->
  db_file db' = db_file db /\
  (forall e0,
     _get_num_records db = Raise e0 \/ get_all_rows db = Raise e0 \/
     (exists n data, _get_num_records db = Return n /\ get_all_rows db = Return data /\
        MiniBatchKMeans_fit (centroid_count n) data = Raise e0) ->
     e = e0 /\ index_path db' = index_path db) /\
  (forall n data kmeans,
     _get_num_records db = Return n ->
     get_all_rows db = Return data ->
     MiniBatchKMeans_fit (centroid_count n) data = Return kmeans ->
     (exists d, index_path db' = Some d /\ centroids_bin d = None /\
        forall c l i, postings d !! c = Some l -> i ∈ l ->
                      predict kmeans data !! i = Some c) /\
     (forall previous,
        _build_index MiniBatchKMeans_fit (set_index_path previous db) = (db', Raise e))).
Proof.
  intros Hrun. split; [|split].
  - pose proof (_build_index_db_file MiniBatchKMeans_fit db) as H.
    rewrite Hrun in H. exact H.
  - intros e0 Hcase.
    destruct (_build_index_fails_early db e0 Hcase) as (db0 & Hout & Hidx).
    rewrite Hrun in Hout. injection Hout as <- <-. split; [reflexivity|exact Hidx].
  - intros n data kmeans Hn Hdata Hfit. split.
    + rewrite (_build_index_write_phase db n data kmeans Hn Hdata Hfit) in Hrun.
      set (labels := predict kmeans data) in *.
      set (db1 := set_index_path _ _) in Hrun.
      set (loop := for_each _ _) in Hrun.
      assert (Hinv : exists d, index_path (loop db1).1 = Some d /\ centroids_bin d = None /\
                       forall c l i, postings d !! c = Some l -> i ∈ l ->
                                     labels !! i = Some c).
      { subst loop. apply for_each_invariant_in.
        - intros label db0 _ H0. apply for_each_invariant_in; [|exact H0].
          intros index db2 Hindex H2.
          apply write_file_records_posts_label; [|exact H2].
          apply np_where_spec, Hindex.
        - exists (IndexDir ∅ None). split; [reflexivity|]. split; [reflexivity|].
          intros c l i Hl. cbn [postings] in Hl. rewrite lookup_empty in Hl.
          discriminate Hl. }
      unfold bindM in Hrun. destruct (loop db1) as [db2 [[]|e1]]; cbn [fst] in Hinv.
      * unfold write_file_centroids in Hrun.
        destruct (negb (disk_accepts db2)).
        -- injection Hrun as <- _. exact Hinv.
        -- destruct Hinv as (d & Hd & _). rewrite Hd in Hrun. discriminate Hrun.
      * injection Hrun as <- _. exact Hinv.
    + intros previous. rewrite <- Hrun.
      rewrite (_build_index_write_phase db n data kmeans Hn Hdata Hfit).
      rewrite (_build_index_write_phase (set_index_path previous db) n data kmeans
                 Hn Hdata Hfit).
      reflexivity.
Qed.

End Build.

(** C7, as the claim states it: a failed rebuild leaves the published
    index untouched.  With room for one more index write on the disk,
    rebuilding the three-row store removes its index and fails after
    the first posting entry: the centroid file is gone and one posting
    file holds a single id. *)
Lemma rebuild_failure_counterexample :
  ~ (forall (fit : Z -> list Vector -> outcome KMeans) (db db' : VecDB) (e : exn),
       _build_index fit db = (db', Raise e) -> index_path db' = index_path db).
Proof.
  intros H.
  specialize (H (fitted_to centers3) (set_writes_left (Some 1%nat) store3)
                (_build_index (fitted_to centers3) (set_writes_left (Some 1%nat) store3)).1
                (OSError "No space left on device")).
  assert (Hrun : _build_index (fitted_to centers3) (set_writes_left (Some 1%nat) store3)
                 = ((_build_index (fitted_to centers3)
                       (set_writes_left (Some 1%nat) store3)).1,
                    Raise (OSError "No space left on device")))
    by (vm_compute; reflexivity).
  specialize (H Hrun).
  apply (f_equal (fun ip => centroids_bin <$> ip)) in H.
  vm_compute in H. discriminate H.
Qed.

Lemma posting_lists_partition_witness :
  _build_index (fitted_to centers3) store3 = ((_build_index (fitted_to centers3) store3).1, Return tt) /\
  _get_num_records store3 = Return 3 /\
  exists d, index_path (_build_index (fitted_to centers3) store3).1 = Some d /\
    (forall i : nat, Z.of_nat i < 3 -> exists c l, postings d !! c = Some l /\ i ∈ l).
Proof.
  assert (H1 : _build_index (fitted_to centers3) store3
               = ((_build_index (fitted_to centers3) store3).1, Return tt))
    by (vm_compute; reflexivity).
  assert (H2 : _get_num_records store3 = Return 3) by (vm_compute; reflexivity).
  split; [exact H1|]. split; [exact H2|].
  destruct (posting_lists_partition (fitted_to centers3) store3 _ 3 H1 H2)
    as (d & Hd & Hcover & _).
  exists d. split; [exact Hd|exact Hcover].
Defined.

Lemma rebuild_failure_states_witness :
  (_build_index rejecting store3
   = (set_no_centroids 2 store3, Raise (ValueError "n_samples should be >= n_clusters")) /\
   index_path (set_no_centroids 2 store3) = index_path store3) /\
  (_build_index (fitted_to centers3) (set_writes_left (Some 1%nat) store3)
   = ((_build_index (fitted_to centers3) (set_writes_left (Some 1%nat) store3)).1,
      Raise (OSError "No space left on device")) /\
   exists d,
     index_path (_build_index (fitted_to centers3) (set_writes_left (Some 1%nat) store3)).1
       = Some d /\
     centroids_bin d = None /\
     forall c l i, postings d !! c = Some l -> i ∈ l ->
                   predict (MkKMeans centers3 (nearest_centroid centers3)) rows3 !! i
                   = Some c).
Proof.
  split.
  - assert (H1 : _build_index rejecting store3
                 = (set_no_centroids 2 store3,
                    Raise (ValueError "n_samples should be >= n_clusters")))
      by (vm_compute; reflexivity).
    split; [exact H1|].
    refine (proj2 (proj1 (proj2 (rebuild_failure_states rejecting store3 _ _ H1)) _ _)).
    right. right. exists 3, rows3.
    split; [vm_compute; reflexivity|]. split; [vm_compute; reflexivity|reflexivity].
  - assert (H2 : _build_index (fitted_to centers3) (set_writes_left (Some 1%nat) store3)
                 = ((_build_index (fitted_to centers3)
                       (set_writes_left (Some 1%nat) store3)).1,
                    Raise (OSError "No space left on device")))
      by (vm_compute; reflexivity).
    split; [exact H2|].
    refine (proj1 (proj2 (proj2 (rebuild_failure_states (fitted_to centers3) _ _ _ H2))
                     3 rows3 _ _ _ eq_refl)).
    + vm_compute. reflexivity.
    + vm_compute. reflexivity.
Defined.

(** ** Stable descending sort *)

Section Sorting.

Context {A : Type}.
Variable lt : A -> A -> bool.

Lemma insert_desc_perm (x : A) (l : list A) : insert_desc lt x l ≡ₚ x :: l.
Proof.
  induction l as [|y l IH]; [reflexivity|].
  cbn [insert_desc]. destruct (lt x y); [|reflexivity].
  rewrite IH. apply Permutation_swap.
Qed.

Lemma sorted_reverse_perm (l : list A) : sorted_reverse lt l ≡ₚ l.
Proof.
  induction l as [|x l IH]; [reflexivity|].
  cbn [sorted_reverse foldr]. fold (sorted_reverse lt l).
  rewrite insert_desc_perm, IH. reflexivity.
Qed.

Lemma sorted_reverse_length (l : list A) : length (sorted_reverse lt l) = length l.
Proof. apply Permutation_length, sorted_reverse_perm. Qed.

Lemma nlargest_length (n : nat) (l : list A) :
  length (nlargest lt n l) = Nat.min n (length l).
Proof. unfold nlargest. rewrite length_take, sorted_reverse_length. reflexivity. Qed.

Lemma nlargest_all (n : nat) (l : list A) :
  (length l <= n)%nat -> nlargest lt n l ≡ₚ l.
Proof.
  intros Hn. unfold nlargest.
  rewrite take_ge by (rewrite sorted_reverse_length; exact Hn).
  apply sorted_reverse_perm.
Qed.

Lemma nlargest_sublist (n : nat) (l : list A) :
  nlargest lt n l `sublist_of` sorted_reverse lt l.
Proof. apply sublist_take. Qed.

(** Elements that are never [lt] one another keep their input order. *)
Lemma insert_desc_filter (p : A -> Prop) `{!forall x, Decision (p x)} (x : A) (l : list A) :
  (forall y, p x -> p y -> lt x y = false) ->
  filter p (insert_desc lt x l) = filter p (x :: l).
Proof.
  intros Hp. induction l as [|y l IH]; [reflexivity|].
  cbn [insert_desc]. destruct (lt x y) eqn:Hxy; [|reflexivity].
  rewrite filter_cons, IH, !filter_cons.
  destruct (decide (p y)) as [Hy|Hy]; [|reflexivity].
  destruct (decide (p x)) as [Hx|Hx]; [|reflexivity].
  rewrite (Hp y Hx Hy) in Hxy. discriminate Hxy.
Qed.

Lemma sorted_reverse_stable (p : A -> Prop) `{!forall x, Decision (p x)} (l : list A) :
  (forall x y, p x -> p y -> lt x y = false) ->
  filter p (sorted_reverse lt l) = filter p l.
Proof.
  intros Hp. induction l as [|x l IH]; [reflexivity|].
  cbn [sorted_reverse foldr]. fold (sorted_reverse lt l).
  rewrite insert_desc_filter by (intros y; apply Hp).
  rewrite !filter_cons, IH. reflexivity.
Qed.

Lemma nlargest_stable (p : A -> Prop) `{!forall x, Decision (p x)} (n : nat) (l : list A) :
  (forall x y, p x -> p y -> lt x y = false) ->
  filter p (nlargest lt n l) `prefix_of` filter p l.
Proof.
  intros Hp. rewrite <- (sorted_reverse_stable p l Hp).
  unfold nlargest. destruct (prefix_take (sorted_reverse lt l) n) as [k Hk].
  exists (filter p k). rewrite Hk at 1. apply filter_app.
Qed.

(** On elements over which [lt] is asymmetric and its negation is
    transitive, the result is in descending order. *)
Variable ok : A -> Prop.
Hypothesis lt_asym : forall x y, ok x -> ok y -> lt x y = true -> lt y x = false.
Hypothesis lt_neg_trans :
  forall x y z, ok x -> ok y -> ok z -> lt x y = false -> lt y z = false -> lt x z = false.

Lemma insert_desc_sorted (x : A) (l : list A) :
  ok x -> Forall ok l ->
  StronglySorted (fun a b => lt a b = false) l ->
  StronglySorted (fun a b => lt a b = false) (insert_desc lt x l).
Proof using lt_asym lt_neg_trans.
  intros Hx Hl Hs. induction Hs as [|y l Hs IH Hy]; [repeat constructor|].
  apply Forall_cons in Hl as [Hoky Hl].
  cbn [insert_desc]. destruct (lt x y) eqn:Hxy.
  - constructor; [apply IH, Hl|].
    apply Forall_forall. intros z Hz.
    rewrite insert_desc_perm in Hz.
    apply elem_of_cons in Hz as [->|Hz].
    + apply lt_asym; assumption.
    + rewrite Forall_forall in Hy. apply Hy, Hz.
  - constructor; [constructor; assumption|].
    constructor; [exact Hxy|].
    apply Forall_forall. intros z Hz.
    rewrite Forall_forall in Hy. specialize (Hy z Hz).
    apply (lt_neg_trans x y z); try assumption.
    rewrite Forall_forall in Hl. apply Hl, Hz.
Qed.

Lemma sorted_reverse_sorted (l : list A) :
  Forall ok l -> StronglySorted (fun a b => lt a b = false) (sorted_reverse lt l).
Proof using lt_asym lt_neg_trans.
  induction 1 as [|x l Hx Hl IH]; [constructor|].
  cbn [sorted_reverse foldr]. fold (sorted_reverse lt l).
  apply insert_desc_sorted; [exact Hx| |exact IH].
  apply Forall_forall. intros z Hz. rewrite sorted_reverse_perm in Hz.
  rewrite Forall_forall in Hl. apply Hl, Hz.
Qed.

Lemma StronglySorted_take_desc (R : A -> A -> Prop) (n : nat) (l : list A) :
  StronglySorted R l -> StronglySorted R (take n l).
Proof.
  intros Hs. revert n. induction Hs as [|x l Hs IH Hx]; intros [|n]; cbn; try constructor.
  - apply IH.
  - apply Forall_forall. intros z Hz. rewrite Forall_forall in Hx.
    apply Hx. apply (elem_of_sublist _ _ _ Hz (sublist_take l n)).
Qed.

Lemma StronglySorted_lookup_desc (R : A -> A -> Prop) (l : list A) (i j : nat) (x y : A) :
  StronglySorted R l -> (i < j)%nat -> l !! i = Some x -> l !! j = Some y -> R x y.
Proof.
  intros Hs. revert i j. induction Hs as [|z l Hs IH Hz]; intros i j Hij Hi Hj; [done|].
  destruct j as [|j]; [lia|]. destruct i as [|i].
  - injection Hi as ->. rewrite Forall_forall in Hz. apply Hz.
    apply list_elem_of_lookup. exists j. exact Hj.
  - apply (IH i j); [lia|exact Hi|exact Hj].
Qed.

Lemma nlargest_descending (n : nat) (l : list A) (i j : nat) (x y : A) :
  Forall ok l -> (i < j)%nat ->
  nlargest lt n l !! i = Some x -> nlargest lt n l !! j = Some y ->
  lt x y = false.
Proof using lt_asym lt_neg_trans.
  intros Hok Hij Hi Hj.
  apply (StronglySorted_lookup_desc (fun a b => lt a b = false) (nlargest lt n l) i j);
    try assumption.
  apply StronglySorted_take_desc, sorted_reverse_sorted, Hok.
Qed.

(** What is kept is not below what is left out. *)
Lemma nlargest_best (n : nat) (l : list A) (x y : A) :
  Forall ok l -> x ∈ nlargest lt n l -> y ∈ l -> lt x y = true ->
  y ∈ nlargest lt n l.
Proof using lt_asym lt_neg_trans.
  intros Hok Hx Hy Hxy. unfold nlargest in *.
  pose proof (sorted_reverse_sorted l Hok) as Hs.
  rewrite <- (sorted_reverse_perm l) in Hy.
  apply list_elem_of_lookup in Hx as [i Hi].
  apply list_elem_of_lookup in Hy as [j Hj].
  apply lookup_take_Some in Hi as [Hi Hin].
  destruct (decide (j < n)%nat) as [Hjn|Hjn].
  - apply list_elem_of_lookup. exists j. apply lookup_take_Some. split; assumption.
  - exfalso.
    assert (Hno : lt x y = false).
    { apply (StronglySorted_lookup_desc (fun a b => lt a b = false) _ i j x y Hs);
        [lia|exact Hi|exact Hj]. }
    congruence.
Qed.

End Sorting.

Lemma nlargest_submseteq {A} (lt : A -> A -> bool) (n : nat) (l : list A) :
  nlargest lt n l ⊆+ l.
Proof.
  transitivity (sorted_reverse lt l).
  - apply sublist_submseteq, nlargest_sublist.
  - apply Permutation_submseteq, sorted_reverse_perm.
Qed.

(** Sorting decorated elements is sorting the elements by their
    decoration. *)
Lemma insert_desc_map {A B} (g : A -> B) (lt : B -> B -> bool) (x : A) (l : list A) :
  insert_desc lt (g x) (map g l)
  = map g (insert_desc (fun a b => lt (g a) (g b)) x l).
Proof.
  induction l as [|y l IH]; [reflexivity|].
  cbn [map insert_desc]. destruct (lt (g x) (g y)); [|reflexivity].
  cbn [map]. f_equal. exact IH.
Qed.

Lemma sorted_reverse_map {A B} (g : A -> B) (lt : B -> B -> bool) (l : list A) :
  sorted_reverse lt (map g l) = map g (sorted_reverse (fun a b => lt (g a) (g b)) l).
Proof.
  induction l as [|x l IH]; [reflexivity|].
  cbn [map sorted_reverse foldr].
  fold (sorted_reverse lt (map g l)).
  fold (sorted_reverse (fun a b => lt (g a) (g b)) l).
  rewrite IH. apply insert_desc_map.
Qed.

Lemma nlargest_map {A B} (g : A -> B) (lt : B -> B -> bool) (n : nat) (l : list A) :
  nlargest lt n (map g l) = map g (nlargest (fun a b => lt (g a) (g b)) n l).
Proof.
  unfold nlargest. rewrite sorted_reverse_map. symmetry. apply fmap_take.
Qed.

(** ** The order of floats *)

Lemma flt_key (x y : spec_float) :
  is_nan x = false -> is_nan y = false ->
  (flt x y = true <-> lex_lt (float_key x) (float_key y)).
Proof.
  intros Hx Hy. unfold flt, SFltb, SFcompare, lex_lt.
  destruct x as [sx|sx| |sx mx ex]; try discriminate Hx;
  destruct y as [sy|sy| |sy my ey]; try discriminate Hy;
  try destruct sx; try destruct sy; cbn [float_key fst snd];
  try (split; [discriminate|lia]);
  try (split; [lia|reflexivity]).
  all: change (Pos.compare_cont Eq mx my) with (Pos.compare mx my);
    destruct (Z.compare_spec ex ey); destruct (Pos.compare_spec mx my);
    cbn; split; intros; try discriminate; try reflexivity; try lia.
Qed.

Lemma feq_key (x y : spec_float) :
  feq x y = true ->
  is_nan x = false /\ is_nan y = false /\ float_key x = float_key y.
Proof.
  unfold feq, SFeqb, SFcompare.
  destruct x as [sx|sx| |sx mx ex]; destruct y as [sy|sy| |sy my ey];
    try destruct sx; try destruct sy; cbn [float_key is_nan];
    try discriminate; try (intros _; repeat split; reflexivity).
  all: change (Pos.compare_cont Eq mx my) with (Pos.compare mx my);
    destruct (Z.compare_spec ex ey); destruct (Pos.compare_spec mx my);
    cbn; try discriminate; intros _; subst; repeat split; reflexivity.
Qed.

Lemma flt_false_key (x y : spec_float) :
  is_nan x = false -> is_nan y = false ->
  (flt x y = false <-> ~ lex_lt (float_key x) (float_key y)).
Proof.
  intros Hx Hy. rewrite <- (flt_key x y Hx Hy). destruct (flt x y); split; done.
Qed.

Lemma flt_asym (x y : spec_float) :
  is_nan x = false -> is_nan y = false -> flt x y = true -> flt y x = false.
Proof.
  intros Hx Hy. rewrite (flt_key x y Hx Hy), (flt_false_key y x Hy Hx).
  unfold lex_lt. destruct (float_key x) as [[a1 b1] c1], (float_key y) as [[a2 b2] c2].
  cbn [fst snd]. lia.
Qed.

Lemma flt_neg_trans (x y z : spec_float) :
  is_nan x = false -> is_nan y = false -> is_nan z = false ->
  flt x y = false -> flt y z = false -> flt x z = false.
Proof.
  intros Hx Hy Hz.
  rewrite (flt_false_key x y Hx Hy), (flt_false_key y z Hy Hz), (flt_false_key x z Hx Hz).
  unfold lex_lt.
  destruct (float_key x) as [[a1 b1] c1], (float_key y) as [[a2 b2] c2],
           (float_key z) as [[a3 b3] c3].
  cbn [fst snd]. lia.
Qed.

Lemma feq_not_flt (x y s : spec_float) :
  feq x s = true -> feq y s = true -> flt x y = false.
Proof.
  intros Hxs Hys.
  destruct (feq_key x s Hxs) as (Hx & _ & Hkx).
  destruct (feq_key y s Hys) as (Hy & _ & Hky).
  apply (flt_false_key x y Hx Hy). rewrite Hkx, Hky.
  unfold lex_lt. destruct (float_key s) as [[a b] c]. cbn [fst snd]. lia.
Qed.

(** ** Batched reads *)

Lemma range_ids_single (id : Z) : range_ids id id = [id].
Proof.
  unfold range_ids. replace (id - id + 1) with 1 by lia.
  change (Z.to_nat 1) with 1%nat. cbn [seq map]. change (Z.of_nat 0) with 0.
  rewrite Z.add_0_r. reflexivity.
Qed.

Lemma range_ids_snoc (start prev : Z) :
  start <= prev -> range_ids start (prev + 1) = range_ids start prev ++ [prev + 1].
Proof.
  intros Hle. unfold range_ids.
  replace (Z.to_nat (prev + 1 - start + 1)) with (S (Z.to_nat (prev - start + 1))) by lia.
  rewrite seq_S, map_app. cbn [map]. do 2 f_equal. lia.
Qed.

Lemma read_block_in_range (content : list byte) (start end_ : Z) :
  0 <= start <= end_ ->
  (end_ + 1) * Z.of_nat ROW_BYTES <= Z.of_nat (length content) ->
  read_block content (start, end_)
    = Return (map (fun id => row_at content (Z.to_nat id)) (range_ids start end_)).
Proof.
  intros Hse Hfit. unfold read_block.
  rewrite ROW_BYTES_eq in Hfit. change (Z.of_nat 280) with 280 in Hfit.
  change (Z.of_nat DIMENSION) with 70. change (Z.of_nat ELEMENT_SIZE) with 4.
  destruct (Z.ltb_spec (start * 70 * 4) 0) as [?|_]; [lia|].
  set (n := Z.to_nat (end_ - start + 1)).
  set (s := Z.to_nat start).
  replace (Z.to_nat ((end_ - start + 1) * 70 * 4)) with (n * ROW_BYTES)%nat
    by (rewrite ROW_BYTES_eq; lia).
  replace (Z.to_nat (start * 70 * 4)) with (s * ROW_BYTES)%nat
    by (rewrite ROW_BYTES_eq; lia).
  assert (Hin : ((s + n) * ROW_BYTES <= length content)%nat)
    by (rewrite ROW_BYTES_eq; lia).
  set (block := take (n * ROW_BYTES) (drop (s * ROW_BYTES) content)).
  assert (Hblock : length block = (n * DIMENSION * ELEMENT_SIZE)%nat).
  { subst block. rewrite length_take, length_drop.
    rewrite ROW_BYTES_eq in *. unfold DIMENSION, ELEMENT_SIZE. lia. }
  rewrite Hblock, Nat.Div0.mod_mul. cbn [Nat.eqb negb].
  rewrite (frombuffer_length (n * DIMENSION) block)
    by (rewrite Hblock; unfold ELEMENT_SIZE; lia).
  rewrite Nat.Div0.mod_mul. cbn [Nat.eqb negb].
  subst block. rewrite block_rows by exact Hin.
  rewrite length_map, length_seq.
  destruct (Z.ltb_spec (Z.of_nat n) (end_ - start + 1)) as [?|_]; [lia|].
  fold n. rewrite take_ge by (rewrite length_map, length_seq; lia).
  f_equal. unfold range_ids. fold n. rewrite map_map.
  apply map_ext. intros k. f_equal. lia.
Qed.

Lemma read_blocks_group (content : list byte) (ids : list Z) (start prev : Z) :
  0 <= start <= prev ->
  (prev + 1) * Z.of_nat ROW_BYTES <= Z.of_nat (length content) ->
  Forall (fun id => 0 <= id /\ (id + 1) * Z.of_nat ROW_BYTES <= Z.of_nat (length content)) ids ->
  read_blocks content (group_ranges start prev ids)
    = Return (map (fun id => row_at content (Z.to_nat id)) (range_ids start prev ++ ids)).
Proof.
  intros Hsp Hfit Hids. revert start prev Hsp Hfit.
  induction Hids as [|id ids [Hid0 Hid] Hids IH]; intros start prev Hsp Hfit.
  - cbn [group_ranges read_blocks]. rewrite read_block_in_range by assumption.
    cbn [bindO]. rewrite !app_nil_r. reflexivity.
  - cbn [group_ranges]. destruct (Z.eqb_spec id (prev + 1)) as [->|Hne].
    + rewrite IH by (try assumption; lia).
      rewrite range_ids_snoc by lia. rewrite <- app_assoc. reflexivity.
    + cbn [read_blocks]. rewrite read_block_in_range by assumption.
      cbn [bindO]. rewrite IH by (try assumption; lia).
      cbn [bindO]. rewrite range_ids_single, <- map_app. reflexivity.
Qed.

(** [get_rows] returns the rows of its ids in the order of the ids,
    whether or not the ids are sorted. *)
Lemma get_rows_in_range (db : VecDB) (content : list byte) (ids : list Z) :
  db_file db = Some content ->
  Forall (fun id => 0 <= id /\ (id + 1) * Z.of_nat ROW_BYTES <= Z.of_nat (length content)) ids ->
  get_rows db ids = Return (map (fun id => row_at content (Z.to_nat id)) ids).
Proof.
  intros Hdb Hids. unfold get_rows, get_rows_body. rewrite Hdb.
  destruct Hids as [|id ids [Hid0 Hid] Hids]; [reflexivity|].
  rewrite read_blocks_group by (try assumption; lia).
  rewrite range_ids_single. reflexivity.
Qed.

(** ** Retrieval *)

Section Retrieval.

Variable np_dot : list spec_float -> list spec_float -> spec_float.
Variable np_norm : list spec_float -> spec_float.

Lemma _get_top_centroids_returns (db : VecDB) (d : index_dir) (cs : list Vector)
      (query : Vector) (k : nat) :
  index_path db = Some d ->
  centroids_bin d = Some cs ->
  (2 <= length cs)%nat ->
  Forall (fun c => length c = length query) cs ->
  exists top,
    _get_top_centroids np_dot np_norm db query k = Return top /\
    length top = Nat.min k (length cs) /\
    NoDup (map snd top) /\
    Forall (fun c => (c < length cs)%nat) (map snd top).
Proof.
  intros Hd Hcs Hlen Hshape.
  unfold _get_top_centroids, read_file_centroids_with_memap.
  rewrite Hd, Hcs. cbn [bindO]. unfold _vectorized_cal_score.
  destruct cs as [|c0 cs']; [simpl in Hlen; lia|].
  replace (forallb _ (c0 :: cs')) with true.
  2:{ symmetry. apply forallb_forall. intros r Hr.
      rewrite Forall_forall in Hshape. apply Nat.eqb_eq, Hshape, list_elem_of_In, Hr. }
  cbn [bindO]. set (cs := c0 :: cs') in *.
  set (scores := map _ cs).
  assert (Hsc : length scores = length cs) by (subst scores; apply length_map).
  rewrite Hsc. destruct (Nat.eqb_spec (length cs) 1) as [?|_]; [lia|].
  set (heap := combine scores (seq 0 (length cs))).
  assert (Hsnd : map snd heap = seq 0 (length cs)).
  { subst heap. apply snd_zip. rewrite length_seq. lia. }
  exists (nlargest tuple_lt k heap). split; [reflexivity|].
  split; [|split].
  - rewrite nlargest_length. subst heap.
    rewrite length_combine, Hsc, length_seq. lia.
  - apply (sublist_NoDup _ (map snd (sorted_reverse tuple_lt heap))).
    + rewrite (sorted_reverse_perm tuple_lt heap), Hsnd. apply NoDup_seq.
    + apply (fmap_sublist snd), nlargest_sublist.
  - apply Forall_forall. intros c Hc.
    assert (Hc' : c ∈ map snd (sorted_reverse tuple_lt heap)).
    { eapply elem_of_sublist; [exact Hc|]. apply (fmap_sublist snd), nlargest_sublist. }
    rewrite (sorted_reverse_perm tuple_lt heap), Hsnd in Hc'.
    apply elem_of_seq in Hc'. lia.
Qed.

Lemma read_postings_returns (db : VecDB) (d : index_dir) (labels : list nat) :
  index_path db = Some d ->
  Forall (fun c => is_Some (postings d !! c)) labels ->
  exists lists,
    read_postings db labels = Return lists /\
    Forall2 (fun c l => postings d !! c = Some l) labels lists.
Proof.
  intros Hd Hall. induction Hall as [|c labels [l Hl] Hall (lists & Hread & Hf)].
  - exists []. split; [reflexivity|constructor].
  - exists (l :: lists). cbn [read_postings]. unfold read_file_records_mmap.
    rewrite Hd, Hl. cbn [bindO]. rewrite Hread. cbn [bindO].
    split; [reflexivity|]. constructor; assumption.
Qed.

(** The candidates of a query: the rows of the posting lists of the
    probed centroids, in probing order, each with its score. *)
Lemma scored_candidates_returns (db : VecDB) (content : list byte) (d : index_dir)
      (cs : list Vector) (query : Vector) :
  db_file db = Some content ->
  index_path db = Some d ->
  centroids_bin d = Some cs ->
  (2 <= length cs)%nat ->
  Forall (fun c => length c = DIMENSION) cs ->
  length query = DIMENSION ->
  (forall c, (c < length cs)%nat ->
     exists l, postings d !! c = Some l /\
       Forall (fun i => (i < length content / ROW_BYTES)%nat) l) ->
  exists top lists,
    _get_top_centroids np_dot np_norm db query
       (probe_count (Z.of_nat (length content) / Z.of_nat ROW_BYTES)) = Return top /\
    length top = Nat.min (probe_count (Z.of_nat (length content) / Z.of_nat ROW_BYTES))
                         (length cs) /\
    NoDup (map snd top) /\
    Forall2 (fun c l => (c < length cs)%nat /\ postings d !! c = Some l) (map snd top) lists /\
    scored_candidates np_dot np_norm db query
      = Return (map (fun i => (row_score np_dot np_norm content query i, i)) (concat lists)).
Proof.
  intros Hdb Hd Hcs Hlen Hshape Hq Hpost.
  destruct (_get_top_centroids_returns db d cs query
              (probe_count (Z.of_nat (length content) / Z.of_nat ROW_BYTES)) Hd Hcs Hlen)
    as (top & Htop & Htoplen & Hnd & Hlt).
  { rewrite Hq. exact Hshape. }
  destruct (read_postings_returns db d (map snd top) Hd) as (lists & Hread & Hf2).
  { eapply Forall_impl; [exact Hlt|]. intros c Hc.
    destruct (Hpost c Hc) as (l & Hl & _). exists l. exact Hl. }
  exists top, lists. split; [exact Htop|]. split; [exact Htoplen|]. split; [exact Hnd|].
  split.
  { clear -Hf2 Hlt. induction Hf2; [constructor|].
    apply Forall_cons in Hlt as [? ?]. constructor; auto. }
  assert (Hids : Forall (fun i => (i < length content / ROW_BYTES)%nat) (concat lists)).
  { clear -Hf2 Hlt Hpost. induction Hf2 as [|c l labels lists Hl Hf2 IH]; [constructor|].
    apply Forall_cons in Hlt as [Hc Hlt]. cbn [concat]. apply Forall_app. split; [|auto].
    destruct (Hpost c Hc) as (l' & Hl' & Hall). congruence. }
  unfold scored_candidates, _get_num_records. rewrite Hdb. cbn [bindO].
  rewrite Htop. cbn [bindO]. rewrite Hread. cbn [bindO].
  assert (Hzs : Forall (fun id => 0 <= id /\
                   (id + 1) * Z.of_nat ROW_BYTES <= Z.of_nat (length content))
                (map Z.of_nat (concat lists))).
  { apply Forall_fmap. eapply Forall_impl; [exact Hids|].
    intros i Hi. cbn. rewrite ROW_BYTES_eq in *.
    pose proof (Nat.div_mod (length content) 280 ltac:(lia)). lia. }
  rewrite (get_rows_in_range db content _ Hdb Hzs).
  cbn [bindO]. rewrite Hq, Nat.eqb_refl. cbn [negb]. f_equal.
  unfold row_score. clear Hids Hzs.
  generalize (concat lists). intros ids.
  induction ids as [|i ids IH]; [reflexivity|].
  cbn [map combine zip_with]. rewrite Nat2Z.id. f_equal. exact IH.
Qed.

End Retrieval.

(** ** Ranking *)

(** The ids that line 162 keeps of candidates [(score i, i)]: the
    [k] best by score.  Their number and their membership hold for any
    scores; their order is stated for scores without NaN. *)
Lemma ranked_ids (score : nat -> spec_float) (ids : list nat) (k : nat) :
  map snd (nlargest key_lt k (map (fun i => (score i, i)) ids))
  = nlargest (fun a b => flt (score a) (score b)) k ids.
Proof.
  rewrite (nlargest_map (fun i => (score i, i)) key_lt), map_map.
  cbn [snd]. rewrite map_id. reflexivity.
Qed.

Lemma ranked_ids_spec (score : nat -> spec_float) (ids : list nat) (k : nat) :
  let out := map snd (nlargest key_lt k (map (fun i => (score i, i)) ids)) in
  length out = Nat.min k (length ids) /\
  out ⊆+ ids /\
  (Forall (fun i => is_nan (score i) = false) ids ->
     (forall (i j a b : nat), (i < j)%nat ->
        out !! i = Some a -> out !! j = Some b -> flt (score a) (score b) = false) /\
     (forall a b : nat, a ∈ out -> b ∈ ids ->
        flt (score a) (score b) = true -> b ∈ out) /\
     (forall s : spec_float,
        filter (fun i => feq (score i) s = true) out
          `prefix_of` filter (fun i => feq (score i) s = true) ids)).
Proof.
  cbv zeta. rewrite ranked_ids.
  set (lt := fun a b : nat => flt (score a) (score b)).
  assert (Hasym : forall x y, is_nan (score x) = false -> is_nan (score y) = false ->
                    lt x y = true -> lt y x = false)
    by (intros x y; apply flt_asym).
  assert (Htrans : forall x y z, is_nan (score x) = false -> is_nan (score y) = false ->
                     is_nan (score z) = false ->
                     lt x y = false -> lt y z = false -> lt x z = false)
    by (intros x y z; apply flt_neg_trans).
  split; [apply nlargest_length|]. split; [apply nlargest_submseteq|].
  intros Hnan. split; [|split].
  - intros i j a b Hij Hi Hj.
    apply (nlargest_descending lt (fun i => is_nan (score i) = false)
             Hasym Htrans k ids i j a b Hnan Hij Hi Hj).
  - intros a b Ha Hb Hab.
    apply (nlargest_best lt (fun i => is_nan (score i) = false)
             Hasym Htrans k ids a b Hnan Ha Hb Hab).
  - intros s. apply nlargest_stable.
    intros x y Hx Hy. apply (feq_not_flt _ _ s Hx Hy).
Qed.

Section Ranking.

Variable np_dot : list spec_float -> list spec_float -> spec_float.
Variable np_norm : list spec_float -> spec_float.

Lemma key_lt_asym (x y : spec_float * nat) :
  is_nan x.1 = false -> is_nan y.1 = false -> key_lt x y = true -> key_lt y x = false.
Proof. apply flt_asym. Qed.

Lemma key_lt_neg_trans (x y z : spec_float * nat) :
  is_nan x.1 = false -> is_nan y.1 = false -> is_nan z.1 = false ->
  key_lt x y = false -> key_lt y z = false -> key_lt x z = false.
Proof. apply flt_neg_trans. Qed.

(** C3, amended: on a store whose index is in place (at least two
    centroids of the store's dimension, a posting file for every
    centroid, all ids in range), [retrieve] returns [min top_k n] of the
    [n] candidates, the candidates being the rows of the posting lists
    of the probed centroids in probing order.  Provided no candidate's
    score is NaN, the ids come in descending order of score, no
    candidate left out scores above one that is returned, and
    candidates whose scores are equal come in the order in which they
    were gathered (probing order of the centroids, then posting-list
    order), not in order of row id. *)
Theorem retrieve_ranking (db : VecDB) (content : list byte) (d : index_dir)
        (cs : list Vector) (query : Vector) (top_k : nat) :
  db_file db = Some content ->
  index_path db = Some d ->
  centroids_bin d = Some cs ->
  (2 <= length cs)%nat ->
  Forall (fun c => length c = DIMENSION) cs ->
  length query = DIMENSION ->
  (forall c, (c < length cs)%nat ->
     exists l, postings d !! c = Some l /\
       Forall (fun i => (i < length content / ROW_BYTES)%nat) l) ->
  exists (top : list (spec_float * nat)) (lists : list (list nat)) (out : list nat),
    _get_top_centroids np_dot np_norm db query
       (probe_count (Z.of_nat (length content) / Z.of_nat ROW_BYTES)) = Return top /\
    Forall2 (fun c l => postings d !! c = Some l) (map snd top) lists /\
    scored_candidates np_dot np_norm db query
      = Return (map (fun i => (row_score np_dot np_norm content query i, i))
                    (concat lists)) /\
    retrieve np_dot np_norm db query top_k = Return out /\
    length out = Nat.min top_k (length (concat lists)) /\
    out ⊆+ concat lists /\
    (Forall (fun i => is_nan (row_score np_dot np_norm content query i) = false)
            (concat lists) ->
     (forall (i j a b : nat), (i < j)%nat ->
        out !! i = Some a -> out !! j = Some b ->
        flt (row_score np_dot np_norm content query a)
            (row_score np_dot np_norm content query b) = false) /\
     (forall a b : nat, a ∈ out -> b ∈ concat lists ->
        flt (row_score np_dot np_norm content query a)
            (row_score np_dot np_norm content query b) = true -> b ∈ out) /\
     (forall s : spec_float,
        filter (fun i => feq (row_score np_dot np_norm content query i) s = true) out
          `prefix_of`
        filter (fun i => feq (row_score np_dot np_norm content query i) s = true)
               (concat lists))).
Proof.
  intros Hdb Hd Hcs Hlen Hshape Hq Hpost.
  destruct (scored_candidates_returns np_dot np_norm db content d cs query
              Hdb Hd Hcs Hlen Hshape Hq Hpost)
    as (top & lists & Htop & _ & _ & Hf2 & Hcands).
  pose proof (ranked_ids_spec (row_score np_dot np_norm content query)
                (concat lists) top_k) as Hspec.
  cbv zeta in Hspec. destruct Hspec as (Hlenout & Hsub & Hord).
  exists top, lists,
    (map snd (nlargest key_lt top_k
                (map (fun i => (row_score np_dot np_norm content query i, i))
                     (concat lists)))).
  split; [exact Htop|]. split.
  { eapply Forall2_impl; [exact Hf2|]. intros c l [_ H]. exact H. }
  split; [exact Hcands|]. split.
  { unfold retrieve. rewrite Hcands. reflexivity. }
  split; [exact Hlenout|]. split; [exact Hsub|exact Hord].
Qed.

End Ranking.

(** C3, as the claim states it: two returned candidates with equal
    scores come in ascending order of row id.  On the three-row store
    the rows 2 and 0 score the same against the query (1,0); row 2 lies
    in the cluster probed first and is returned before row 0. *)
Lemma retrieve_tie_order_counterexample :
  ~ (forall (np_dot : list spec_float -> list spec_float -> spec_float)
            (np_norm : list spec_float -> spec_float)
            (db : VecDB) (content : list byte) (query : Vector) (top_k : nat)
            (out : list nat) (i j a b : nat),
       db_file db = Some content ->
       retrieve np_dot np_norm db query top_k = Return out ->
       (i < j)%nat -> out !! i = Some a -> out !! j = Some b ->
       feq (row_score np_dot np_norm content query a)
           (row_score np_dot np_norm content query b) = true ->
       (a < b)%nat).
Proof.
  intros H.
  assert (Hdb : db_file store3 = Some (rows_tobytes rows3)) by (vm_compute; reflexivity).
  assert (Hout : retrieve dot_seq norm_seq store3 query3 5 = Return [1; 2; 0]%nat)
    by (vm_compute; reflexivity).
  assert (Htie : feq (row_score dot_seq norm_seq (rows_tobytes rows3) query3 2)
                     (row_score dot_seq norm_seq (rows_tobytes rows3) query3 0) = true)
    by (vm_compute; reflexivity).
  specialize (H dot_seq norm_seq store3 (rows_tobytes rows3) query3 5%nat
                [1; 2; 0]%nat 1%nat 2%nat 2%nat 0%nat Hdb Hout
                ltac:(lia) eq_refl eq_refl Htie).
  lia.
Qed.

Lemma retrieve_ranking_witness :
  exists (lists : list (list nat)) (out : list nat),
    scored_candidates dot_seq norm_seq store3 query3
      = Return (map (fun i => (row_score dot_seq norm_seq (rows_tobytes rows3) query3 i, i))
                    (concat lists)) /\
    Forall (fun i => is_nan (row_score dot_seq norm_seq (rows_tobytes rows3) query3 i)
                     = false) (concat lists) /\
    retrieve dot_seq norm_seq store3 query3 2 = Return out /\
    length out = Nat.min 2 (length (concat lists)) /\
    (forall (i j a b : nat), (i < j)%nat ->
       out !! i = Some a -> out !! j = Some b ->
       flt (row_score dot_seq norm_seq (rows_tobytes rows3) query3 a)
           (row_score dot_seq norm_seq (rows_tobytes rows3) query3 b) = false).
Proof.
  assert (Hdb : db_file store3 = Some (rows_tobytes rows3)) by (vm_compute; reflexivity).
  assert (Hd : index_path store3
               = Some (IndexDir {[ 0%nat := [1; 2]%nat; 1%nat := [0%nat] ]} (Some centers3)))
    by (vm_compute; reflexivity).
  assert (Hshape : Forall (fun c => length c = DIMENSION) centers3)
    by (repeat constructor).
  assert (Hpost : forall c, (c < length centers3)%nat ->
            exists l, postings (IndexDir {[ 0%nat := [1; 2]%nat; 1%nat := [0%nat] ]}
                                         (Some centers3)) !! c = Some l /\
              Forall (fun i => (i < length (rows_tobytes rows3) / ROW_BYTES)%nat) l).
  { intros c Hc. change (length centers3) with 2%nat in Hc.
    change (length (rows_tobytes rows3) / ROW_BYTES)%nat with 3%nat.
    destruct c as [|[|c]]; [| |lia].
    - exists [1; 2]%nat. split; [reflexivity|]. repeat constructor.
    - exists [0]%nat. split; [reflexivity|]. repeat constructor. }
  destruct (retrieve_ranking dot_seq norm_seq store3 (rows_tobytes rows3) _ centers3
              query3 2 Hdb Hd eq_refl ltac:(cbn; lia) Hshape eq_refl Hpost)
    as (top & lists & out & _ & _ & Hcands & Hout & Hlen & _ & Hord).
  assert (Hids : concat lists = [1; 2; 0]%nat).
  { assert (Hsnd : (let? cands := scored_candidates dot_seq norm_seq store3 query3 in
                    Return (map snd cands)) = Return [1; 2; 0]%nat)
      by (vm_compute; reflexivity).
    rewrite Hcands in Hsnd. cbn [bindO] in Hsnd. injection Hsnd as Hsnd.
    rewrite map_map in Hsnd. cbn [snd] in Hsnd. rewrite map_id in Hsnd. exact Hsnd. }
  assert (Hnan : Forall (fun i => is_nan (row_score dot_seq norm_seq (rows_tobytes rows3)
                                            query3 i) = false) (concat lists)).
  { rewrite Hids. repeat constructor; vm_compute; reflexivity. }
  exists lists, out. split; [exact Hcands|]. split; [exact Hnan|].
  split; [exact Hout|]. split; [exact Hlen|]. exact (proj1 (Hord Hnan)).
Defined.

(** ** An oversized [top_k] on a hundred-row store *)

Lemma elem_of_concat_lists {A} (x : A) (ls : list (list A)) :
  x ∈ concat ls <-> exists l, x ∈ l /\ l ∈ ls.
Proof.
  rewrite list_elem_of_In, in_concat. split.
  - intros (l & Hl & Hx). exists l. split; apply list_elem_of_In; assumption.
  - intros (l & Hx & Hl). exists l. split; apply list_elem_of_In; assumption.
Qed.

Lemma concat_postings_NoDup (P : gmap nat (list nat)) (labels : list nat)
      (lists : list (list nat)) :
  Forall2 (fun c l => P !! c = Some l) labels lists ->
  NoDup labels ->
  (forall c l, P !! c = Some l -> NoDup l) ->
  (forall i c1 c2 l1 l2, P !! c1 = Some l1 -> P !! c2 = Some l2 ->
     i ∈ l1 -> i ∈ l2 -> c1 = c2) ->
  NoDup (concat lists).
Proof.
  intros Hf2 Hnd Hlists Hdisj.
  induction Hf2 as [|c l labels lists Hl Hf2 IH]; [constructor|].
  apply NoDup_cons in Hnd as [Hc Hnd]. cbn [concat].
  apply NoDup_app. split; [eapply Hlists, Hl|]. split; [|apply IH, Hnd].
  intros i Hi Hin. apply elem_of_concat_lists in Hin as (l' & Hil' & Hl').
  apply list_elem_of_lookup in Hl' as [k Hk].
  destruct (Forall2_lookup_r _ _ _ _ _ Hf2 Hk) as (c' & Hc' & Hpc').
  assert (c = c') by (eapply Hdisj; eauto). subst c'.
  apply Hc. apply list_elem_of_lookup. exists k. exact Hc'.
Qed.

Lemma elem_of_concat_postings (P : gmap nat (list nat)) (labels : list nat)
      (lists : list (list nat)) (i : nat) :
  Forall2 (fun c l => P !! c = Some l) labels lists ->
  i ∈ concat lists <-> exists c l, c ∈ labels /\ P !! c = Some l /\ i ∈ l.
Proof.
  intros Hf2. split.
  - intros Hin. apply elem_of_concat_lists in Hin as (l & Hil & Hl).
    apply list_elem_of_lookup in Hl as [k Hk].
    destruct (Forall2_lookup_r _ _ _ _ _ Hf2 Hk) as (c & Hc & Hpc).
    exists c, l. split; [|split; assumption].
    apply list_elem_of_lookup. exists k. exact Hc.
  - intros (c & l & Hc & Hl & Hil).
    apply list_elem_of_lookup in Hc as [k Hk].
    destruct (Forall2_lookup_l _ _ _ _ _ Hf2 Hk) as (l' & Hl' & Hpl').
    assert (l' = l) by congruence. subst l'.
    apply elem_of_concat_lists. exists l. split; [exact Hil|].
    apply list_elem_of_lookup. exists k. exact Hl'.
Qed.

Lemma NoDup_bounded_length (l : list nat) (n : nat) :
  NoDup l -> (forall i, i ∈ l -> (i < n)%nat) -> (length l <= n)%nat.
Proof.
  intros Hnd Hb. rewrite <- (length_seq n 0).
  apply submseteq_length, NoDup_submseteq; [exact Hnd|].
  intros i Hi. apply elem_of_seq. specialize (Hb i Hi). lia.
Qed.

Lemma exists_unlisted (l : list nat) (n : nat) :
  NoDup l -> (length l < n)%nat -> exists c, (c < n)%nat /\ c ∉ l.
Proof.
  intros Hnd Hlen.
  destruct (decide (Forall (fun c => c ∈ l) (seq 0 n))) as [Hall|Hnot].
  - exfalso. rewrite Forall_forall in Hall.
    pose proof (submseteq_length _ _ (NoDup_submseteq _ _ (NoDup_seq 0 n) Hall)) as H.
    rewrite length_seq in H. lia.
  - apply not_Forall_Exists in Hnot; [|intros; apply _].
    apply Exists_exists in Hnot as (c & Hc & Hcl).
    exists c. apply elem_of_seq in Hc. split; [lia|exact Hcl].
Qed.

Section Oversized.

Variable MiniBatchKMeans_fit : Z -> list Vector -> outcome KMeans.
Variable np_dot : list spec_float -> list spec_float -> spec_float.
Variable np_norm : list spec_float -> spec_float.

(** C8, amended: on a hundred-row store whose index build returned
    twenty centroids of the store's dimension and left no cluster
    empty, [retrieve] with [top_k = 1000] returns without error, and
    without padding, exactly the row ids held by the posting lists of
    the twelve centroids that [_get_top_centroids] selects, each id
    once and all below 100: fewer than 100 ids.  They are ranked:
    provided no returned row's score is NaN, they come in descending
    order of score. *)
Theorem retrieve_oversized_top_k (db0 db : VecDB) (d : index_dir)
        (cs : list Vector) (query : Vector) :
  _get_num_records db0 = Return 100 ->
  _build_index MiniBatchKMeans_fit db0 = (db, Return tt) ->
  index_path db = Some d ->
  centroids_bin d = Some cs ->
  length cs = 20%nat ->
  Forall (fun c => length c = DIMENSION) cs ->
  (forall c, (c < 20)%nat -> is_Some (postings d !! c)) ->
  length query = DIMENSION ->
  exists (out probed : list nat) (top : list (spec_float * nat)) (content : list byte),
    retrieve np_dot np_norm db query 1000 = Return out /\
    NoDup out /\
    (forall i, i ∈ out -> (i < 100)%nat) /\
    (length out < 100)%nat /\
    length probed = 12%nat /\ NoDup probed /\
    (forall i, i ∈ out <->
       exists c l, c ∈ probed /\ postings d !! c = Some l /\ i ∈ l) /\
    _get_top_centroids np_dot np_norm db query 12 = Return top /\
    probed = map snd top /\
    db_file db = Some content /\
    (Forall (fun i => is_nan (row_score np_dot np_norm content query i) = false) out ->
     forall (i j a b : nat), (i < j)%nat ->
       out !! i = Some a -> out !! j = Some b ->
       flt (row_score np_dot np_norm content query a)
           (row_score np_dot np_norm content query b) = false).
Proof.
  intros HN Hrun Hd Hcs Hlen Hshape Hfull Hq.
  destruct (posting_files_of_build MiniBatchKMeans_fit db0 db 100 Hrun HN)
    as (d' & Hd' & Hcover & Hbound & Hdisj & Hnodup & Hnonempty).
  rewrite Hd in Hd'. injection Hd' as <-.
  destruct (num_records_nat db0 100 HN) as (content & Hdb0 & Hcount & _).
  assert (Hdb : db_file db = Some content).
  { pose proof (_build_index_db_file MiniBatchKMeans_fit db0) as H.
    rewrite Hrun in H. cbn [fst] in H. congruence. }
  assert (Hn : (length content / ROW_BYTES)%nat = 100%nat) by lia.
  destruct (scored_candidates_returns np_dot np_norm db content d cs query
              Hdb Hd Hcs ltac:(lia) Hshape Hq)
    as (top & lists & Htop & Htoplen & Hnd & Hf2 & Hcands).
  { intros c Hc. destruct (Hfull c ltac:(lia)) as [l Hl].
    exists l. split; [exact Hl|]. apply Forall_forall. intros i Hi.
    specialize (Hbound i c l Hl Hi). lia. }
  assert (Hf2' : Forall2 (fun c l => postings d !! c = Some l) (map snd top) lists).
  { eapply Forall2_impl; [exact Hf2|]. intros c l [_ H]. exact H. }
  assert (Hprobe : probe_count (Z.of_nat (length content) / Z.of_nat ROW_BYTES) = 12%nat).
  { rewrite <- Nat2Z.inj_div, Hn. reflexivity. }
  rewrite Hprobe in Htop.
  rewrite Hprobe, Hlen in Htoplen. cbn in Htoplen.
  assert (Hids_nd : NoDup (concat lists))
    by (eapply concat_postings_NoDup; eauto).
  assert (Hids_lt : forall i, i ∈ concat lists -> (i < 100)%nat).
  { intros i Hi. apply (elem_of_concat_postings _ _ _ i Hf2') in Hi as (c & l & _ & Hl & Hil).
    specialize (Hbound i c l Hl Hil). lia. }
  pose proof (NoDup_bounded_length _ 100 Hids_nd Hids_lt) as Hids_len.
  set (cands := map (fun i => (row_score np_dot np_norm content query i, i)) (concat lists)) in *.
  assert (Hsnd : map snd cands = concat lists).
  { subst cands. rewrite map_map. cbn. apply map_id. }
  assert (Hperm : map snd (nlargest key_lt 1000 cands) ≡ₚ concat lists).
  { rewrite <- Hsnd. apply fmap_Permutation, nlargest_all.
    subst cands. rewrite length_map. lia. }
  exists (map snd (nlargest key_lt 1000 cands)), (map snd top), top, content.
  split; [unfold retrieve; rewrite Hcands; reflexivity|].
  split; [rewrite Hperm; exact Hids_nd|].
  split; [intros i Hi; rewrite Hperm in Hi; apply Hids_lt, Hi|].
  split; [|split; [rewrite length_map; exact Htoplen|split; [exact Hnd|split]]].
  - (* a cluster that is not probed holds a row that is not returned *)
    destruct (exists_unlisted (map snd top) 20 Hnd) as (c0 & Hc0 & Hnot).
    { rewrite length_map. lia. }
    destruct (Hfull c0 Hc0) as [l0 Hl0].
    destruct l0 as [|x0 l0]; [exfalso; exact (Hnonempty c0 [] Hl0 eq_refl)|].
    assert (Hx0 : x0 ∉ concat lists).
    { intros Hin.
      apply (elem_of_concat_postings _ _ _ x0 Hf2') in Hin as (c & l & Hc & Hl & Hil).
      assert (c = c0) by (eapply (Hdisj x0 c c0 l (x0 :: l0)); eauto; left). subst c.
      contradiction. }
    rewrite Hperm.
    assert (Hall : (length (x0 :: concat lists) <= 100)%nat).
    { apply NoDup_bounded_length; [constructor; assumption|].
      intros i Hi. apply elem_of_cons in Hi as [->|Hi]; [|apply Hids_lt, Hi].
      specialize (Hbound x0 c0 (x0 :: l0) Hl0 ltac:(left)). lia. }
    cbn [length] in Hall. lia.
  - intros i. rewrite Hperm. apply elem_of_concat_postings, Hf2'.
  - split; [exact Htop|]. split; [reflexivity|]. split; [exact Hdb|].
    intros Hnan.
    pose proof (ranked_ids_spec (row_score np_dot np_norm content query)
                  (concat lists) 1000) as Hspec.
    cbv zeta in Hspec. destruct Hspec as (_ & _ & Hord).
    apply Hord. rewrite <- Hperm. exact Hnan.
Qed.

End Oversized.

(** C8, as the claim states it: [retrieve] with [top_k = 1000] returns
    exactly 100 ids on a hundred-row store.  On the store of twenty
    clusters of five rows it probes twelve clusters and returns 60
    ids. *)
Lemma retrieve_oversized_counterexample :
  ~ (forall (np_dot : list spec_float -> list spec_float -> spec_float)
            (np_norm : list spec_float -> spec_float)
            (db : VecDB) (query : Vector),
       _get_num_records db = Return 100 ->
       is_zero (np_norm (values query)) = false ->
       exists out, retrieve np_dot np_norm db query 1000 = Return out /\
                   length out = 100%nat).
Proof.
  intros H.
  destruct (H dot_seq norm_seq store100 query_ones) as (out & Hout & Hlen).
  - vm_compute. reflexivity.
  - vm_compute. reflexivity.
  - assert (Hret : exists out', retrieve dot_seq norm_seq store100 query_ones 1000
                                = Return out' /\ length out' = 60%nat).
    { vm_compute. eexists. split; reflexivity. }
    destruct Hret as (out' & Hout' & Hlen').
    rewrite Hout in Hout'. injection Hout' as <-. lia.
Qed.

Lemma outcome_of_run (x : VecDB * outcome unit) :
  x.2 = Return tt -> x = (x.1, Return tt).
Proof. destruct x as [db o]. cbn. intros ->. reflexivity. Qed.

Lemma retrieve_oversized_top_k_witness :
  _get_num_records loaded100 = Return 100 /\
  _build_index (fitted_on_axes centers20) loaded100 = (store100, Return tt) /\
  length query_ones = DIMENSION /\
  exists (out probed : list nat) (content : list byte),
    retrieve dot_seq norm_seq store100 query_ones 1000 = Return out /\
    (length out < 100)%nat /\ length probed = 12%nat /\
    Forall (fun i => is_nan (row_score dot_seq norm_seq content query_ones i) = false) out /\
    (forall (i j a b : nat), (i < j)%nat ->
       out !! i = Some a -> out !! j = Some b ->
       flt (row_score dot_seq norm_seq content query_ones a)
           (row_score dot_seq norm_seq content query_ones b) = false).
Proof.
  assert (HN : _get_num_records loaded100 = Return 100) by (vm_compute; reflexivity).
  assert (Hrun : _build_index (fitted_on_axes centers20) loaded100 = (store100, Return tt)).
  { apply outcome_of_run. vm_compute. reflexivity. }
  set (P := list_to_map (map (fun c => (c, seq (5 * c) 5)) (seq 0 20)) : gmap nat (list nat)).
  assert (Hd : index_path store100 = Some (IndexDir P (Some centers20)))
    by (vm_compute; reflexivity).
  assert (Hshape : Forall (fun c => length c = DIMENSION) centers20).
  { apply Forall_forall. intros c Hc. unfold centers20 in Hc.
    apply list_elem_of_fmap in Hc as (k & -> & Hk). apply elem_of_seq in Hk.
    unfold axis_vec. rewrite length_app, length_replicate. cbn [length].
    rewrite length_replicate. unfold DIMENSION. lia. }
  assert (Hfull : forall c, (c < 20)%nat -> is_Some (postings (IndexDir P (Some centers20)) !! c)).
  { intros c Hc. cbn [postings].
    do 20 (destruct c as [|c]; [eexists; vm_compute; reflexivity|]). lia. }
  assert (Hq : length query_ones = DIMENSION) by reflexivity.
  destruct (retrieve_oversized_top_k (fitted_on_axes centers20) dot_seq norm_seq
              loaded100 store100 _ centers20 query_ones
              HN Hrun Hd eq_refl eq_refl Hshape Hfull Hq)
    as (out & probed & top & content & Hout & _ & _ & Hlt & Hp & _ & _ & _ & _ & Hdbc & Hord).
  assert (Hchk : match db_file store100, retrieve dot_seq norm_seq store100 query_ones 1000 with
                 | Some c, Return o =>
                     forallb (fun i => negb (is_nan (row_score dot_seq norm_seq c query_ones i))) o
                 | _, _ => false
                 end = true)
    by (vm_compute; reflexivity).
  rewrite Hdbc, Hout in Hchk.
  assert (Hnan : Forall (fun i => is_nan (row_score dot_seq norm_seq content query_ones i)
                                  = false) out).
  { apply Forall_forall. intros i Hi.
    apply negb_true_iff. revert i Hi. intros i Hi.
    apply (proj1 (forallb_forall _ out) Hchk i), list_elem_of_In, Hi. }
  split; [exact HN|]. split; [exact Hrun|]. split; [exact Hq|].
  exists out, probed, content. split; [exact Hout|]. split; [exact Hlt|].
  split; [exact Hp|]. split; [exact Hnan|exact (Hord Hnan)].
Defined.

(** ** Cosine similarity with a zero norm *)




Section ZeroNorm.

Variable np_dot : list spec_float -> list spec_float -> spec_float.
Variable np_norm : list spec_float -> spec_float.


End ZeroNorm.




(** * Further properties of the engine *)

(** ** Grouping ids into runs *)

Lemma elem_of_range_ids (start end_ x : Z) :
  x ∈ range_ids start end_ <-> start <= x <= end_.
Proof.
  unfold range_ids. rewrite list_elem_of_fmap. split.
  - intros (k & -> & Hk). apply elem_of_seq in Hk. lia.
  - intros Hx. exists (Z.to_nat (x - start)). split; [lia|].
    apply elem_of_seq. lia.
Qed.

Lemma group_ranges_concat (ids : list Z) (start prev : Z) :
  start <= prev ->
  concat (map (fun r => range_ids r.1 r.2) (group_ranges start prev ids))
    = range_ids start prev ++ ids.
Proof.
  revert start prev. induction ids as [|id ids IH]; intros start prev Hle.
  - cbn. rewrite app_nil_r. reflexivity.
  - cbn [group_ranges]. destruct (Z.eqb_spec id (prev + 1)) as [->|Hne].
    + rewrite IH by lia. rewrite range_ids_snoc by lia.
      rewrite <- app_assoc. reflexivity.
    + cbn [map concat fst snd]. rewrite IH by lia.
      rewrite range_ids_single. reflexivity.
Qed.

Lemma group_ranges_ordered (ids : list Z) (start prev : Z) :
  start <= prev ->
  Forall (fun r => r.1 <= r.2) (group_ranges start prev ids).
Proof.
  revert start prev. induction ids as [|id ids IH]; intros start prev Hle.
  - repeat constructor. exact Hle.
  - cbn [group_ranges]. destruct (Z.eqb_spec id (prev + 1)) as [->|_].
    + apply IH. lia.
    + constructor; [exact Hle|]. apply IH. lia.
Qed.

Lemma group_ranges_head (ids : list Z) (start prev : Z) :
  exists e rest, group_ranges start prev ids = (start, e) :: rest.
Proof.
  revert prev. induction ids as [|id ids IH]; intros prev.
  - eexists _, _. reflexivity.
  - cbn [group_ranges]. destruct (id =? prev + 1).
    + apply IH.
    + eexists _, _. reflexivity.
Qed.

Lemma group_ranges_maximal (ids : list Z) (start prev : Z) (k : nat) (r1 r2 : Z * Z) :
  group_ranges start prev ids !! k = Some r1 ->
  group_ranges start prev ids !! S k = Some r2 ->
  r2.1 <> r1.2 + 1.
Proof.
  revert start prev k. induction ids as [|id ids IH]; intros start prev k H1 H2.
  - destruct k; discriminate H2.
  - cbn [group_ranges] in H1, H2. destruct (Z.eqb_spec id (prev + 1)) as [->|Hne].
    + eapply IH; eassumption.
    + destruct k as [|k].
      * injection H1 as <-. cbn in H2.
        destruct (group_ranges_head ids id id) as (e & rest & Heq).
        rewrite Heq in H2. injection H2 as <-. cbn. exact Hne.
      * eapply IH; eassumption.
Qed.

(** X1: the grouping of lines 73-83 loses nothing: expanding the runs
    in order gives back the id sequence, every run is a non-empty
    interval, and no two neighbouring runs could have been merged. *)
Theorem group_ranges_round_trip (id0 : Z) (ids : list Z) :
  concat (map (fun r => range_ids r.1 r.2) (group_ranges id0 id0 ids)) = id0 :: ids /\
  Forall (fun r => r.1 <= r.2) (group_ranges id0 id0 ids) /\
  (forall (k : nat) (r1 r2 : Z * Z),
     group_ranges id0 id0 ids !! k = Some r1 ->
     group_ranges id0 id0 ids !! S k = Some r2 ->
     r2.1 <> r1.2 + 1).
Proof.
  split; [|split].
  - rewrite group_ranges_concat by lia. rewrite range_ids_single. reflexivity.
  - apply group_ranges_ordered. lia.
  - intros k r1 r2. apply group_ranges_maximal.
Qed.

(** ** Batched reads against single reads *)

Lemma in_range_fits (content : list byte) (id : Z) :
  0 <= id < Z.of_nat (length content) / Z.of_nat ROW_BYTES <->
  0 <= id /\ (id + 1) * Z.of_nat ROW_BYTES <= Z.of_nat (length content).
Proof.
  rewrite ROW_BYTES_eq. change (Z.of_nat 280) with 280.
  pose proof (Z.div_mod (Z.of_nat (length content)) 280 ltac:(lia)).
  pose proof (Z.mod_pos_bound (Z.of_nat (length content)) 280 ltac:(lia)).
  split; intros [H1 H2]; (split; [lia|]); nia.
Qed.

(** X2: for ids that all lie in [[0, N)], in any order and with
    repetitions, [get_rows] returns one vector per id, in the order of
    the ids, and each is the vector [get_one_row] returns for that id. *)
Theorem get_rows_agrees_with_get_one_row (db : VecDB) (N : Z) (ids : list Z) :
  _get_num_records db = Return N ->
  Forall (fun id => 0 <= id < N) ids ->
  exists vectors,
    get_rows db ids = Return vectors /\
    length vectors = length ids /\
    forall (k : nat) (id : Z) (v : Vector),
      ids !! k = Some id -> vectors !! k = Some v ->
      get_one_row db id = Return (Row v).
Proof.
  intros HN Hids. unfold _get_num_records in HN.
  destruct (db_file db) as [content|] eqn:Hdb; [|discriminate HN].
  injection HN as <-.
  assert (Hfit : Forall (fun id => 0 <= id /\
                   (id + 1) * Z.of_nat ROW_BYTES <= Z.of_nat (length content)) ids).
  { eapply Forall_impl; [exact Hids|]. intros id. apply in_range_fits. }
  exists (map (fun id => row_at content (Z.to_nat id)) ids).
  split; [apply get_rows_in_range; assumption|]. split; [apply length_map|].
  intros k id v Hk Hv.
  rewrite list_lookup_fmap, Hk in Hv. injection Hv as <-.
  rewrite Forall_forall in Hfit.
  destruct (Hfit id (list_elem_of_lookup_2 _ _ _ Hk)) as [H0 H1].
  rewrite <- (Z2Nat.id id) at 1 by exact H0.
  apply get_one_row_in_range; [exact Hdb|]. rewrite ROW_BYTES_eq in *. lia.
Qed.

Lemma get_rows_agrees_with_get_one_row_witness :
  _get_num_records store3 = Return 3 /\
  Forall (fun id => 0 <= id < 3) [2; 0; 0; 1] /\
  exists vectors,
    get_rows store3 [2; 0; 0; 1] = Return vectors /\ length vectors = 4%nat.
Proof.
  assert (H1 : _get_num_records store3 = Return 3) by (vm_compute; reflexivity).
  assert (H2 : Forall (fun id => 0 <= id < 3) [2; 0; 0; 1])
    by (repeat constructor; lia).
  destruct (get_rows_agrees_with_get_one_row store3 3 [2; 0; 0; 1] H1 H2)
    as (vectors & Hv & Hl & _).
  split; [exact H1|]. split; [exact H2|]. exists vectors. split; [exact Hv|exact Hl].
Defined.

(** ** A batch with an id out of range *)

Lemma frombuffer_length_div (bs : list byte) :
  length (frombuffer bs) = (length bs / 4)%nat.
Proof.
  remember (length bs) as n eqn:Hn. revert bs Hn.
  induction n as [n IH] using lt_wf_ind. intros bs Hn.
  destruct bs as [|a [|b [|c [|d bs]]]]; cbn [length] in Hn; subst n;
    try reflexivity.
  cbn [frombuffer length].
  rewrite (IH (length bs)) by (lia || reflexivity).
  replace (S (S (S (S (length bs))))) with (1 * 4 + length bs)%nat by lia.
  rewrite Nat.div_add_l by lia. reflexivity.
Qed.

Lemma reshape_rows_length {A} (cols : nat) (l : list A) :
  length (reshape_rows cols l) = (length l / cols)%nat.
Proof. unfold reshape_rows. rewrite length_map, length_seq. reflexivity. Qed.

Lemma read_block_short (content : list byte) (start end_ : Z) :
  start <= end_ ->
  start < 0 \/ Z.of_nat (length content) < (end_ + 1) * Z.of_nat ROW_BYTES ->
  exists e, read_block content (start, end_) = Raise e.
Proof.
  intros Hle Hbad. unfold read_block.
  rewrite ROW_BYTES_eq in Hbad. change (Z.of_nat 280) with 280 in Hbad.
  change (Z.of_nat DIMENSION) with 70. change (Z.of_nat ELEMENT_SIZE) with 4.
  destruct (Z.ltb_spec (start * 70 * 4) 0) as [?|Hpos]; [eexists; reflexivity|].
  destruct Hbad as [?|Hshort]; [lia|].
  set (block := take _ (drop _ content)).
  assert (Hblock : (length block < Z.to_nat (end_ - start + 1) * 280)%nat).
  { subst block. rewrite length_take, length_drop. lia. }
  destruct (negb (length block mod ELEMENT_SIZE =? 0)%nat); [eexists; reflexivity|].
  destruct (negb (length (frombuffer block) mod DIMENSION =? 0)%nat);
    [eexists; reflexivity|].
  rewrite reshape_rows_length, frombuffer_length_div.
  change DIMENSION with 70%nat.
  rewrite Nat.Div0.div_div. change (4 * 70)%nat with 280%nat.
  assert (length block / 280 < Z.to_nat (end_ - start + 1))%nat
    by (apply Nat.Div0.div_lt_upper_bound; lia).
  destruct (Z.ltb_spec (Z.of_nat (length block / 280)) (end_ - start + 1)) as [_|?];
    [eexists; reflexivity|lia].
Qed.

Lemma read_blocks_short (content : list byte) (ranges : list (Z * Z)) :
  Exists (fun r => exists e, read_block content r = Raise e) ranges ->
  exists e, read_blocks content ranges = Raise e.
Proof.
  induction 1 as [r ranges [e He]|r ranges _ [e He]]; cbn [read_blocks].
  - rewrite He. exists e. reflexivity.
  - destruct (read_block content r) as [block|e0]; cbn [bindO];
      [rewrite He|]; eexists; reflexivity.
Qed.

Lemma get_rows_body_bad_id (db : VecDB) (N : Z) (ids : list Z) :
  _get_num_records db = Return N ->
  Exists (fun id => ~ (0 <= id < N)) ids ->
  exists e, get_rows_body db ids = Raise e.
Proof.
  intros HN Hbad. unfold _get_num_records in HN.
  destruct (db_file db) as [content|] eqn:Hdb; [|discriminate HN].
  injection HN as <-.
  unfold get_rows_body. rewrite Hdb.
  destruct ids as [|id0 ids]; [eexists; reflexivity|].
  apply read_blocks_short.
  apply Exists_exists in Hbad as (x & Hx & Hxbad).
  assert (Hx' : x ∈ concat (map (fun r => range_ids r.1 r.2) (group_ranges id0 id0 ids)))
    by (rewrite group_ranges_concat by lia; rewrite range_ids_single; exact Hx).
  apply elem_of_concat_lists in Hx' as (l & Hxl & Hl).
  apply list_elem_of_fmap in Hl as (r & -> & Hr).
  pose proof (group_ranges_ordered ids id0 id0 ltac:(lia)) as Hord.
  rewrite Forall_forall in Hord. specialize (Hord r Hr).
  apply Exists_exists. exists r. split; [exact Hr|].
  destruct r as [s e]. cbn [fst snd] in *.
  apply elem_of_range_ids in Hxl.
  apply read_block_short; [exact Hord|].
  rewrite in_range_fits in Hxbad.
  rewrite ROW_BYTES_eq in *. change (Z.of_nat 280) with 280 in *.
  destruct (decide (s < 0)); [left; assumption|right]. nia.
Qed.

(** X3: one id outside [[0, N)] voids the whole batch: the read of the
    run that holds it fails, and [get_rows] returns the empty array,
    also for the ids that are in range. *)
Theorem get_rows_voided_by_one_bad_id (db : VecDB) (N : Z) (ids : list Z) :
  _get_num_records db = Return N ->
  Exists (fun id => ~ (0 <= id < N)) ids ->
  (exists e, get_rows_body db ids = Raise e) /\
  get_rows db ids = Return [].
Proof.
  intros HN Hbad.
  destruct (get_rows_body_bad_id db N ids HN Hbad) as [e He].
  split; [exists e; exact He|].
  unfold get_rows. rewrite He. reflexivity.
Qed.

Lemma get_rows_voided_by_one_bad_id_witness :
  _get_num_records store3 = Return 3 /\
  Exists (fun id => ~ (0 <= id < 3)) [0; 1; 3] /\
  get_rows store3 [0; 1; 3] = Return [].
Proof.
  assert (H1 : _get_num_records store3 = Return 3) by (vm_compute; reflexivity).
  assert (H2 : Exists (fun id => ~ (0 <= id < 3)) [0; 1; 3]).
  { apply Exists_cons_tl, Exists_cons_tl, Exists_cons_hd. lia. }
  split; [exact H1|]. split; [exact H2|].
  exact (proj2 (get_rows_voided_by_one_bad_id store3 3 [0; 1; 3] H1 H2)).
Defined.

(** ** The full scan *)

(** X4: on a store of [N >= 1] rows [get_all_rows] returns exactly [N]
    vectors, and the one at position [i] is the vector [get_one_row]
    returns for id [i]. *)
Theorem get_all_rows_lists_every_row (db : VecDB) (N : Z) :
  _get_num_records db = Return N ->
  0 < N ->
  exists data,
    get_all_rows db = Return data /\
    Z.of_nat (length data) = N /\
    forall (i : nat) (v : Vector),
      data !! i = Some v -> get_one_row db (Z.of_nat i) = Return (Row v).
Proof.
  intros HN Hpos.
  destruct (num_records_nat db N HN) as (content & Hdb & -> & Hn).
  set (n := (length content / ROW_BYTES)%nat) in *.
  exists (map (row_at content) (seq 0 n)).
  split; [|split].
  - unfold get_all_rows. rewrite HN. cbn [bindO]. unfold memmap_r. rewrite Hdb.
    rewrite Nat2Z.id. change (0 <? 0) with false. cbn match.
    destruct (Z.ltb_spec (Z.of_nat (length content)) (0 + Z.of_nat (n * ROW_BYTES)));
      [lia|].
    destruct (Z.eqb_spec (Z.of_nat (n * ROW_BYTES)) 0) as [Hz|_];
      [rewrite ROW_BYTES_eq in Hz; lia|]. cbn [andb].
    change (Z.to_nat 0) with 0%nat.
    replace 0%nat with (0 * ROW_BYTES)%nat at 1 by reflexivity.
    rewrite block_rows by (simpl; exact Hn). reflexivity.
  - rewrite length_map, length_seq. reflexivity.
  - intros i v Hi. rewrite list_lookup_fmap in Hi.
    destruct (seq 0 n !! i) as [k|] eqn:Hk; [|discriminate Hi].
    apply lookup_seq in Hk as [-> Hlt]. injection Hi as <-.
    apply get_one_row_in_range; [exact Hdb|].
    cbn. transitivity (n * ROW_BYTES)%nat; [|exact Hn].
    apply Nat.mul_le_mono_r. lia.
Qed.

Lemma get_all_rows_lists_every_row_witness :
  _get_num_records store3 = Return 3 /\ 0 < 3 /\
  exists data, get_all_rows store3 = Return data /\ Z.of_nat (length data) = 3.
Proof.
  assert (H1 : _get_num_records store3 = Return 3) by (vm_compute; reflexivity).
  destruct (get_all_rows_lists_every_row store3 3 H1 ltac:(lia)) as (data & Hd & Hl & _).
  split; [exact H1|]. split; [lia|]. exists data. split; [exact Hd|exact Hl].
Defined.

(** ** What [insert_records] leaves in the file *)

Lemma get_all_rows_content (db : VecDB) (content : list byte) :
  db_file db = Some content ->
  (0 < length content / ROW_BYTES)%nat ->
  get_all_rows db = Return (map (row_at content) (seq 0 (length content / ROW_BYTES))).
Proof.
  intros Hdb Hpos. set (n := (length content / ROW_BYTES)%nat) in *.
  assert (Hn : (n * ROW_BYTES <= length content)%nat).
  { subst n. rewrite ROW_BYTES_eq.
    pose proof (Nat.div_mod (length content) 280 ltac:(lia)). lia. }
  unfold get_all_rows, _get_num_records, memmap_r. rewrite Hdb. cbn [bindO].
  rewrite <- Nat2Z.inj_div, Nat2Z.id. fold n.
  change (0 <? 0) with false. cbn match.
  destruct (Z.ltb_spec (Z.of_nat (length content)) (0 + Z.of_nat (n * ROW_BYTES)));
    [lia|].
  destruct (Z.eqb_spec (Z.of_nat (n * ROW_BYTES)) 0) as [Hz|_];
    [rewrite ROW_BYTES_eq in Hz; lia|]. cbn [andb].
  change (Z.to_nat 0) with 0%nat.
  replace 0%nat with (0 * ROW_BYTES)%nat at 1 by reflexivity.
  rewrite block_rows by (simpl; exact Hn). reflexivity.
Qed.

Lemma row_at_app_l (A B : list byte) (i : nat) :
  ((i + 1) * ROW_BYTES <= length A)%nat -> row_at (A ++ B) i = row_at A i.
Proof.
  intros Hfit. unfold row_at. f_equal.
  rewrite drop_app_le by lia.
  rewrite take_app_le by (rewrite length_drop; lia). reflexivity.
Qed.

Lemma row_at_take (content : list byte) (n i : nat) :
  (i < n)%nat -> (n * ROW_BYTES <= length content)%nat ->
  row_at (take (n * ROW_BYTES) content) i = row_at content i.
Proof.
  intros Hi Hn. unfold row_at. f_equal.
  assert (((i + 1) * ROW_BYTES <= n * ROW_BYTES)%nat) by (apply Nat.mul_le_mono_r; lia).
  rewrite !take_drop_commute, take_take, Nat.min_l by lia. reflexivity.
Qed.

Lemma row_at_appended (A : list byte) (rows : list Vector) (n j : nat) (v : Vector) :
  length A = (n * ROW_BYTES)%nat ->
  Forall (fun r => length r = DIMENSION) rows ->
  rows !! j = Some v ->
  row_at (A ++ rows_tobytes rows) (n + j) = v.
Proof.
  intros HA Hrows Hj. unfold row_at.
  replace ((n + j) * ROW_BYTES)%nat with (length A + j * ROW_BYTES)%nat by lia.
  rewrite drop_app_add. rewrite <- (app_nil_r (rows_tobytes rows)).
  rewrite (rows_tobytes_row rows j v [] Hrows Hj).
  apply frombuffer_tobytes_exact.
Qed.

Lemma rows_decoded (A : list byte) (rows : list Vector) (n : nat) :
  length A = (n * ROW_BYTES)%nat ->
  Forall (fun r => length r = DIMENSION) rows ->
  map (row_at (A ++ rows_tobytes rows)) (seq n (length rows)) = rows.
Proof.
  intros HA Hrows. apply list_eq. intros j.
  rewrite list_lookup_fmap.
  destruct (rows !! j) as [v|] eqn:Hj.
  - pose proof (lookup_lt_Some _ _ _ Hj) as Hlt.
    rewrite lookup_seq_lt by exact Hlt. cbn.
    f_equal. apply (row_at_appended A rows n j v HA Hrows Hj).
  - apply lookup_ge_None in Hj. rewrite lookup_seq_ge by exact Hj. reflexivity.
Qed.

Section Insertion.

Variable MiniBatchKMeans_fit : Z -> list Vector -> outcome KMeans.

(** A non-empty batch of well-shaped rows: the insertion is the index
    build over the file that holds the old rows followed by the batch. *)
Lemma insert_records_as_build (rows : list Vector) (db : VecDB) (content : list byte) :
  db_file db = Some content ->
  Forall (fun r => length r = DIMENSION) rows ->
  rows <> [] ->
  insert_records MiniBatchKMeans_fit rows db =
    _build_index MiniBatchKMeans_fit
      (set_db_file (Some (take (length content / ROW_BYTES * ROW_BYTES) content
                          ++ rows_tobytes rows)) db).
Proof.
  intros Hdb Hrows Hne.
  pose proof (rows_tobytes_length rows Hrows) as Hlen.
  set (n := (length content / ROW_BYTES)%nat).
  assert (Hn : (n * ROW_BYTES <= length content < (n + 1) * ROW_BYTES)%nat).
  { subst n. rewrite ROW_BYTES_eq.
    pose proof (Nat.div_mod (length content) 280 ltac:(lia)).
    pose proof (Nat.mod_upper_bound (length content) 280 ltac:(lia)). lia. }
  assert (Hk : (0 < length rows)%nat) by (destruct rows; [done|cbn; lia]).
  assert (Hnum : _get_num_records db = Return (Z.of_nat n)).
  { unfold _get_num_records. rewrite Hdb. subst n. rewrite Nat2Z.inj_div. reflexivity. }
  assert (Hbc : broadcast_rows rows = Return rows).
  { unfold broadcast_rows.
    replace (forallb _ rows) with true; [reflexivity|].
    symmetry. apply forallb_forall. intros r Hr.
    rewrite Forall_forall in Hrows. apply Nat.eqb_eq, Hrows, list_elem_of_In, Hr. }
  unfold insert_records, bindM at 1, reading. rewrite Hnum, Nat2Z.id.
  unfold bindM at 1, memmap_rw. rewrite Hdb.
  set (content' := content ++ replicate _ x00).
  assert (Hc' : length content' = ((n + length rows) * ROW_BYTES)%nat).
  { subst content'. rewrite length_app, length_replicate.
    rewrite ROW_BYTES_eq in *. lia. }
  destruct (Nat.eqb_spec ((n + length rows) * ROW_BYTES) 0) as [Hz|_];
    [rewrite ROW_BYTES_eq in Hz; lia|]. cbn [andb].
  unfold bindM at 1, assign_rows. rewrite Hbc. cbn [db_file set_db_file].
  unfold pwrite. rewrite drop_ge by (rewrite Hc', Hlen; lia). rewrite app_nil_r.
  subst content'. rewrite take_app_le by lia. reflexivity.
Qed.

(** X5: after a non-empty batch is inserted, the full scan returns the
    vectors it returned before, followed by the batch in its order (on
    a store that was empty, the batch alone). *)
Theorem insert_records_then_get_all_rows (db : VecDB) (N : Z) (rows : list Vector) :
  _get_num_records db = Return N ->
  Forall (fun r => length r = DIMENSION) rows ->
  rows <> [] ->
  exists data,
    get_all_rows (insert_records MiniBatchKMeans_fit rows db).1 = Return data /\
    drop (Z.to_nat N) data = rows /\
    length data = (Z.to_nat N + length rows)%nat /\
    (forall old, get_all_rows db = Return old -> data = old ++ rows).
Proof.
  intros HN Hrows Hne.
  destruct (num_records_nat db N HN) as (content & Hdb & -> & Hn).
  pose proof (rows_tobytes_length rows Hrows) as Hlen.
  set (n := (length content / ROW_BYTES)%nat) in *.
  assert (Hk : (0 < length rows)%nat) by (destruct rows; [done|cbn; lia]).
  set (new := take (n * ROW_BYTES) content ++ rows_tobytes rows).
  assert (Hnew : db_file (insert_records MiniBatchKMeans_fit rows db).1 = Some new).
  { rewrite (insert_records_as_build rows db content Hdb Hrows Hne).
    rewrite _build_index_db_file. reflexivity. }
  assert (HA : length (take (n * ROW_BYTES) content) = (n * ROW_BYTES)%nat)
    by (rewrite length_take; lia).
  assert (Hcount : (length new / ROW_BYTES)%nat = (n + length rows)%nat).
  { subst new. rewrite length_app, HA, Hlen, <- Nat.mul_add_distr_r.
    apply Nat.div_mul. rewrite ROW_BYTES_eq. lia. }
  exists (map (row_at content) (seq 0 n) ++ rows).
  rewrite Nat2Z.id. split; [|split; [|split]].
  - rewrite (get_all_rows_content _ new Hnew) by lia.
    rewrite Hcount, seq_app, map_app. f_equal. f_equal.
    + apply map_ext_in. intros i Hi. apply in_seq in Hi. subst new.
      rewrite row_at_app_l by (rewrite HA; apply Nat.mul_le_mono_r; lia).
      apply row_at_take; lia.
    + subst new. apply rows_decoded; assumption.
  - rewrite drop_app_length'; [reflexivity|].
    rewrite length_map, length_seq. reflexivity.
  - rewrite length_app, length_map, length_seq. reflexivity.
  - intros old Hold. destruct (get_all_rows_returns db old Hold) as (content' & Hdb' & ->).
    rewrite Hdb in Hdb'. injection Hdb' as <-. reflexivity.
Qed.

(** X6: a non-empty batch whose insertion returns is indexed: the
    posting lists of the rebuilt index partition the ids below the new
    record count. *)
Theorem insert_records_indexes_the_batch
        (db db' : VecDB) (N : Z) (rows : list Vector) :
  insert_records MiniBatchKMeans_fit rows db = (db', Return tt) ->
  _get_num_records db = Return N ->
  Forall (fun r => length r = DIMENSION) rows ->
  rows <> [] ->
  exists d, index_path db' = Some d /\
    (forall i : nat, Z.of_nat i < N + Z.of_nat (length rows) ->
       exists c l, postings d !! c = Some l /\ i ∈ l) /\
    (forall (i c : nat) (l : list nat),
       postings d !! c = Some l -> i ∈ l -> Z.of_nat i < N + Z.of_nat (length rows)) /\
    (forall (i c1 c2 : nat) (l1 l2 : list nat),
       postings d !! c1 = Some l1 -> postings d !! c2 = Some l2 ->
       i ∈ l1 -> i ∈ l2 -> c1 = c2).
Proof.
  intros Hrun HN Hrows Hne.
  destruct (num_records_nat db N HN) as (content & Hdb & -> & Hn).
  pose proof (rows_tobytes_length rows Hrows) as Hlen.
  rewrite (insert_records_as_build rows db content Hdb Hrows Hne) in Hrun.
  set (n := (length content / ROW_BYTES)%nat) in *.
  set (db1 := set_db_file _ db) in Hrun.
  assert (HN1 : _get_num_records db1 = Return (Z.of_nat n + Z.of_nat (length rows))).
  { unfold _get_num_records, db1. cbn [db_file set_db_file]. f_equal.
    rewrite length_app, length_take, Hlen, Nat.min_l by lia.
    rewrite <- Nat.mul_add_distr_r, Nat2Z.inj_mul, Z.div_mul
      by (rewrite ROW_BYTES_eq; lia). lia. }
  destruct (posting_files_of_build MiniBatchKMeans_fit db1 db' _ Hrun HN1)
    as (d & Hd & Hcover & Hbound & Hdisj & _).
  exists d. repeat split; assumption.
Qed.

(** X7: when clustering rejects the data, the insertion of a non-empty
    batch raises what clustering raised, after the batch has been
    stored: the record count has grown, the new rows read back, and the
    index directory is the one found, which does not list them. *)
Theorem insert_records_clustering_failure
        (db : VecDB) (N : Z) (rows : list Vector) (e : exn) :
  _get_num_records db = Return N ->
  Forall (fun r => length r = DIMENSION) rows ->
  rows <> [] ->
  (forall c data, MiniBatchKMeans_fit c data = Raise e) ->
  (insert_records MiniBatchKMeans_fit rows db).2 = Raise e /\
  _get_num_records (insert_records MiniBatchKMeans_fit rows db).1
    = Return (N + Z.of_nat (length rows)) /\
  index_path (insert_records MiniBatchKMeans_fit rows db).1 = index_path db /\
  no_centroids (insert_records MiniBatchKMeans_fit rows db).1
    = centroid_count (N + Z.of_nat (length rows)) /\
  (forall (j : nat) (v : Vector), rows !! j = Some v ->
     get_one_row (insert_records MiniBatchKMeans_fit rows db).1 (N + Z.of_nat j)
       = Return (Row v)).
Proof.
  intros HN Hrows Hne Hfit.
  destruct (num_records_nat db N HN) as (content & Hdb & -> & Hn).
  pose proof (rows_tobytes_length rows Hrows) as Hlen.
  assert (Hk : (0 < length rows)%nat) by (destruct rows; [done|cbn; lia]).
  rewrite (insert_records_as_build rows db content Hdb Hrows Hne).
  set (n := (length content / ROW_BYTES)%nat) in *.
  set (new := take (n * ROW_BYTES) content ++ rows_tobytes rows).
  set (db1 := set_db_file (Some new) db).
  assert (HA : length (take (n * ROW_BYTES) content) = (n * ROW_BYTES)%nat)
    by (rewrite length_take; lia).
  assert (Hcount : (length new / ROW_BYTES)%nat = (n + length rows)%nat).
  { subst new. rewrite length_app, HA, Hlen, <- Nat.mul_add_distr_r.
    apply Nat.div_mul. rewrite ROW_BYTES_eq. lia. }
  assert (HN1 : _get_num_records db1 = Return (Z.of_nat n + Z.of_nat (length rows))).
  { unfold _get_num_records, db1. cbn [db_file set_db_file].
    rewrite <- Nat2Z.inj_div, Hcount. f_equal. lia. }
  assert (Hrun : _build_index MiniBatchKMeans_fit db1
                 = (set_no_centroids (centroid_count (Z.of_nat n + Z.of_nat (length rows))) db1,
                    Raise e)).
  { unfold _build_index. unfold bindM at 1, reading. rewrite HN1.
    unfold bindM at 1, modify. unfold bindM at 1.
    rewrite get_all_rows_set_no_centroids.
    rewrite (get_all_rows_content db1 new eq_refl) by lia.
    unfold bindM at 1. rewrite Hfit. reflexivity. }
  rewrite Hrun. cbn [fst snd].
  split; [reflexivity|]. split; [exact HN1|]. split; [reflexivity|].
  split; [reflexivity|].
  intros j v Hj. pose proof (lookup_lt_Some _ _ _ Hj) as Hjlt.
  replace (Z.of_nat n + Z.of_nat j) with (Z.of_nat (n + j)) by lia.
  rewrite (get_one_row_in_range _ new (n + j)); [|reflexivity|].
  - do 2 f_equal. apply (row_at_appended _ rows n j v HA Hrows Hj).
  - subst new. rewrite length_app, HA, Hlen. rewrite ROW_BYTES_eq. lia.
Qed.

End Insertion.

Lemma insert_records_then_get_all_rows_witness :
  _get_num_records store3 = Return 3 /\
  Forall (fun r => length r = DIMENSION) rows3 /\ rows3 <> [] /\
  exists data,
    get_all_rows (insert_records (fitted_to centers3) rows3 store3).1 = Return data /\
    drop (Z.to_nat 3) data = rows3.
Proof.
  assert (H1 : _get_num_records store3 = Return 3) by (vm_compute; reflexivity).
  assert (H2 : Forall (fun r => length r = DIMENSION) rows3) by (repeat constructor).
  assert (H3 : rows3 <> []) by discriminate.
  destruct (insert_records_then_get_all_rows (fitted_to centers3) store3 3 rows3 H1 H2 H3)
    as (data & Hd & Hdrop & _).
  split; [exact H1|]. split; [exact H2|]. split; [exact H3|].
  exists data. split; [exact Hd|exact Hdrop].
Defined.

Lemma insert_records_indexes_the_batch_witness :
  insert_records (fitted_to centers3) rows3 empty_store = (store3, Return tt) /\
  _get_num_records empty_store = Return 0 /\
  exists d, index_path store3 = Some d /\
    (forall i : nat, Z.of_nat i < 0 + Z.of_nat (length rows3) ->
       exists c l, postings d !! c = Some l /\ i ∈ l).
Proof.
  assert (H0 : insert_records (fitted_to centers3) rows3 empty_store = (store3, Return tt)).
  { apply outcome_of_run. vm_compute. reflexivity. }
  assert (H1 : _get_num_records empty_store = Return 0) by reflexivity.
  assert (H2 : Forall (fun r => length r = DIMENSION) rows3) by (repeat constructor).
  assert (H3 : rows3 <> []) by discriminate.
  destruct (insert_records_indexes_the_batch (fitted_to centers3) empty_store store3 0
              rows3 H0 H1 H2 H3) as (d & Hd & Hcover & _).
  split; [exact H0|]. split; [exact H1|]. exists d. split; [exact Hd|exact Hcover].
Defined.

Lemma insert_records_clustering_failure_witness :
  _get_num_records store3 = Return 3 /\
  (forall c data, rejecting c data = Raise (ValueError "n_samples should be >= n_clusters")) /\
  _get_num_records (insert_records rejecting rows3 store3).1 = Return (3 + Z.of_nat (length rows3)) /\
  index_path (insert_records rejecting rows3 store3).1 = index_path store3.
Proof.
  assert (H1 : _get_num_records store3 = Return 3) by (vm_compute; reflexivity).
  assert (H2 : Forall (fun r => length r = DIMENSION) rows3) by (repeat constructor).
  assert (H3 : rows3 <> []) by discriminate.
  assert (H4 : forall c data, rejecting c data
                 = Raise (ValueError "n_samples should be >= n_clusters"))
    by reflexivity.
  destruct (insert_records_clustering_failure rejecting store3 3 rows3 _ H1 H2 H3 H4)
    as (_ & Hc & Hi & _).
  split; [exact H1|]. split; [exact H4|]. split; [exact Hc|exact Hi].
Defined.

(** ** A batch of the wrong width *)

Lemma frombuffer_zeros (m : nat) :
  frombuffer (replicate (4 * m) x00) = replicate m f32_zero.
Proof.
  induction m as [|m IH]; [reflexivity|].
  replace (4 * S m)%nat with (S (S (S (S (4 * m))))) by lia.
  cbn [replicate frombuffer]. rewrite IH. reflexivity.
Qed.

Section WrongWidth.

Variable MiniBatchKMeans_fit : Z -> list Vector -> outcome KMeans.

(** X8: a non-empty batch whose rows have a width other than
    [DIMENSION] (and other than 1, which numpy broadcasts) makes
    [insert_records] raise [ValueError], but only after the file has
    been extended for the batch: the record count has grown by the
    length of the batch, the old rows are unchanged, the index is not
    rebuilt, and on a file that held whole rows only the added rows
    read as zero vectors. *)
Theorem insert_records_wrong_width
        (db : VecDB) (N : Z) (rows : list Vector) (m : nat) :
  _get_num_records db = Return N ->
  rows <> [] ->
  Forall (fun r => length r = m) rows ->
  m <> DIMENSION -> m <> 1%nat ->
  (exists msg, (insert_records MiniBatchKMeans_fit rows db).2 = Raise (ValueError msg)) /\
  _get_num_records (insert_records MiniBatchKMeans_fit rows db).1
    = Return (N + Z.of_nat (length rows)) /\
  index_path (insert_records MiniBatchKMeans_fit rows db).1 = index_path db /\
  (forall i : Z, 0 <= i < N ->
     get_one_row (insert_records MiniBatchKMeans_fit rows db).1 i = get_one_row db i) /\
  (forall content, db_file db = Some content ->
     (length content mod ROW_BYTES = 0)%nat ->
     forall j : nat, (j < length rows)%nat ->
       get_one_row (insert_records MiniBatchKMeans_fit rows db).1 (N + Z.of_nat j)
         = Return (Row (replicate DIMENSION f32_zero))).
Proof.
  intros HN Hne Hrows Hm Hm1.
  destruct (num_records_nat db N HN) as (content & Hdb & -> & Hn).
  set (n := (length content / ROW_BYTES)%nat) in *.
  assert (Hn' : (length content < (n + 1) * ROW_BYTES)%nat).
  { subst n. rewrite ROW_BYTES_eq.
    pose proof (Nat.div_mod (length content) 280 ltac:(lia)).
    pose proof (Nat.mod_upper_bound (length content) 280 ltac:(lia)). lia. }
  assert (Hk : (0 < length rows)%nat) by (destruct rows; [done|cbn; lia]).
  assert (Hbc : exists msg, broadcast_rows rows = Raise (ValueError msg)).
  { unfold broadcast_rows. destruct rows as [|r rows']; [done|].
    apply Forall_cons in Hrows as [Hr _]. cbn [forallb]. rewrite Hr.
    destruct (Nat.eqb_spec m DIMENSION) as [?|_]; [contradiction|].
    destruct (Nat.eqb_spec m 1) as [?|_]; [contradiction|].
    cbn [andb]. eexists. reflexivity. }
  destruct Hbc as [msg Hbc].
  set (padded := content ++ replicate ((n + length rows) * ROW_BYTES - length content) x00).
  assert (Hrun : insert_records MiniBatchKMeans_fit rows db
                 = (set_db_file (Some padded) db, Raise (ValueError msg))).
  { unfold insert_records, bindM at 1, reading. rewrite HN, Nat2Z.id. fold n.
    unfold bindM at 1, memmap_rw. rewrite Hdb. fold padded.
    destruct (Nat.eqb_spec ((n + length rows) * ROW_BYTES) 0) as [Hz|_];
      [rewrite ROW_BYTES_eq in Hz; lia|]. cbn [andb].
    unfold bindM at 1, assign_rows. rewrite Hbc. reflexivity. }
  assert (Hpad : length padded = ((n + length rows) * ROW_BYTES)%nat).
  { subst padded. rewrite length_app, length_replicate.
    rewrite ROW_BYTES_eq in *. lia. }
  rewrite Hrun. cbn [fst snd].
  split; [exists msg; reflexivity|]. split; [|split; [reflexivity|split]].
  - unfold _get_num_records. cbn [db_file set_db_file]. rewrite Hpad. f_equal.
    rewrite Nat2Z.inj_mul, Z.div_mul by (rewrite ROW_BYTES_eq; lia). lia.
  - intros i Hi.
    assert (Hfit : ((Z.to_nat i + 1) * ROW_BYTES <= n * ROW_BYTES)%nat)
      by (apply Nat.mul_le_mono_r; lia).
    rewrite <- (Z2Nat.id i) by lia.
    rewrite (get_one_row_in_range _ padded (Z.to_nat i)); [|reflexivity|lia].
    rewrite (get_one_row_in_range _ content (Z.to_nat i)); [|exact Hdb|lia].
    do 2 f_equal. subst padded.
    rewrite drop_app_le by lia.
    rewrite take_app_le by (rewrite length_drop; lia). reflexivity.
  - intros content0 Hdb0 Hwhole j Hj.
    rewrite Hdb in Hdb0. injection Hdb0 as <-.
    assert (Hexact : length content = (n * ROW_BYTES)%nat).
    { subst n. rewrite ROW_BYTES_eq in *.
      pose proof (Nat.div_mod (length content) 280 ltac:(lia)). lia. }
    replace (Z.of_nat n + Z.of_nat j) with (Z.of_nat (n + j)) by lia.
    rewrite (get_one_row_in_range _ padded (n + j)); [|reflexivity|].
    + do 2 f_equal. subst padded.
      replace ((n + j) * ROW_BYTES)%nat with (length content + j * ROW_BYTES)%nat by lia.
      rewrite drop_app_add, drop_replicate, take_replicate.
      rewrite Nat.min_l by (rewrite ROW_BYTES_eq in *; lia).
      apply (frombuffer_zeros DIMENSION).
    + rewrite Hpad. apply Nat.mul_le_mono_r. lia.
Qed.

End WrongWidth.

Lemma insert_records_wrong_width_witness :
  _get_num_records store3 = Return 3 /\
  Forall (fun r => length r = 2%nat) [[f32_zero; f32_zero]] /\
  _get_num_records (insert_records rejecting [[f32_zero; f32_zero]] store3).1
    = Return (3 + Z.of_nat 1) /\
  index_path (insert_records rejecting [[f32_zero; f32_zero]] store3).1 = index_path store3.
Proof.
  assert (H1 : _get_num_records store3 = Return 3) by (vm_compute; reflexivity).
  assert (H2 : Forall (fun r => length r = 2%nat) [[f32_zero; f32_zero]])
    by (repeat constructor).
  destruct (insert_records_wrong_width rejecting store3 3 [[f32_zero; f32_zero]] 2
              H1 ltac:(discriminate) H2 ltac:(discriminate) ltac:(discriminate))
    as (_ & Hc & Hi & _).
  split; [exact H1|]. split; [exact H2|]. split; [exact Hc|exact Hi].
Defined.

(** ** What a build leaves behind *)

Lemma where_from_ascending (i0 label : nat) (labels : list nat) :
  StronglySorted Nat.lt (where_from i0 label labels).
Proof.
  revert i0. induction labels as [|c labels IH]; intros i0; cbn [where_from];
    [constructor|].
  destruct (c =? label)%nat; [|apply IH].
  constructor; [apply IH|].
  apply Forall_forall. intros i Hi. apply where_from_spec in Hi. lia.
Qed.

Lemma write_file_records_no_centroids (label index : nat) (c : Z) (db : VecDB) :
  no_centroids db = c -> no_centroids (write_file_records label index db).1 = c.
Proof.
  intros Hc. unfold write_file_records.
  destruct (negb (disk_accepts db)); [exact Hc|].
  destruct (index_path db); exact Hc.
Qed.

Section BuildResult.

Variable MiniBatchKMeans_fit : Z -> list Vector -> outcome KMeans.

Lemma _build_index_no_centroids (db : VecDB) (N : Z) :
  _get_num_records db = Return N ->
  no_centroids (_build_index MiniBatchKMeans_fit db).1 = centroid_count N.
Proof.
  intros HN. unfold _build_index. unfold bindM at 1, reading. rewrite HN.
  unfold bindM at 1, modify. unfold bindM at 1.
  destruct (get_all_rows _) as [training|e]; [|reflexivity].
  unfold bindM at 1.
  destruct (MiniBatchKMeans_fit _ _) as [kmeans|e]; [|reflexivity].
  unfold bindM at 1.
  destruct (get_all_rows _) as [data|e]; [|reflexivity].
  unfold bindM at 1, recreate_index_dir, modify.
  set (db1 := set_index_path _ _). set (loop := for_each _ _).
  assert (Hloop : no_centroids (loop db1).1 = centroid_count N).
  { subst loop. apply (for_each_invariant (fun d => no_centroids d = centroid_count N));
      [|reflexivity].
    intros label db0 H0.
    apply (for_each_invariant (fun d => no_centroids d = centroid_count N)); [|exact H0].
    intros index db2 H2. apply write_file_records_no_centroids, H2. }
  unfold bindM. destruct (loop db1) as [db2 [[]|e]]; cbn [fst] in *; [|exact Hloop].
  unfold write_file_centroids.
  destruct (negb (disk_accepts db2)); [exact Hloop|].
  destruct (index_path db2); exact Hloop.
Qed.

(** X9: after a build that returns, [self.no_centroids] is the tier
    value for the record count, the centroid file reads back the
    cluster centres of the fitted model, and the posting file of a
    label holds, in strictly ascending order, exactly the ids of the
    rows that model labels with it; a label given to no row has no
    file. *)
Theorem build_writes_labels_and_centres (db db' : VecDB) (N : Z) :
  _build_index MiniBatchKMeans_fit db = (db', Return tt) ->
  _get_num_records db = Return N ->
  no_centroids db' = centroid_count N /\
  exists data kmeans,
    get_all_rows db = Return data /\
    MiniBatchKMeans_fit (centroid_count N) data = Return kmeans /\
    read_file_centroids_with_memap db' = Return (cluster_centers_ kmeans) /\
    (forall (c : nat) (l : list nat),
       read_file_records_mmap db' c = Return l ->
       StronglySorted Nat.lt l /\ l <> [] /\
       forall i, i ∈ l <-> predict_row kmeans <$> data !! i = Some c) /\
    (forall c : nat,
       (forall e, read_file_records_mmap db' c <> Raise e) ->
       exists i v, data !! i = Some v /\ predict_row kmeans v = c).
Proof.
  intros Hrun HN. split.
  { pose proof (_build_index_no_centroids db N HN) as H. rewrite Hrun in H. exact H. }
  destruct (_build_index_returns MiniBatchKMeans_fit db db' Hrun)
    as (content & kmeans & d & Hdb & Hfit & Hd & Hcent & Hlook).
  cbn zeta in Hfit, Hlook.
  destruct (num_records_nat db N HN) as (content' & Hdb' & -> & _).
  rewrite Hdb in Hdb'. injection Hdb' as <-.
  set (data := map (row_at content) (seq 0 (length content / ROW_BYTES))) in *.
  assert (Hdata : get_all_rows db = Return data).
  { destruct (get_all_rows db) as [data'|e] eqn:Hg.
    - destruct (get_all_rows_returns db data' Hg) as (c0 & Hc0 & ->).
      rewrite Hdb in Hc0. injection Hc0 as <-. reflexivity.
    - exfalso. revert Hrun. unfold _build_index. unfold bindM at 1, reading.
      rewrite HN. unfold bindM at 1, modify. unfold bindM at 1.
      rewrite get_all_rows_set_no_centroids, Hg. discriminate. }
  exists data, kmeans. split; [exact Hdata|]. split; [exact Hfit|].
  split; [|split].
  - unfold read_file_centroids_with_memap. rewrite Hd, Hcent. reflexivity.
  - intros c l Hl. unfold read_file_records_mmap in Hl. rewrite Hd, Hlook in Hl.
    destruct (decide (c ∈ predict kmeans data)) as [Hc|Hc]; [|discriminate Hl].
    injection Hl as <-. split; [apply where_from_ascending|].
    split; [apply np_where_nonempty, Hc|].
    intros i. rewrite np_where_spec. unfold predict. rewrite list_lookup_fmap.
    reflexivity.
  - intros c Hc. unfold read_file_records_mmap in Hc. rewrite Hd, Hlook in Hc.
    destruct (decide (c ∈ predict kmeans data)) as [Hin|Hnot].
    + unfold predict in Hin. apply list_elem_of_fmap in Hin as (v & -> & Hv).
      apply list_elem_of_lookup in Hv as [i Hi]. exists i, v. split; [exact Hi|reflexivity].
    + exfalso. eapply Hc. reflexivity.
Qed.

(** X10: a rebuild does not depend on the index it replaces: started
    from any other content of the index directory it has the same
    outcome, and when it returns it leaves the same state, so no file
    of the previous index survives. *)
Theorem rebuild_ignores_previous_index (db : VecDB) (previous : option index_dir) :
  (_build_index MiniBatchKMeans_fit (set_index_path previous db)).2
    = (_build_index MiniBatchKMeans_fit db).2 /\
  ((_build_index MiniBatchKMeans_fit db).2 = Return tt ->
   (_build_index MiniBatchKMeans_fit (set_index_path previous db)).1
     = (_build_index MiniBatchKMeans_fit db).1).
Proof.
  unfold _build_index, bindM, reading, modify, recreate_index_dir. cbv beta.
  change (_get_num_records (set_index_path previous db)) with (_get_num_records db).
  destruct (_get_num_records db) as [n|e]; [|split; [reflexivity|discriminate]].
  change (get_all_rows (set_no_centroids (centroid_count n) (set_index_path previous db)))
    with (get_all_rows db).
  change (get_all_rows (set_no_centroids (centroid_count n) db)) with (get_all_rows db).
  destruct (get_all_rows db) as [training|e]; [|split; [reflexivity|discriminate]].
  destruct (MiniBatchKMeans_fit _ training) as [kmeans|e];
    [|split; [reflexivity|discriminate]].
  split; [reflexivity|intros _; reflexivity].
Qed.

End BuildResult.

Lemma build_writes_labels_and_centres_witness :
  _build_index (fitted_to centers3) store3
    = ((_build_index (fitted_to centers3) store3).1, Return tt) /\
  _get_num_records store3 = Return 3 /\
  no_centroids (_build_index (fitted_to centers3) store3).1 = centroid_count 3.
Proof.
  assert (H1 : _build_index (fitted_to centers3) store3
               = ((_build_index (fitted_to centers3) store3).1, Return tt)).
  { apply outcome_of_run. vm_compute. reflexivity. }
  assert (H2 : _get_num_records store3 = Return 3) by (vm_compute; reflexivity).
  split; [exact H1|]. split; [exact H2|].
  exact (proj1 (build_writes_labels_and_centres (fitted_to centers3) store3 _ 3 H1 H2)).
Defined.

Lemma rebuild_ignores_previous_index_witness :
  (_build_index (fitted_to centers3) store3).2 = Return tt /\
  (_build_index (fitted_to centers3) (set_index_path None store3)).1
    = (_build_index (fitted_to centers3) store3).1.
Proof.
  assert (H : (_build_index (fitted_to centers3) store3).2 = Return tt)
    by (vm_compute; reflexivity).
  split; [exact H|].
  exact (proj2 (rebuild_ignores_previous_index (fitted_to centers3) store3 None) H).
Defined.

(** ** The centroids that are probed *)

Lemma feq_of_key (x y : spec_float) :
  is_nan x = false -> is_nan y = false ->
  float_key x = float_key y -> feq x y = true.
Proof.
  unfold feq, SFeqb, SFcompare.
  destruct x as [sx|sx| |sx mx ex]; destruct y as [sy|sy| |sy my ey];
    try destruct sx; try destruct sy; cbn [float_key is_nan];
    intros Hx Hy Hk; try discriminate; try reflexivity.
  all: injection Hk as He Hm;
    assert (ex = ey) as -> by lia; assert (mx = my) as -> by lia;
    rewrite Z.compare_refl;
    change (Pos.compare_cont Eq my my) with (Pos.compare my my);
    rewrite Pos.compare_refl; reflexivity.
Qed.

Lemma tuple_lt_false_ordered (x y : spec_float * nat) :
  is_nan x.1 = false -> is_nan y.1 = false ->
  tuple_lt x y = false ->
  flt x.1 y.1 = false /\ (feq x.1 y.1 = true -> (y.2 <= x.2)%nat).
Proof.
  intros Hx Hy. unfold tuple_lt.
  destruct (feq x.1 y.1) eqn:Hfeq.
  - intros Hlt. apply Nat.ltb_ge in Hlt. split; [|intros _; exact Hlt].
    destruct (feq_key _ _ Hfeq) as (_ & _ & Hk).
    apply (flt_false_key _ _ Hx Hy). rewrite Hk. unfold lex_lt.
    destruct (float_key y.1) as [[a b] c]. cbn [fst snd]. lia.
  - intros Hlt. split; [exact Hlt|discriminate].
Qed.

Lemma tuple_lt_asym (x y : spec_float * nat) :
  is_nan x.1 = false -> is_nan y.1 = false ->
  tuple_lt x y = true -> tuple_lt y x = false.
Proof.
  intros Hx Hy. unfold tuple_lt.
  destruct (feq x.1 y.1) eqn:Hxy.
  - destruct (feq_key _ _ Hxy) as (_ & _ & Hk).
    rewrite (feq_of_key y.1 x.1 Hy Hx (eq_sym Hk)).
    intros H. apply Nat.ltb_lt in H. apply Nat.ltb_ge. lia.
  - intros Hlt. destruct (feq y.1 x.1) eqn:Hyx.
    + destruct (feq_key _ _ Hyx) as (_ & _ & Hk).
      rewrite (feq_of_key x.1 y.1 Hx Hy (eq_sym Hk)) in Hxy. discriminate Hxy.
    + apply (flt_asym _ _ Hx Hy Hlt).
Qed.

Lemma tuple_lt_neg_trans (x y z : spec_float * nat) :
  is_nan x.1 = false -> is_nan y.1 = false -> is_nan z.1 = false ->
  tuple_lt x y = false -> tuple_lt y z = false -> tuple_lt x z = false.
Proof.
  intros Hx Hy Hz Hxy Hyz.
  destruct (tuple_lt_false_ordered x y Hx Hy Hxy) as [Hf1 Hi1].
  destruct (tuple_lt_false_ordered y z Hy Hz Hyz) as [Hf2 Hi2].
  pose proof (flt_neg_trans _ _ _ Hx Hy Hz Hf1 Hf2) as Hf3.
  unfold tuple_lt. destruct (feq x.1 z.1) eqn:Hxz; [|exact Hf3].
  apply Nat.ltb_ge.
  destruct (feq_key _ _ Hxz) as (_ & _ & Hk).
  (* x and z have one key and y lies between them: all three are equal *)
  apply (flt_false_key _ _ Hx Hy) in Hf1. apply (flt_false_key _ _ Hy Hz) in Hf2.
  assert (Hky : float_key x.1 = float_key y.1).
  { rewrite Hk in Hf1. unfold lex_lt in Hf1, Hf2.
    rewrite Hk.
    destruct (float_key y.1) as [[a b] c], (float_key z.1) as [[a' b'] c'].
    cbn [fst snd] in *.
    assert (a = a') by lia. assert (b = b') by lia. assert (c = c') by lia.
    congruence. }
  specialize (Hi1 (feq_of_key _ _ Hx Hy Hky)).
  specialize (Hi2 (feq_of_key _ _ Hy Hz (eq_trans (eq_sym Hky) Hk))).
  lia.
Qed.

Lemma elem_of_combine_map_seq {A B} (f : A -> B) (l : list A) (start : nat) (s : B) (c : nat) :
  (s, c) ∈ combine (map f l) (seq start (length l)) ->
  exists v, l !! (c - start)%nat = Some v /\ s = f v /\ (start <= c)%nat.
Proof.
  revert start. induction l as [|v l IH]; intros start Hin; [inversion Hin|].
  cbn [map length seq combine] in Hin. apply elem_of_cons in Hin as [Heq|Hin].
  - injection Heq as -> ->. exists v. rewrite Nat.sub_diag. repeat split. lia.
  - destruct (IH (S start) Hin) as (v' & Hv' & Hs & Hle).
    exists v'. split; [|split; [exact Hs|lia]].
    replace (c - start)%nat with (S (c - S start)) by lia. exact Hv'.
Qed.

Section Probing.

Variable np_dot : list spec_float -> list spec_float -> spec_float.
Variable np_norm : list spec_float -> spec_float.

Lemma _get_top_centroids_value (db : VecDB) (d : index_dir) (cs : list Vector)
      (query : Vector) (k : nat) :
  index_path db = Some d ->
  centroids_bin d = Some cs ->
  (2 <= length cs)%nat ->
  Forall (fun c => length c = length query) cs ->
  _get_top_centroids np_dot np_norm db query k =
    Return (nlargest tuple_lt k
              (combine (map (fun r => cosine_quotient (np_dot (values r) (values query))
                                        (np_norm (values r)) (np_norm (values query))) cs)
                       (seq 0 (length cs)))).
Proof.
  intros Hd Hcs Hlen Hshape.
  unfold _get_top_centroids, read_file_centroids_with_memap.
  rewrite Hd, Hcs. cbn [bindO]. unfold _vectorized_cal_score.
  destruct cs as [|c0 cs']; [simpl in Hlen; lia|].
  replace (forallb _ (c0 :: cs')) with true.
  2:{ symmetry. apply forallb_forall. intros r Hr.
      rewrite Forall_forall in Hshape. apply Nat.eqb_eq, Hshape, list_elem_of_In, Hr. }
  cbn [bindO]. rewrite length_map.
  destruct (Nat.eqb_spec (length (c0 :: cs')) 1) as [?|_]; [lia|]. reflexivity.
Qed.

(** X11: with at least two centroids of the query's width on file,
    [_get_top_centroids] returns [min k C] pairs (score, centroid id),
    the ids distinct and below [C], each score the cosine quotient of
    that centroid with the query; when no score is NaN the pairs come
    best first, and of two centroids with equal scores the one with the
    larger id comes first. *)
Theorem top_centroids_ranked (db : VecDB) (d : index_dir) (cs : list Vector)
        (query : Vector) (k : nat) :
  index_path db = Some d ->
  centroids_bin d = Some cs ->
  (2 <= length cs)%nat ->
  Forall (fun c => length c = length query) cs ->
  exists top,
    _get_top_centroids np_dot np_norm db query k = Return top /\
    length top = Nat.min k (length cs) /\
    NoDup (map snd top) /\
    (forall s c, (s, c) ∈ top ->
       exists v, cs !! c = Some v /\
         s = cosine_quotient (np_dot (values v) (values query))
                             (np_norm (values v)) (np_norm (values query))) /\
    (Forall (fun v => is_nan (cosine_quotient (np_dot (values v) (values query))
                                (np_norm (values v)) (np_norm (values query))) = false) cs ->
     forall (i j : nat) (x y : spec_float * nat), (i < j)%nat ->
       top !! i = Some x -> top !! j = Some y ->
       flt x.1 y.1 = false /\ (feq x.1 y.1 = true -> (y.2 < x.2)%nat)).
Proof.
  intros Hd Hcs Hlen Hshape.
  rewrite (_get_top_centroids_value db d cs query k Hd Hcs Hlen Hshape).
  set (score := fun r : Vector => cosine_quotient _ _ _).
  set (heap := combine (map score cs) (seq 0 (length cs))).
  assert (Hsnd : map snd heap = seq 0 (length cs)).
  { subst heap. apply snd_zip. rewrite length_map, length_seq. lia. }
  assert (Hsub : forall p, p ∈ nlargest tuple_lt k heap -> p ∈ heap).
  { intros p Hp. rewrite <- (sorted_reverse_perm tuple_lt heap).
    eapply elem_of_sublist; [exact Hp|apply nlargest_sublist]. }
  assert (Hnd : NoDup (map snd (nlargest tuple_lt k heap))).
  { apply (sublist_NoDup _ (map snd (sorted_reverse tuple_lt heap))).
    - rewrite (sorted_reverse_perm tuple_lt heap), Hsnd. apply NoDup_seq.
    - apply (fmap_sublist snd), nlargest_sublist. }
  eexists. split; [reflexivity|]. split; [|split; [exact Hnd|split]].
  - rewrite nlargest_length. subst heap.
    rewrite length_combine, length_map, length_seq. lia.
  - intros s c Hin. apply Hsub in Hin.
    destruct (elem_of_combine_map_seq score cs 0 s c Hin) as (v & Hv & Hs & _).
    rewrite Nat.sub_0_r in Hv. exists v. split; assumption.
  - intros Hnan i j x y Hij Hi Hj.
    assert (Hok : Forall (fun p : spec_float * nat => is_nan p.1 = false) heap).
    { apply Forall_forall. intros [s c] Hin.
      destruct (elem_of_combine_map_seq score cs 0 s c Hin) as (v & Hv & -> & _).
      rewrite Forall_forall in Hnan. apply Hnan.
      apply list_elem_of_lookup. eexists. exact Hv. }
    pose proof (nlargest_descending tuple_lt (fun p => is_nan p.1 = false)
                  tuple_lt_asym tuple_lt_neg_trans k heap i j x y Hok Hij Hi Hj) as Hlt.
    assert (Hx : is_nan x.1 = false).
    { rewrite Forall_forall in Hok. apply Hok, Hsub.
      apply list_elem_of_lookup. eexists. exact Hi. }
    assert (Hy : is_nan y.1 = false).
    { rewrite Forall_forall in Hok. apply Hok, Hsub.
      apply list_elem_of_lookup. eexists. exact Hj. }
    destruct (tuple_lt_false_ordered x y Hx Hy Hlt) as [Hf Hidx].
    split; [exact Hf|]. intros Heq. specialize (Hidx Heq).
    assert (x.2 <> y.2); [|lia].
    intros Hsame.
    assert (Hi' : map snd (nlargest tuple_lt k heap) !! i = Some x.2)
      by (rewrite list_lookup_fmap, Hi; reflexivity).
    assert (Hj' : map snd (nlargest tuple_lt k heap) !! j = Some x.2)
      by (rewrite list_lookup_fmap, Hj, Hsame; reflexivity).
    pose proof (NoDup_lookup _ _ _ _ Hnd Hi' Hj'). lia.
Qed.

End Probing.

Lemma top_centroids_ranked_witness :
  index_path store3 = Some (IndexDir {[ 0%nat := [1; 2]%nat; 1%nat := [0%nat] ]} (Some centers3)) /\
  Forall (fun c => length c = length query3) centers3 /\
  exists top,
    _get_top_centroids dot_seq norm_seq store3 query3 1 = Return top /\
    length top = Nat.min 1 (length centers3).
Proof.
  assert (Hd : index_path store3
               = Some (IndexDir {[ 0%nat := [1; 2]%nat; 1%nat := [0%nat] ]} (Some centers3)))
    by (vm_compute; reflexivity).
  assert (Hshape : Forall (fun c => length c = length query3) centers3)
    by (repeat constructor).
  destruct (top_centroids_ranked dot_seq norm_seq store3 _ centers3 query3 1
              Hd eq_refl ltac:(cbn; lia) Hshape) as (top & Htop & Hlen & _).
  split; [exact Hd|]. split; [exact Hshape|]. exists top. split; [exact Htop|exact Hlen].
Defined.

(** ** What [retrieve] returns *)

Lemma read_postings_inv (db : VecDB) (d : index_dir) (labels : list nat)
      (lists : list (list nat)) :
  index_path db = Some d ->
  read_postings db labels = Return lists ->
  Forall2 (fun c l => postings d !! c = Some l) labels lists.
Proof.
  intros Hd. revert lists. induction labels as [|c labels IH]; intros lists Hread.
  - injection Hread as <-. constructor.
  - cbn [read_postings] in Hread. unfold read_file_records_mmap in Hread.
    rewrite Hd in Hread.
    destruct (postings d !! c) as [l|] eqn:Hl; [|discriminate Hread].
    cbn [bindO] in Hread.
    destruct (read_postings db labels) as [rest|]; [|discriminate Hread].
    injection Hread as <-. constructor; [exact Hl|]. apply IH. reflexivity.
Qed.

Lemma elem_of_snd_combine {A B} (l : list A) (k : list B) (y : B) :
  y ∈ map snd (combine l k) -> y ∈ k.
Proof.
  revert k. induction l as [|x l IH]; intros [|z k] Hin; try (inversion Hin; fail).
  cbn [combine map] in Hin. apply elem_of_cons in Hin as [->|Hin].
  - left.
  - right. apply IH, Hin.
Qed.

Section Returned.

Variable MiniBatchKMeans_fit : Z -> list Vector -> outcome KMeans.
Variable np_dot : list spec_float -> list spec_float -> spec_float.
Variable np_norm : list spec_float -> spec_float.

(** X12: whatever the state of the files, a result of [retrieve] has
    at most [top_k] entries and every entry is an id held by a posting
    file of the index: the engine returns no id the index does not
    list. *)
Theorem retrieve_returns_posted_ids (db : VecDB) (query : Vector) (top_k : nat)
        (out : list nat) :
  retrieve np_dot np_norm db query top_k = Return out ->
  (length out <= top_k)%nat /\
  exists d, index_path db = Some d /\
    forall i, i ∈ out -> exists c l, postings d !! c = Some l /\ i ∈ l.
Proof.
  unfold retrieve, scored_candidates.
  destruct (_get_num_records db) as [n|]; [|discriminate]. cbn [bindO].
  destruct (_get_top_centroids _ _ _ _ _) as [top|] eqn:Htop; [|discriminate].
  cbn [bindO].
  destruct (read_postings _ _) as [lists|] eqn:Hread; [|discriminate]. cbn [bindO].
  destruct (get_rows _ _) as [data|]; [|discriminate]. cbn [bindO].
  destruct (negb _); [discriminate|]. cbn [bindO]. intros [= <-].
  split; [rewrite length_map, nlargest_length; lia|].
  assert (Hd : exists d, index_path db = Some d).
  { unfold _get_top_centroids, read_file_centroids_with_memap in Htop.
    destruct (index_path db) as [d|]; [exists d; reflexivity|discriminate Htop]. }
  destruct Hd as [d Hd]. exists d. split; [exact Hd|].
  intros i Hi.
  assert (Hin : i ∈ concat lists).
  { eapply elem_of_snd_combine.
    erewrite <- (fmap_Permutation snd); [|apply (sorted_reverse_perm key_lt)].
    eapply elem_of_sublist; [exact Hi|]. apply (fmap_sublist snd), nlargest_sublist. }
  apply (elem_of_concat_postings _ _ _ i (read_postings_inv db d _ _ Hd Hread)) in Hin
    as (c & l & _ & Hl & Hil).
  exists c, l. split; assumption.
Qed.

(** X13: provided no candidate's score is NaN, the results for a
    smaller [top_k] are the first entries of the results for a larger
    one: asking for more never changes what comes first.  (With a NaN
    score the selection of line 162 takes another path for another
    [top_k] and may order the same candidates differently.) *)
Theorem retrieve_prefix_of_larger_top_k (db : VecDB) (query : Vector)
        (k1 k2 : nat) (cands : list (spec_float * nat)) (out2 : list nat) :
  scored_candidates np_dot np_norm db query = Return cands ->
  Forall (fun c => is_nan c.1 = false) cands ->
  retrieve np_dot np_norm db query k2 = Return out2 ->
  (k1 <= k2)%nat ->
  retrieve np_dot np_norm db query k1 = Return (take k1 out2).
Proof.
  intros Hcands _. unfold retrieve. rewrite Hcands.
  cbn [bindO]. intros [= <-] Hle. f_equal. unfold nlargest.
  rewrite <- !fmap_take, take_take, Nat.min_l by exact Hle. reflexivity.
Qed.

(** X14: when a probed posting list holds an id that is not below the
    record count (an index built for a larger file), [retrieve] reports
    nothing: the batched read is voided and the result is the empty
    list, without an error. *)
Theorem retrieve_empty_on_stale_index
        (db : VecDB) (N : Z) (query : Vector) (top_k : nat)
        (top : list (spec_float * nat)) (lists : list (list nat)) :
  _get_num_records db = Return N ->
  _get_top_centroids np_dot np_norm db query (probe_count N) = Return top ->
  read_postings db (map snd top) = Return lists ->
  Exists (fun i => N <= Z.of_nat i) (concat lists) ->
  length query = DIMENSION ->
  retrieve np_dot np_norm db query top_k = Return [].
Proof.
  intros HN Htop Hread Hbad Hq.
  unfold retrieve, scored_candidates. rewrite HN. cbn [bindO].
  rewrite Htop. cbn [bindO]. rewrite Hread. cbn [bindO].
  destruct (get_rows_body_bad_id db N (map Z.of_nat (concat lists)) HN) as [e He].
  { apply Exists_fmap. eapply Exists_impl; [exact Hbad|]. intros i Hi. unfold compose. cbv beta in Hi |- *. lia. }
  unfold get_rows. rewrite He. cbn [bindO].
  rewrite Hq, Nat.eqb_refl. cbn [negb map zip_with combine bindO].
  unfold nlargest. cbn [sorted_reverse foldr]. rewrite take_nil. reflexivity.
Qed.

(** X15: when the index has no more centroids than [retrieve] probes,
    the search is exhaustive: on a store whose index build returned
    with a posting file for every centroid and for no other label, a
    [top_k] of at least the record count returns every row id exactly
    once. *)
Theorem retrieve_exhaustive_when_all_probed
        (db0 db : VecDB) (N : Z) (d : index_dir) (cs : list Vector)
        (query : Vector) (top_k : nat) :
  _get_num_records db0 = Return N ->
  _build_index MiniBatchKMeans_fit db0 = (db, Return tt) ->
  index_path db = Some d ->
  centroids_bin d = Some cs ->
  (2 <= length cs <= probe_count N)%nat ->
  Forall (fun c => length c = DIMENSION) cs ->
  (forall c, (c < length cs)%nat <-> is_Some (postings d !! c)) ->
  length query = DIMENSION ->
  (Z.to_nat N <= top_k)%nat ->
  exists out,
    retrieve np_dot np_norm db query top_k = Return out /\
    out ≡ₚ seq 0 (Z.to_nat N).
Proof.
  intros HN Hrun Hd Hcs Hlen Hshape Hfull Hq Hk.
  destruct (posting_files_of_build MiniBatchKMeans_fit db0 db N Hrun HN)
    as (d' & Hd' & Hcover & Hbound & Hdisj & Hnodup & _).
  rewrite Hd in Hd'. injection Hd' as <-.
  destruct (num_records_nat db0 N HN) as (content & Hdb0 & -> & _).
  assert (Hdb : db_file db = Some content).
  { pose proof (_build_index_db_file MiniBatchKMeans_fit db0) as H.
    rewrite Hrun in H. cbn [fst] in H. congruence. }
  set (n := (length content / ROW_BYTES)%nat) in *.
  destruct (scored_candidates_returns np_dot np_norm db content d cs query
              Hdb Hd Hcs ltac:(lia) Hshape Hq)
    as (top & lists & _ & Htoplen & Hnd & Hf2 & Hcands).
  { intros c Hc. destruct (proj1 (Hfull c) Hc) as [l Hl].
    exists l. split; [exact Hl|]. apply Forall_forall. intros i Hi.
    specialize (Hbound i c l Hl Hi). lia. }
  assert (Hf2' : Forall2 (fun c l => postings d !! c = Some l) (map snd top) lists).
  { eapply Forall2_impl; [exact Hf2|]. intros c l [_ H]. exact H. }
  assert (Hlabels : map snd top ≡ₚ seq 0 (length cs)).
  { apply submseteq_length_Permutation.
    - apply NoDup_submseteq; [exact Hnd|].
      intros c Hc. apply list_elem_of_lookup in Hc as [k Hk'].
      destruct (Forall2_lookup_l _ _ _ _ _ Hf2 Hk') as (l & _ & Hlt & _).
      apply elem_of_seq. lia.
    - rewrite length_seq, length_map, Htoplen.
      rewrite <- Nat2Z.inj_div. fold n. lia. }
  assert (Hids_nd : NoDup (concat lists))
    by (eapply concat_postings_NoDup; eauto).
  assert (Hids : forall i, i ∈ concat lists <-> i ∈ seq 0 n).
  { intros i. rewrite (elem_of_concat_postings _ _ _ i Hf2'), elem_of_seq. split.
    - intros (c & l & _ & Hl & Hil). specialize (Hbound i c l Hl Hil). lia.
    - intros Hi. destruct (Hcover i ltac:(lia)) as (c & l & Hl & Hil).
      exists c, l. split; [|split; assumption].
      rewrite Hlabels. apply elem_of_seq.
      pose proof (proj2 (Hfull c) (mk_is_Some _ _ Hl)). lia. }
  assert (Hperm : concat lists ≡ₚ seq 0 n)
    by (apply NoDup_Permutation; [exact Hids_nd|apply NoDup_seq|exact Hids]).
  set (cands := map (fun i => (row_score np_dot np_norm content query i, i)) (concat lists)) in *.
  assert (Hsnd : map snd cands = concat lists).
  { subst cands. rewrite map_map. cbn. apply map_id. }
  exists (map snd (nlargest key_lt top_k cands)).
  split; [unfold retrieve; rewrite Hcands; reflexivity|].
  rewrite Nat2Z.id. rewrite <- Hperm, <- Hsnd.
  apply fmap_Permutation, nlargest_all.
  subst cands. rewrite length_map, Hperm, length_seq. lia.
Qed.

End Returned.

Lemma retrieve_returns_posted_ids_witness :
  retrieve dot_seq norm_seq store3 query3 2 = Return [1; 2]%nat /\
  (length [1; 2]%nat <= 2)%nat /\
  exists d, index_path store3 = Some d /\
    forall i, i ∈ [1; 2]%nat -> exists c l, postings d !! c = Some l /\ i ∈ l.
Proof.
  assert (H : retrieve dot_seq norm_seq store3 query3 2 = Return [1; 2]%nat)
    by (vm_compute; reflexivity).
  destruct (retrieve_returns_posted_ids dot_seq norm_seq store3 query3 2 _ H) as [Hl Hd].
  split; [exact H|]. split; [exact Hl|exact Hd].
Defined.

Lemma retrieve_prefix_of_larger_top_k_witness :
  exists cands,
    scored_candidates dot_seq norm_seq store3 query3 = Return cands /\
    Forall (fun c : spec_float * nat => is_nan c.1 = false) cands /\
    retrieve dot_seq norm_seq store3 query3 5 = Return [1; 2; 0]%nat /\
    retrieve dot_seq norm_seq store3 query3 2 = Return (take 2 [1; 2; 0]%nat).
Proof.
  assert (Hc : exists cands, scored_candidates dot_seq norm_seq store3 query3 = Return cands /\
                 Forall (fun c : spec_float * nat => is_nan c.1 = false) cands).
  { eexists. split; [vm_compute; reflexivity|]. repeat constructor. }
  destruct Hc as (cands & Hcands & Hnan).
  assert (H : retrieve dot_seq norm_seq store3 query3 5 = Return [1; 2; 0]%nat)
    by (vm_compute; reflexivity).
  exists cands. split; [exact Hcands|]. split; [exact Hnan|]. split; [exact H|].
  exact (retrieve_prefix_of_larger_top_k dot_seq norm_seq store3 query3 2 5 cands _
           Hcands Hnan H ltac:(lia)).
Defined.

Lemma retrieve_empty_on_stale_index_witness :
  _get_num_records stale3 = Return 2 /\
  Exists (fun i => 2 <= Z.of_nat i) (concat [[1; 2]; [0]]%nat) /\
  retrieve dot_seq norm_seq stale3 query3 5 = Return [].
Proof.
  assert (HN : _get_num_records stale3 = Return 2) by (vm_compute; reflexivity).
  assert (Htop : exists top,
            _get_top_centroids dot_seq norm_seq stale3 query3 (probe_count 2) = Return top /\
            read_postings stale3 (map snd top) = Return [[1; 2]; [0]]%nat).
  { vm_compute. eexists. split; reflexivity. }
  destruct Htop as (top & Htop & Hread).
  assert (Hbad : Exists (fun i => 2 <= Z.of_nat i) (concat [[1; 2]; [0]]%nat)).
  { cbn [concat app]. apply Exists_cons_tl, Exists_cons_hd. lia. }
  split; [exact HN|]. split; [exact Hbad|].
  exact (retrieve_empty_on_stale_index dot_seq norm_seq stale3 2 query3 5 top _
           HN Htop Hread Hbad eq_refl).
Defined.

Lemma retrieve_exhaustive_when_all_probed_witness :
  _get_num_records store3 = Return 3 /\
  _build_index (fitted_to centers3) store3
    = ((_build_index (fitted_to centers3) store3).1, Return tt) /\
  exists out,
    retrieve dot_seq norm_seq (_build_index (fitted_to centers3) store3).1 query3 5
      = Return out /\
    out ≡ₚ seq 0 (Z.to_nat 3).
Proof.
  assert (HN : _get_num_records store3 = Return 3) by (vm_compute; reflexivity).
  assert (Hrun : _build_index (fitted_to centers3) store3
                 = ((_build_index (fitted_to centers3) store3).1, Return tt)).
  { apply outcome_of_run. vm_compute. reflexivity. }
  set (P := {[ 0%nat := [1; 2]%nat; 1%nat := [0%nat] ]} : gmap nat (list nat)).
  assert (Hd : index_path (_build_index (fitted_to centers3) store3).1
               = Some (IndexDir P (Some centers3)))
    by (vm_compute; reflexivity).
  assert (Hshape : Forall (fun c => length c = DIMENSION) centers3)
    by (repeat constructor).
  assert (Hfull : forall c, (c < length centers3)%nat
                            <-> is_Some (postings (IndexDir P (Some centers3)) !! c)).
  { intros c. change (length centers3) with 2%nat. cbn [postings].
    destruct c as [|[|c]].
    - split; [intros _; eexists; reflexivity|lia].
    - split; [intros _; eexists; reflexivity|lia].
    - split; [lia|]. intros [l Hl]. subst P.
      rewrite lookup_insert_ne, lookup_singleton_ne in Hl by lia. discriminate Hl. }
  destruct (retrieve_exhaustive_when_all_probed (fitted_to centers3) dot_seq norm_seq
              store3 _ 3 _ centers3 query3 5 HN Hrun Hd eq_refl
              ltac:(change (2 <= 2 <= 12)%nat; lia) Hshape Hfull eq_refl ltac:(lia))
    as (out & Hout & Hperm).
  split; [exact HN|]. split; [exact Hrun|]. exists out. split; [exact Hout|exact Hperm].
Defined.

(** ** Cluster counts that k-means can serve *)

(** X16: for a store of at least two rows the number of clusters asked
    of k-means lies between 2 and the number of rows; for a store of
    one row it is 2, more than there are rows, and for an empty store
    it is 0.  Below 49 rows it is at most 12, the number of centroids
    [retrieve] probes. *)
Theorem centroid_count_feasible (n : Z) :
  0 <= n ->
  (2 <= n -> 2 <= centroid_count n <= n) /\
  (n < 2 -> centroid_count n = 2 * n) /\
  (n < 49 -> centroid_count n <= 12 /\ probe_count n = 12%nat).
Proof.
  intros Hn.
  pose proof (Z.sqrt_spec n Hn) as Hs. unfold Z.succ in Hs.
  pose proof (Z.sqrt_nonneg n) as Hs0.
  split; [|split].
  - intros H2.
    destruct (decide (n = 15000000)) as [-> | H15]; [vm_compute; split; discriminate|].
    destruct (decide (n = 20000000)) as [-> | H20]; [vm_compute; split; discriminate|].
    rewrite centroid_count_base by assumption.
    assert (1 <= Z.sqrt n) by nia. nia.
  - intros H2. rewrite centroid_count_base by lia.
    assert (n = 0 \/ n = 1) as [-> | ->] by lia; reflexivity.
  - intros H49. rewrite centroid_count_base by lia. split; [nia|].
    unfold probe_count. destruct (Z.leb_spec n (10 * 10 ^ 6)); [reflexivity|lia].
Qed.

Lemma centroid_count_feasible_witness :
  0 <= 30 /\ 2 <= centroid_count 30 <= 30 /\ centroid_count 30 <= 12.
Proof.
  destruct (centroid_count_feasible 30 ltac:(lia)) as (H1 & _ & H3).
  split; [lia|]. split; [apply H1; lia|apply H3; lia].
Defined.
